(** * Nomina BJ Pro 4.0: the payroll engine and the period aggregator

    A shallow embedding of [server/services/calculoNomina.js],
    [server/middleware/errorHandler.js] and the handlers of
    [server/routes/nominas.js], [server/routes/config.js] and
    [server/routes/empleados.js], followed by the properties of the
    specification that concern them.

    Conventions of the embedding.
    - A JavaScript number is an IEEE-754 binary64 value: Rocq's primitive
      [float], with the primitive operations and comparisons.
    - A property that may be [undefined] is an [option]; numeric properties
      hold numbers when they are present.
    - A call either returns or throws: [Completion].
    - The JSON files under [server/data] are the fields of [Store]; reading
      and writing them does not fail.  A period stands for the file of its
      name in [server/data/nominas]: [guardarNomina] and [leerNomina] use
      [path.join(NOMINAS_PATH, periodo + '.json')], so the store is that
      directory for the periods that hold no path separator.  A period
      that holds one ('../empleados', './2022-S19', '2022/S19') names the
      file of another key, a file outside the directory, or a directory
      that is not there; what the host does with it is outside the store.
    - Every [new Date().toISOString()] of one request gives the same
      instant, a parameter of the handler.  Console output is left out. *)

From Stdlib Require Import Floats ZArith Bool Lia.
From stdpp Require Import gmap strings list.

Set Warnings "-inexact-float".
Local Open Scope string_scope.

(** ** Numbers *)

(** [ToBoolean] of a number: [+0], [-0] and [NaN] are falsy. *)
Definition truthy (x : float) : bool :=
  negb (PrimFloat.is_zero x || PrimFloat.is_nan x).

(** [ToBoolean] of a numeric property that may be [undefined]. *)
Definition truthyProp (o : option float) : bool :=
  match o with
  | Some x => truthy x
  | None => false
  end.

(** [ToNumber] of a numeric property: [undefined] becomes [NaN]. *)
Definition toNumber (o : option float) : float :=
  match o with
  | Some x => x
  | None => nan
  end.

(** [a || b] on a numeric property with a numeric fallback. *)
Definition orElse (o : option float) (fallback : float) : float :=
  match o with
  | Some x => if truthy x then x else fallback
  | None => fallback
  end.

(** A destructuring default [{ f = d } = obj]: used only for [undefined]. *)
Definition withDefault (o : option float) (d : float) : float :=
  match o with
  | Some x => x
  | None => d
  end.

(** The integer [k] as a number (exact for [|k| <= 2^53]). *)
Definition ofZ (k : Z) : float :=
  if (k <? 0)%Z
  then (- PrimFloat.of_uint63 (Uint63.of_Z (- k)))%float
  else PrimFloat.of_uint63 (Uint63.of_Z k).

(** The integer nearest to [n / 2^p], the larger one on a tie:
    [floor (n / 2^p + 1/2)]. *)
Definition roundHalfUp (n : Z) (p : Z) : Z :=
  ((2 * n + 2 ^ p) / 2 ^ (p + 1))%Z.

(** [Math.round] (ECMAScript 21.3.2.28): a number that is not finite or is
    integral is returned as it is; a number in [(0, 0.5)] gives [+0], one in
    [[-0.5, 0)] gives [-0]; otherwise the closest integral number, the one
    closer to plus infinity on a tie.  A finite non-zero float is
    [(-1)^s * m * 2^e]. *)
Definition mathRound (x : float) : float :=
  match Prim2SF x with
  | S754_finite s m e =>
      if (0 <=? e)%Z then x
      else
        let k := roundHalfUp (if s then Z.neg m else Z.pos m) (- e) in
        if (k =? 0)%Z then (if s then neg_zero else zero) else ofZ k
  | _ => x
  end.

(** [redondear], calculoNomina.js lines 272-274. *)
Definition redondear (valor : float) : float :=
  (mathRound (valor * 100) / 100)%float.

(** ** Errors (errorHandler.js) *)

Record Violacion := { campo : string; mensaje : string }.

(** An entry of the [ErrorCodes] table. *)
Record ErrorDef := { def_code : string; def_status : Z; def_message : string }.

Definition INTERNAL_ERROR : ErrorDef :=
  {| def_code := "INTERNAL_ERROR"; def_status := 500;
     def_message := "Error interno del servidor" |}.

Definition ErrorCodes : list (string * ErrorDef) :=
  [ ("EMP_NOT_FOUND",
      {| def_code := "EMP_NOT_FOUND"; def_status := 404;
         def_message := "Empleado no encontrado" |});
    ("EMP_DUPLICATE",
      {| def_code := "EMP_DUPLICATE"; def_status := 409;
         def_message := "La cédula ya está registrada" |});
    ("EMP_INVALID_DATA",
      {| def_code := "EMP_INVALID_DATA"; def_status := 400;
         def_message := "Datos del empleado inválidos" |});
    ("CALC_INVALID_DAYS",
      {| def_code := "CALC_INVALID_DAYS"; def_status := 400;
         def_message := "Días laborados debe estar entre 0 y 30" |});
    ("CALC_NEGATIVE_RESULT",
      {| def_code := "CALC_NEGATIVE_RESULT"; def_status := 400;
         def_message := "El resultado del cálculo es negativo" |});
    ("CALC_MISSING_CONFIG",
      {| def_code := "CALC_MISSING_CONFIG"; def_status := 500;
         def_message := "Configuración del sistema no disponible" |});
    ("FILE_READ_ERROR",
      {| def_code := "FILE_READ_ERROR"; def_status := 500;
         def_message := "Error leyendo archivo de datos" |});
    ("FILE_WRITE_ERROR",
      {| def_code := "FILE_WRITE_ERROR"; def_status := 500;
         def_message := "Error guardando archivo de datos" |});
    ("NOMINA_NOT_FOUND",
      {| def_code := "NOMINA_NOT_FOUND"; def_status := 404;
         def_message := "Período de nómina no encontrado" |});
    ("NOMINA_ALREADY_CLOSED",
      {| def_code := "NOMINA_ALREADY_CLOSED"; def_status := 400;
         def_message := "El período de nómina ya está cerrado" |});
    ("VALIDATION_ERROR",
      {| def_code := "VALIDATION_ERROR"; def_status := 400;
         def_message := "Error de validación" |});
    ("INTERNAL_ERROR", INTERNAL_ERROR) ].

Fixpoint assoc {A} (k : string) (tbl : list (string * A)) : option A :=
  match tbl with
  | [] => None
  | (k', v) :: rest => if String.eqb k k' then Some v else assoc k rest
  end.

(** [ErrorCodes] is an object literal, so besides its own twelve keys it
    answers to the names it inherits from [Object.prototype]: under those,
    [ErrorCodes[k]] is a function (the prototype itself under [__proto__]),
    which is truthy and has no [message], [status] or [code]. *)
Definition heredadas : list string :=
  [ "constructor"; "__defineGetter__"; "__defineSetter__"; "hasOwnProperty";
    "__lookupGetter__"; "__lookupSetter__"; "isPrototypeOf"; "propertyIsEnumerable";
    "toString"; "valueOf"; "__proto__"; "toLocaleString" ].

(** [ErrorCodes[errorKey]]. *)
Inductive Propiedad :=
  | Propia (errorDef : ErrorDef)
  | Heredada
  | Indefinida.

Definition propiedad (errorKey : string) : Propiedad :=
  match assoc errorKey ErrorCodes with
  | Some errorDef => Propia errorDef
  | None => if bool_decide (errorKey ∈ heredadas) then Heredada else Indefinida
  end.

(** [class AppError extends Error]; [statusCode] and [code] are what the
    constructor was given, [undefined] included; [details] is attached by
    the engine. *)
Record AppError := {
  message : string;
  statusCode : option Z;
  code : option string;
  isOperational : bool;
  details : option (list Violacion)
}.

(** [customMessage || m], handed to [super]: [Error(undefined)] has the
    empty message. *)
Definition mensajeO (customMessage : option string) (m : option string) : string :=
  match customMessage with
  | Some c => if String.eqb c "" then default "" m else c
  | None => default "" m
  end.

(** [createError(errorKey, customMessage = null)], lines 61-68:
    [ErrorCodes[errorKey] || ErrorCodes.INTERNAL_ERROR], then
    [new AppError(customMessage || errorDef.message, errorDef.status,
    errorDef.code)]. *)
Definition createError (errorKey : string) (customMessage : option string) : AppError :=
  match propiedad errorKey with
  | Propia errorDef =>
      {| message := mensajeO customMessage (Some (def_message errorDef));
         statusCode := Some (def_status errorDef);
         code := Some (def_code errorDef);
         isOperational := true;
         details := None |}
  | Heredada =>
      {| message := mensajeO customMessage None;
         statusCode := None;
         code := None;
         isOperational := true;
         details := None |}
  | Indefinida =>
      {| message := mensajeO customMessage (Some (def_message INTERNAL_ERROR));
         statusCode := Some (def_status INTERNAL_ERROR);
         code := Some (def_code INTERNAL_ERROR);
         isOperational := true;
         details := None |}
  end.

(** What a [throw] carries: an [AppError], or one of the errors the
    language raises by itself. *)
Inductive Exception :=
  | ExApp (e : AppError)
  | ExReferenceError (msg : string)
  | ExTypeError (msg : string).

(** [error.message]. *)
Definition exMessage (x : Exception) : string :=
  match x with
  | ExApp e => message e
  | ExReferenceError m => m
  | ExTypeError m => m
  end.

(** [err.code] as the error middleware reads it. *)
Definition exCode (x : Exception) : option string :=
  match x with
  | ExApp e => code e
  | _ => None
  end.

Inductive Completion (A : Type) :=
  | Return (a : A)
  | Throw (x : Exception).
Arguments Return {A} a.
Arguments Throw {A} x.

Definition isThrow {A} (c : Completion A) : bool :=
  match c with
  | Throw _ => true
  | Return _ => false
  end.

(** ** Data model *)

(** [config.factores]. *)
Module Factores.
Record t := mk {
  horaExtraDiurna : float;
  horaExtraNocturna : float;
  recargoNocturno : float;
  horaExtraDomDiurna : float;
  horaExtraDomNocturna : float;
  dominicalSinComp : float;
  dominicalConComp : float
}.
End Factores.

(** [server/data/config.json]. *)
Module Config.
Record t := mk {
  smmlv : option float;
  auxTransporte : float;
  saludPct : float;
  pensionPct : float;
  horaDivisor : option float;
  factores : Factores.t
}.
End Config.

(** An entry of [server/data/empleados.json]. *)
Module Empleado.
Record t := mk {
  cedula : string;
  nombres : string;
  salarioBase : option float;
  auxTransporte : option float;
  esSalarioMinimo : bool;
  activo : bool
}.
End Empleado.

(** The [novedades] object of a request. *)
Module Novedades.
Record t := mk {
  diasLaborados : option float;
  horasExtraDiurna : option float;
  horasExtraNocturna : option float;
  horasRecargoNocturno : option float;
  horasExtraDomDiurna : option float;
  horasExtraDomNocturna : option float;
  dominicalSinComp : option float;
  dominicalConComp : option float;
  bonificacion : option float;
  prestamo : option float
}.

(** The empty object. *)
Definition vacio : t := mk None None None None None None None None None None.
End Novedades.

(** The object [calcularValoresBase] returns. *)
Module ValoresBase.
Record t := mk {
  valorDia : float;
  auxDia : float;
  saludDia : float;
  pensionDia : float;
  horaOrdinaria : float;
  horaExtraDiurna : float;
  horaExtraNocturna : float;
  recargoNocturno : float;
  horaExtraDomDiurna : float;
  horaExtraDomNocturna : float;
  dominicalSinComp : float;
  dominicalConComp : float
}.
End ValoresBase.

(** An entry [{ cantidad, valor }] of [detalleExtras]. *)
Record Extra := { cantidad : float; valor : float }.

Module DetalleExtras.
Record t := mk {
  horasExtraDiurna : Extra;
  horasExtraNocturna : Extra;
  recargoNocturno : Extra;
  horasExtraDomDiurna : Extra;
  horasExtraDomNocturna : Extra;
  dominicalSinComp : Extra;
  dominicalConComp : Extra
}.
End DetalleExtras.

(** The [valoresBase] metadata of a settlement. *)
Module Metadata.
Record t := mk {
  valorDia : float;
  auxDia : float;
  horaOrdinaria : float;
  saludDia : float;
  pensionDia : float
}.
End Metadata.

(** The settlement [calcularNominaSemanal] returns; [tipoNomina], [periodo]
    and [liquidadoAt] are assigned later by its callers. *)
Module Liquidacion.
Record t := mk {
  cedula : string;
  nombres : string;
  diasLaborados : float;
  salarioBase : float;
  auxTransporte : option float;
  salarioDevengado : float;
  auxDevengado : float;
  totalExtras : float;
  detalleExtras : DetalleExtras.t;
  bonificacion : float;
  totalDevengado : float;
  deduccionSalud : float;
  deduccionPension : float;
  deduccionPrestamo : float;
  totalDeducciones : float;
  valorNominaSemanal : float;
  valorBoniSemanal : float;
  totalNomina : float;
  totalConsignado : float;
  valoresBase : Metadata.t;
  tipoNomina : option string;
  periodo : option string;
  liquidadoAt : option string
}.
End Liquidacion.

(** ** Validation: [validarDatos], calculoNomina.js lines 32-74 *)

(** [x !== undefined && x < 0]. *)
Definition negativo (o : option float) : bool :=
  match o with
  | Some x => (x <? 0)%float
  | None => false
  end.

(** [!empleado || !empleado.salarioBase]. *)
Definition empleadoInvalido (empleado : option Empleado.t) : bool :=
  match empleado with
  | Some e => negb (truthyProp (Empleado.salarioBase e))
  | None => true
  end.

(** [!config || !config.smmlv]. *)
Definition configInvalida (config : option Config.t) : bool :=
  match config with
  | Some c => negb (truthyProp (Config.smmlv c))
  | None => true
  end.

(** [diasLaborados === undefined || diasLaborados < 0 || diasLaborados > 30]. *)
Definition diasFueraDeRango (o : option float) : bool :=
  match o with
  | Some d => (d <? 0)%float || (30 <? d)%float
  | None => true
  end.

(** [if (cond) errores.push(v)]. *)
Definition pushIf (cond : bool) (v : Violacion) (errores : list Violacion) : list Violacion :=
  if cond then errores ++ [v] else errores.

Definition validarDatos (empleado : option Empleado.t) (novedades : option Novedades.t)
    (config : option Config.t) : list Violacion :=
  let errores := [] in
  let errores :=
    pushIf (empleadoInvalido empleado)
      {| campo := "empleado"; mensaje := "Empleado no válido o sin salario base" |} errores in
  match novedades with
  | None =>
      (* lines 41-44: push and return at once *)
      errores ++ [{| campo := "novedades"; mensaje := "Novedades no proporcionadas" |}]
  | Some n =>
      let errores :=
        pushIf (diasFueraDeRango (Novedades.diasLaborados n))
          {| campo := "diasLaborados"; mensaje := "Debe estar entre 0 y 30" |} errores in
      let errores :=
        pushIf (negativo (Novedades.horasExtraDiurna n))
          {| campo := "horasExtraDiurna"; mensaje := "No puede ser negativo" |} errores in
      let errores :=
        pushIf (negativo (Novedades.horasExtraNocturna n))
          {| campo := "horasExtraNocturna"; mensaje := "No puede ser negativo" |} errores in
      let errores :=
        pushIf (negativo (Novedades.prestamo n))
          {| campo := "prestamo"; mensaje := "No puede ser negativo" |} errores in
      let errores :=
        pushIf (negativo (Novedades.bonificacion n))
          {| campo := "bonificacion"; mensaje := "No puede ser negativo" |} errores in
      pushIf (configInvalida config)
        {| campo := "config"; mensaje := "Configuración del sistema no disponible" |} errores
  end.

(** ** Base values: [calcularValoresBase], calculoNomina.js lines 82-104 *)

(** [config.horaDivisor || 240], line 83. *)
Definition divisorHora (config : Config.t) : float :=
  orElse (Config.horaDivisor config) 240%float.

Definition calcularValoresBase (salarioBase : float) (config : Config.t) : ValoresBase.t :=
  let horaDivisor := divisorHora config in
  let f := Config.factores config in
  {| ValoresBase.valorDia := salarioBase / 30;
     ValoresBase.auxDia := Config.auxTransporte config / 30;
     ValoresBase.saludDia := (salarioBase * (Config.saludPct config / 100)) / 30;
     ValoresBase.pensionDia := (salarioBase * (Config.pensionPct config / 100)) / 30;
     ValoresBase.horaOrdinaria := salarioBase / horaDivisor;
     ValoresBase.horaExtraDiurna := (salarioBase / horaDivisor) * Factores.horaExtraDiurna f;
     ValoresBase.horaExtraNocturna := (salarioBase / horaDivisor) * Factores.horaExtraNocturna f;
     ValoresBase.recargoNocturno := (salarioBase / horaDivisor) * Factores.recargoNocturno f;
     ValoresBase.horaExtraDomDiurna := (salarioBase / horaDivisor) * Factores.horaExtraDomDiurna f;
     ValoresBase.horaExtraDomNocturna :=
       (salarioBase / horaDivisor) * Factores.horaExtraDomNocturna f;
     ValoresBase.dominicalSinComp := (salarioBase / 30) * Factores.dominicalSinComp f;
     ValoresBase.dominicalConComp := (salarioBase / 30) * Factores.dominicalConComp f |}%float.

(** ** The free identifier [salarioBase]

    [calcularNominaSemanal] reads an identifier [salarioBase] on line 152
    (the subsidy test) and again on line 205 (the shorthand property of the
    result).  Line 130 destructures [auxTransporte], [nombres] and [cedula]
    from [empleado] and nothing else; the stored salary is only read as
    [empleado.salarioBase] on line 125, into [salarioBaseReal].  Neither the
    function nor the module declares [salarioBase] (the parameter of that
    name belongs to [calcularValoresBase]).  The read is therefore resolved
    on the global object: it gives the value of a global of that name when
    there is one, and throws [ReferenceError] when there is none.
    [Global.t] is that binding.  No file of the repository creates such a
    global: the program runs in [sinGlobales]. *)
Module Global.
Record t := mk { salarioBase : option float }.
End Global.

Definition sinGlobales : Global.t := Global.mk None.

(** ** The weekly engine: [calcularNominaSemanal], calculoNomina.js lines 113-245 *)

(** The values of lines 125-190, before any rounding. *)
Module Montos.
Record t := mk {
  base : ValoresBase.t;
  diasLaborados : float;
  horasExtraDiurna : float;
  horasExtraNocturna : float;
  horasRecargoNocturno : float;
  horasExtraDomDiurna : float;
  horasExtraDomNocturna : float;
  dominicalSinComp : float;
  dominicalConComp : float;
  bonificacion : float;
  salarioDevengado : float;
  tieneAuxilio : bool;
  auxDevengado : float;
  valorHorasExtraDiurna : float;
  valorHorasExtraNocturna : float;
  valorRecargoNocturno : float;
  valorHorasExtraDomDiurna : float;
  valorHorasExtraDomNocturna : float;
  valorDominicalSinComp : float;
  valorDominicalConComp : float;
  totalExtras : float;
  totalDevengadoSalarial : float;
  deduccionSalud : float;
  deduccionPension : float;
  deduccionPrestamo : float;
  totalDeducciones : float;
  valorNominaSemanal : float;
  valorBoniSemanal : float;
  totalNomina : float;
  totalConsignado : float
}.
End Montos.

(** Lines 125-128: the salary the rates are computed from. *)
Definition salarioBaseReal (empleado : Empleado.t) (config : Config.t) : float :=
  if Empleado.esSalarioMinimo empleado
  then toNumber (Config.smmlv config)
  else toNumber (Empleado.salarioBase empleado).

Local Open Scope float_scope.

(** Lines 125-190.  [salarioBase] is the value the free identifier of line
    152 resolved to. *)
Definition montos (salarioBase : float) (empleado : Empleado.t) (novedades : Novedades.t)
    (config : Config.t) : Montos.t :=
  let diasLaborados := withDefault (Novedades.diasLaborados novedades) 7 in
  let horasExtraDiurna := withDefault (Novedades.horasExtraDiurna novedades) 0 in
  let horasExtraNocturna := withDefault (Novedades.horasExtraNocturna novedades) 0 in
  let horasRecargoNocturno := withDefault (Novedades.horasRecargoNocturno novedades) 0 in
  let horasExtraDomDiurna := withDefault (Novedades.horasExtraDomDiurna novedades) 0 in
  let horasExtraDomNocturna := withDefault (Novedades.horasExtraDomNocturna novedades) 0 in
  let dominicalSinComp := withDefault (Novedades.dominicalSinComp novedades) 0 in
  let dominicalConComp := withDefault (Novedades.dominicalConComp novedades) 0 in
  let bonificacion := withDefault (Novedades.bonificacion novedades) 0 in
  let prestamo := withDefault (Novedades.prestamo novedades) 0 in
  let base := calcularValoresBase (salarioBaseReal empleado config) config in
  let salarioDevengado := ValoresBase.valorDia base * diasLaborados in
  let tieneAuxilio := salarioBase <=? toNumber (Config.smmlv config) * 2 in
  let auxDevengado := if tieneAuxilio then ValoresBase.auxDia base * diasLaborados else 0 in
  let valorHorasExtraDiurna := horasExtraDiurna * ValoresBase.horaExtraDiurna base in
  let valorHorasExtraNocturna := horasExtraNocturna * ValoresBase.horaExtraNocturna base in
  let valorRecargoNocturno := horasRecargoNocturno * ValoresBase.recargoNocturno base in
  let valorHorasExtraDomDiurna := horasExtraDomDiurna * ValoresBase.horaExtraDomDiurna base in
  let valorHorasExtraDomNocturna :=
    horasExtraDomNocturna * ValoresBase.horaExtraDomNocturna base in
  let valorDominicalSinComp := dominicalSinComp * ValoresBase.dominicalSinComp base in
  let valorDominicalConComp := dominicalConComp * ValoresBase.dominicalConComp base in
  let totalExtras :=
    valorHorasExtraDiurna + valorHorasExtraNocturna + valorRecargoNocturno +
    valorHorasExtraDomDiurna + valorHorasExtraDomNocturna +
    valorDominicalSinComp + valorDominicalConComp in
  let totalDevengadoSalarial := salarioDevengado + totalExtras in
  let deduccionSalud := ValoresBase.saludDia base * diasLaborados in
  let deduccionPension := ValoresBase.pensionDia base * diasLaborados in
  let deduccionPrestamo := prestamo in
  let totalDeducciones := deduccionSalud + deduccionPension + deduccionPrestamo in
  let valorNominaSemanal :=
    totalDevengadoSalarial + auxDevengado - deduccionSalud - deduccionPension in
  let valorBoniSemanal := bonificacion - deduccionPrestamo in
  let totalNomina := valorNominaSemanal + valorBoniSemanal in
  let totalConsignado := valorNominaSemanal in
  Montos.mk base diasLaborados horasExtraDiurna horasExtraNocturna horasRecargoNocturno
    horasExtraDomDiurna horasExtraDomNocturna dominicalSinComp dominicalConComp bonificacion
    salarioDevengado tieneAuxilio auxDevengado
    valorHorasExtraDiurna valorHorasExtraNocturna valorRecargoNocturno
    valorHorasExtraDomDiurna valorHorasExtraDomNocturna
    valorDominicalSinComp valorDominicalConComp
    totalExtras totalDevengadoSalarial
    deduccionSalud deduccionPension deduccionPrestamo totalDeducciones
    valorNominaSemanal valorBoniSemanal totalNomina totalConsignado.

Local Close Scope float_scope.

(** Lines 192-195: the condition of the [console.warn]; nothing is thrown. *)
Definition nominaNegativa (m : Montos.t) : bool := (Montos.totalNomina m <? 0)%float.

(** Lines 198-244: the object returned. *)
Definition resultado (salarioBase : float) (empleado : Empleado.t) (m : Montos.t)
    : Liquidacion.t :=
  let base := Montos.base m in
  {| Liquidacion.cedula := Empleado.cedula empleado;
     Liquidacion.nombres := Empleado.nombres empleado;
     Liquidacion.diasLaborados := Montos.diasLaborados m;
     Liquidacion.salarioBase := salarioBase;
     Liquidacion.auxTransporte :=
       if Montos.tieneAuxilio m then Empleado.auxTransporte empleado else Some 0%float;
     Liquidacion.salarioDevengado := redondear (Montos.salarioDevengado m);
     Liquidacion.auxDevengado := redondear (Montos.auxDevengado m);
     Liquidacion.totalExtras := redondear (Montos.totalExtras m);
     Liquidacion.detalleExtras :=
       {| DetalleExtras.horasExtraDiurna :=
            {| cantidad := Montos.horasExtraDiurna m;
               valor := redondear (Montos.valorHorasExtraDiurna m) |};
          DetalleExtras.horasExtraNocturna :=
            {| cantidad := Montos.horasExtraNocturna m;
               valor := redondear (Montos.valorHorasExtraNocturna m) |};
          DetalleExtras.recargoNocturno :=
            {| cantidad := Montos.horasRecargoNocturno m;
               valor := redondear (Montos.valorRecargoNocturno m) |};
          DetalleExtras.horasExtraDomDiurna :=
            {| cantidad := Montos.horasExtraDomDiurna m;
               valor := redondear (Montos.valorHorasExtraDomDiurna m) |};
          DetalleExtras.horasExtraDomNocturna :=
            {| cantidad := Montos.horasExtraDomNocturna m;
               valor := redondear (Montos.valorHorasExtraDomNocturna m) |};
          DetalleExtras.dominicalSinComp :=
            {| cantidad := Montos.dominicalSinComp m;
               valor := redondear (Montos.valorDominicalSinComp m) |};
          DetalleExtras.dominicalConComp :=
            {| cantidad := Montos.dominicalConComp m;
               valor := redondear (Montos.valorDominicalConComp m) |} |};
     Liquidacion.bonificacion := redondear (Montos.bonificacion m);
     Liquidacion.totalDevengado :=
       redondear (Montos.totalDevengadoSalarial m + Montos.auxDevengado m
                  + Montos.bonificacion m)%float;
     Liquidacion.deduccionSalud := redondear (Montos.deduccionSalud m);
     Liquidacion.deduccionPension := redondear (Montos.deduccionPension m);
     Liquidacion.deduccionPrestamo := redondear (Montos.deduccionPrestamo m);
     Liquidacion.totalDeducciones := redondear (Montos.totalDeducciones m);
     Liquidacion.valorNominaSemanal := redondear (Montos.valorNominaSemanal m);
     Liquidacion.valorBoniSemanal := redondear (Montos.valorBoniSemanal m);
     Liquidacion.totalNomina := redondear (Montos.totalNomina m);
     Liquidacion.totalConsignado := redondear (Montos.totalConsignado m);
     Liquidacion.valoresBase :=
       {| Metadata.valorDia := redondear (ValoresBase.valorDia base);
          Metadata.auxDia := redondear (ValoresBase.auxDia base);
          Metadata.horaOrdinaria := redondear (ValoresBase.horaOrdinaria base);
          Metadata.saludDia := redondear (ValoresBase.saludDia base);
          Metadata.pensionDia := redondear (ValoresBase.pensionDia base) |};
     Liquidacion.tipoNomina := None;
     Liquidacion.periodo := None;
     Liquidacion.liquidadoAt := None |}.

(** [error.details = errores], line 118. *)
Definition conDetalles (e : AppError) (errores : list Violacion) : AppError :=
  {| message := message e; statusCode := statusCode e; code := code e;
     isOperational := isOperational e; details := Some errores |}.

(** The error thrown on lines 116-120. *)
Definition errorDeValidacion (errores : list Violacion) : Exception :=
  ExApp (conDetalles (createError "VALIDATION_ERROR" (Some "Error en los datos de entrada"))
           errores).

(** The error of an unresolvable identifier. *)
Definition salarioBaseNoDefinido : Exception :=
  ExReferenceError "salarioBase is not defined".

(** Everything between validation and line 152 is arithmetic on values that
    are present, so the first thing that can throw after validation is the
    read of [salarioBase]. *)
Definition calcularNominaSemanal (g : Global.t) (empleado : option Empleado.t)
    (novedades : option Novedades.t) (config : option Config.t)
    : Completion Liquidacion.t :=
  match validarDatos empleado novedades config with
  | (_ :: _) as errores => Throw (errorDeValidacion errores)
  | [] =>
      match empleado, novedades, config with
      | Some e, Some n, Some c =>
          match Global.salarioBase g with
          | None => Throw salarioBaseNoDefinido
          | Some salarioBase => Return (resultado salarioBase e (montos salarioBase e n c))
          end
      | _, _, _ => Throw (ExTypeError "Cannot read properties of undefined")
      end
  end.

(** ** The monthly engine: [calcularNominaMensual], calculoNomina.js lines 254-265 *)

(** [{ ...novedades, diasLaborados: novedades.diasLaborados || 30 }]. *)
Definition novedadesMensual (novedades : Novedades.t) : Novedades.t :=
  {| Novedades.diasLaborados := Some (orElse (Novedades.diasLaborados novedades) 30%float);
     Novedades.horasExtraDiurna := Novedades.horasExtraDiurna novedades;
     Novedades.horasExtraNocturna := Novedades.horasExtraNocturna novedades;
     Novedades.horasRecargoNocturno := Novedades.horasRecargoNocturno novedades;
     Novedades.horasExtraDomDiurna := Novedades.horasExtraDomDiurna novedades;
     Novedades.horasExtraDomNocturna := Novedades.horasExtraDomNocturna novedades;
     Novedades.dominicalSinComp := Novedades.dominicalSinComp novedades;
     Novedades.dominicalConComp := Novedades.dominicalConComp novedades;
     Novedades.bonificacion := Novedades.bonificacion novedades;
     Novedades.prestamo := Novedades.prestamo novedades |}.

(** [liquidacion.tipoNomina = t]. *)
Definition conTipoNomina (t : string) (l : Liquidacion.t) : Liquidacion.t :=
  Liquidacion.mk (Liquidacion.cedula l) (Liquidacion.nombres l) (Liquidacion.diasLaborados l)
    (Liquidacion.salarioBase l) (Liquidacion.auxTransporte l)
    (Liquidacion.salarioDevengado l) (Liquidacion.auxDevengado l) (Liquidacion.totalExtras l)
    (Liquidacion.detalleExtras l) (Liquidacion.bonificacion l) (Liquidacion.totalDevengado l)
    (Liquidacion.deduccionSalud l) (Liquidacion.deduccionPension l)
    (Liquidacion.deduccionPrestamo l) (Liquidacion.totalDeducciones l)
    (Liquidacion.valorNominaSemanal l) (Liquidacion.valorBoniSemanal l)
    (Liquidacion.totalNomina l) (Liquidacion.totalConsignado l) (Liquidacion.valoresBase l)
    (Some t) (Liquidacion.periodo l) (Liquidacion.liquidadoAt l).

(** Reading [novedades.diasLaborados] on a missing object throws before the
    weekly engine is called. *)
Definition calcularNominaMensual (g : Global.t) (empleado : option Empleado.t)
    (novedades : option Novedades.t) (config : option Config.t)
    : Completion Liquidacion.t :=
  match novedades with
  | None => Throw (ExTypeError "Cannot read properties of undefined (reading 'diasLaborados')")
  | Some n =>
      match calcularNominaSemanal g empleado (Some (novedadesMensual n)) config with
      | Return resultado => Return (conTipoNomina "MENSUAL" resultado)
      | Throw x => Throw x
      end
  end.

(** ** Periods: the documents of [server/data/nominas] *)

Module Totales.
Record t := mk { totalNomina : float; totalConsignado : float }.
End Totales.

(** An entry [{ cedula, nombres, error }] of the error list of a bulk run. *)
Module ErrorEmpleado.
Record t := mk { cedula : string; nombres : string; error : string }.
End ErrorEmpleado.

Module Nomina.
Record t := mk {
  periodo : string;
  tipoNomina : string;
  estado : string;
  fechaInicio : option string;
  fechaFin : option string;
  liquidaciones : list Liquidacion.t;
  totales : Totales.t;
  errores : option (list ErrorEmpleado.t);
  creadoAt : option string;
  procesadoAt : option string;
  aprobadoAt : option string
}.
End Nomina.

(** What [leerEmpleados], [leerConfig] and [leerNomina] read and
    [guardarNomina] writes: for a period that holds no path separator,
    [nominas !! periodo] is [leerNomina(periodo)] ([None] for a missing
    file) and [<[periodo := n]>] is what a [guardarNomina(periodo, n)] that
    succeeds leaves, lines 41-63. *)
Module Store.
Record t := mk {
  empleados : list Empleado.t;
  config : Config.t;
  nominas : gmap string Nomina.t
}.
End Store.

Definition guardarNomina (periodo : string) (data : Nomina.t) (st : Store.t) : Store.t :=
  {| Store.empleados := Store.empleados st;
     Store.config := Store.config st;
     Store.nominas := <[periodo := data]> (Store.nominas st) |}.

(** [!s] on a string property: [undefined] and the empty string are falsy. *)
Definition cadenaVacia (o : option string) : bool :=
  match o with
  | Some s => String.eqb s ""
  | None => true
  end.

(** [s || null]. *)
Definition oNull (o : option string) : option string :=
  if cadenaVacia o then None else o.

(** [liquidacion.periodo = ...; liquidacion.tipoNomina = ...;
    liquidacion.liquidadoAt = new Date().toISOString()].  Every reading of
    the clock within one request gives [ahora]. *)
Definition etiquetar (periodo tipoNomina ahora : string) (l : Liquidacion.t) : Liquidacion.t :=
  Liquidacion.mk (Liquidacion.cedula l) (Liquidacion.nombres l) (Liquidacion.diasLaborados l)
    (Liquidacion.salarioBase l) (Liquidacion.auxTransporte l)
    (Liquidacion.salarioDevengado l) (Liquidacion.auxDevengado l) (Liquidacion.totalExtras l)
    (Liquidacion.detalleExtras l) (Liquidacion.bonificacion l) (Liquidacion.totalDevengado l)
    (Liquidacion.deduccionSalud l) (Liquidacion.deduccionPension l)
    (Liquidacion.deduccionPrestamo l) (Liquidacion.totalDeducciones l)
    (Liquidacion.valorNominaSemanal l) (Liquidacion.valorBoniSemanal l)
    (Liquidacion.totalNomina l) (Liquidacion.totalConsignado l) (Liquidacion.valoresBase l)
    (Some tipoNomina) (Some periodo) (Some ahora).

(** [liquidaciones.reduce((sum, l) => sum + l.campo, 0)]. *)
Definition sumar (campo : Liquidacion.t → float) (liquidaciones : list Liquidacion.t) : float :=
  fold_left (λ sum l, (sum + campo l)%float) liquidaciones 0%float.

(** The [totales] object of lines 209-212 and 305-308. *)
Definition calcularTotales (liquidaciones : list Liquidacion.t) : Totales.t :=
  {| Totales.totalNomina := sumar Liquidacion.totalNomina liquidaciones;
     Totales.totalConsignado := sumar Liquidacion.totalConsignado liquidaciones |}.

(** [tipoNomina === 'MENSUAL' ? calcularNominaMensual : calcularNominaSemanal]. *)
Definition calcular (tipoNomina : string) :=
  if String.eqb tipoNomina "MENSUAL" then calcularNominaMensual else calcularNominaSemanal.

(** ** [POST /api/nominas/liquidar], nominas.js lines 150-225 *)

Module LiquidarBody.
Record t := mk {
  cedula : option string;
  periodo : option string;
  tipoNomina : option string;
  novedades : option Novedades.t;
  guardar : option bool
}.
End LiquidarBody.

(** Lines 183-198: the shell of a period that has no document yet. *)
Definition nuevoPeriodo (periodo tipoNomina ahora : string) : Nomina.t :=
  {| Nomina.periodo := periodo;
     Nomina.tipoNomina := tipoNomina;
     Nomina.estado := "borrador";
     Nomina.fechaInicio := None;
     Nomina.fechaFin := None;
     Nomina.liquidaciones := [];
     Nomina.totales := {| Totales.totalNomina := 0; Totales.totalConsignado := 0 |};
     Nomina.errores := None;
     Nomina.creadoAt := Some ahora;
     Nomina.procesadoAt := None;
     Nomina.aprobadoAt := None |}.

(** Lines 201-206: [findIndex] by [cedula], then replace in place or push. *)
Definition actualizarOAgregar (cedula : string) (liquidacion : Liquidacion.t)
    (liquidaciones : list Liquidacion.t) : list Liquidacion.t :=
  match list_find (λ l, Liquidacion.cedula l = cedula) liquidaciones with
  | Some (existeIndex, _) => <[existeIndex := liquidacion]> liquidaciones
  | None => liquidaciones ++ [liquidacion]
  end.

(** Lines 200-213: the upsert, the totals recomputed from the whole list,
    and the stamp. *)
Definition upsertLiquidacion (cedula : string) (liquidacion : Liquidacion.t) (ahora : string)
    (nomina : Nomina.t) : Nomina.t :=
  let liquidaciones := actualizarOAgregar cedula liquidacion (Nomina.liquidaciones nomina) in
  {| Nomina.periodo := Nomina.periodo nomina;
     Nomina.tipoNomina := Nomina.tipoNomina nomina;
     Nomina.estado := Nomina.estado nomina;
     Nomina.fechaInicio := Nomina.fechaInicio nomina;
     Nomina.fechaFin := Nomina.fechaFin nomina;
     Nomina.liquidaciones := liquidaciones;
     Nomina.totales := calcularTotales liquidaciones;
     Nomina.errores := Nomina.errores nomina;
     Nomina.creadoAt := Nomina.creadoAt nomina;
     Nomina.procesadoAt := Some ahora;
     Nomina.aprobadoAt := Nomina.aprobadoAt nomina |}.

(** Lines 180-218: the [guardar] branch. *)
Definition guardarLiquidacion (cedula periodo tipoNomina ahora : string)
    (liquidacion : Liquidacion.t) (st : Store.t) : Store.t :=
  let nomina :=
    match Store.nominas st !! periodo with
    | Some nomina => nomina
    | None => nuevoPeriodo periodo tipoNomina ahora
    end in
  guardarNomina periodo (upsertLiquidacion cedula liquidacion ahora nomina) st.

(** The handler.  It gives the [data] of the response, or what it throws,
    and the store it leaves. *)
Definition liquidar (g : Global.t) (ahora : string) (body : LiquidarBody.t) (st : Store.t)
    : Completion Liquidacion.t * Store.t :=
  let tipoNomina := default "SEMANAL" (LiquidarBody.tipoNomina body) in
  let guardar := default true (LiquidarBody.guardar body) in
  if cadenaVacia (LiquidarBody.cedula body) then
    (Throw (ExApp (createError "VALIDATION_ERROR" (Some "La cédula es requerida"))), st)
  else if cadenaVacia (LiquidarBody.periodo body) then
    (Throw (ExApp (createError "VALIDATION_ERROR" (Some "El período es requerido"))), st)
  else
    let cedula := default "" (LiquidarBody.cedula body) in
    let periodo := default "" (LiquidarBody.periodo body) in
    match list_find (λ e, Empleado.cedula e = cedula) (Store.empleados st) with
    | None =>
        (Throw (ExApp (createError "EMP_NOT_FOUND"
                  (Some ("Empleado con cédula " ++ cedula ++ " no encontrado")))), st)
    | Some (_, empleado) =>
        let novedades := default Novedades.vacio (LiquidarBody.novedades body) in
        match calcular tipoNomina g (Some empleado) (Some novedades)
                (Some (Store.config st)) with
        | Throw x => (Throw x, st)
        | Return liquidacion =>
            let liquidacion := etiquetar periodo tipoNomina ahora liquidacion in
            (Return liquidacion,
             if guardar
             then guardarLiquidacion cedula periodo tipoNomina ahora liquidacion st
             else st)
        end
    end.

(** ** [PUT /api/nominas/:periodo/aprobar], nominas.js lines 335-363 *)

Module Aprobacion.
Record t := mk { periodo : string; estado : string; totales : Totales.t }.
End Aprobacion.

(** [nomina.estado = 'aprobada'; nomina.aprobadoAt = new Date().toISOString()]. *)
Definition marcarAprobada (ahora : string) (nomina : Nomina.t) : Nomina.t :=
  {| Nomina.periodo := Nomina.periodo nomina;
     Nomina.tipoNomina := Nomina.tipoNomina nomina;
     Nomina.estado := "aprobada";
     Nomina.fechaInicio := Nomina.fechaInicio nomina;
     Nomina.fechaFin := Nomina.fechaFin nomina;
     Nomina.liquidaciones := Nomina.liquidaciones nomina;
     Nomina.totales := Nomina.totales nomina;
     Nomina.errores := Nomina.errores nomina;
     Nomina.creadoAt := Nomina.creadoAt nomina;
     Nomina.procesadoAt := Nomina.procesadoAt nomina;
     Nomina.aprobadoAt := Some ahora |}.

Definition aprobar (ahora : string) (periodo : string) (st : Store.t)
    : Completion Aprobacion.t * Store.t :=
  match Store.nominas st !! periodo with
  | None =>
      (Throw (ExApp (createError "NOMINA_NOT_FOUND"
                (Some ("Período " ++ periodo ++ " no encontrado")))), st)
  | Some nomina =>
      if String.eqb (Nomina.estado nomina) "aprobada" then
        (Throw (ExApp (createError "NOMINA_ALREADY_CLOSED"
                  (Some "Este período ya está aprobado"))), st)
      else
        let nomina := marcarAprobada ahora nomina in
        (Return {| Aprobacion.periodo := periodo;
                   Aprobacion.estado := Nomina.estado nomina;
                   Aprobacion.totales := Nomina.totales nomina |},
         guardarNomina periodo nomina st)
  end.

(** ** [POST /api/nominas/liquidar-all], nominas.js lines 245-329 *)

Module LiquidarAllBody.
Record t := mk {
  periodo : option string;
  tipoNomina : option string;
  fechaInicio : option string;
  fechaFin : option string;
  novedadesDefault : option Novedades.t;
  novedadesPorEmpleado : option (gmap string Novedades.t)
}.
End LiquidarAllBody.

(** The [data] of the response. *)
Module Resumen.
Record t := mk {
  periodo : string;
  empleadosLiquidados : nat;
  empleadosConError : nat;
  totales : Totales.t;
  errores : option (list ErrorEmpleado.t)
}.
End Resumen.

(** One property of [{ ...a, ...b }]: the one of [b] when [b] has it. *)
Definition mezclarCampo {A} (a b : option A) : option A :=
  match b with
  | Some v => Some v
  | None => a
  end.

(** [{ ...novedadesDefault, ...(novedadesPorEmpleado[cedula] || {}) }]. *)
Definition mezclar (a b : Novedades.t) : Novedades.t :=
  {| Novedades.diasLaborados :=
       mezclarCampo (Novedades.diasLaborados a) (Novedades.diasLaborados b);
     Novedades.horasExtraDiurna :=
       mezclarCampo (Novedades.horasExtraDiurna a) (Novedades.horasExtraDiurna b);
     Novedades.horasExtraNocturna :=
       mezclarCampo (Novedades.horasExtraNocturna a) (Novedades.horasExtraNocturna b);
     Novedades.horasRecargoNocturno :=
       mezclarCampo (Novedades.horasRecargoNocturno a) (Novedades.horasRecargoNocturno b);
     Novedades.horasExtraDomDiurna :=
       mezclarCampo (Novedades.horasExtraDomDiurna a) (Novedades.horasExtraDomDiurna b);
     Novedades.horasExtraDomNocturna :=
       mezclarCampo (Novedades.horasExtraDomNocturna a) (Novedades.horasExtraDomNocturna b);
     Novedades.dominicalSinComp :=
       mezclarCampo (Novedades.dominicalSinComp a) (Novedades.dominicalSinComp b);
     Novedades.dominicalConComp :=
       mezclarCampo (Novedades.dominicalConComp a) (Novedades.dominicalConComp b);
     Novedades.bonificacion :=
       mezclarCampo (Novedades.bonificacion a) (Novedades.bonificacion b);
     Novedades.prestamo := mezclarCampo (Novedades.prestamo a) (Novedades.prestamo b) |}.

(** The novelties of one employee in a bulk run, lines 277-280. *)
Definition novedadesDe (body : LiquidarAllBody.t) (empleado : Empleado.t) : Novedades.t :=
  mezclar (default Novedades.vacio (LiquidarAllBody.novedadesDefault body))
    (default Novedades.vacio
       (default ∅ (LiquidarAllBody.novedadesPorEmpleado body) !! Empleado.cedula empleado)).

(** What the [try] block of lines 276-287 computes for one employee. *)
Definition liquidarEmpleado (g : Global.t) (body : LiquidarAllBody.t) (config : Config.t)
    (empleado : Empleado.t) : Completion Liquidacion.t :=
  calcular (default "SEMANAL" (LiquidarAllBody.tipoNomina body)) g
    (Some empleado) (Some (novedadesDe body empleado)) (Some config).

(** One turn of the [for ... of] loop, lines 275-295: a settlement is pushed
    on [liquidaciones], a caught error on [errores]. *)
Definition pasoLiquidarAll (g : Global.t) (ahora periodo : string) (body : LiquidarAllBody.t)
    (config : Config.t) (acc : list Liquidacion.t * list ErrorEmpleado.t)
    (empleado : Empleado.t) : list Liquidacion.t * list ErrorEmpleado.t :=
  match liquidarEmpleado g body config empleado with
  | Return liquidacion =>
      ((acc.1 ++ [etiquetar periodo (default "SEMANAL" (LiquidarAllBody.tipoNomina body))
                    ahora liquidacion])%list,
       acc.2)
  | Throw error =>
      (acc.1,
       (acc.2 ++ [{| ErrorEmpleado.cedula := Empleado.cedula empleado;
                     ErrorEmpleado.nombres := Empleado.nombres empleado;
                     ErrorEmpleado.error := exMessage error |}])%list)
  end.

(** [errores.length > 0 ? errores : undefined]. *)
Definition erroresOUndefined (errores : list ErrorEmpleado.t) : option (list ErrorEmpleado.t) :=
  match errores with
  | [] => None
  | _ => Some errores
  end.

Definition liquidarAll (g : Global.t) (ahora : string) (body : LiquidarAllBody.t)
    (st : Store.t) : Completion Resumen.t * Store.t :=
  let tipoNomina := default "SEMANAL" (LiquidarAllBody.tipoNomina body) in
  if cadenaVacia (LiquidarAllBody.periodo body) then
    (Throw (ExApp (createError "VALIDATION_ERROR" (Some "El período es requerido"))), st)
  else
    let periodo := default "" (LiquidarAllBody.periodo body) in
    let empleadosActivos := filter (λ e, Empleado.activo e = true) (Store.empleados st) in
    match empleadosActivos with
    | [] =>
        (Throw (ExApp (createError "VALIDATION_ERROR"
                  (Some "No hay empleados activos para liquidar"))), st)
    | _ =>
        let '(liquidaciones, errores) :=
          fold_left (pasoLiquidarAll g ahora periodo body (Store.config st))
            empleadosActivos ([], []) in
        let nomina :=
          {| Nomina.periodo := periodo;
             Nomina.tipoNomina := tipoNomina;
             Nomina.estado := "borrador";
             Nomina.fechaInicio := oNull (LiquidarAllBody.fechaInicio body);
             Nomina.fechaFin := oNull (LiquidarAllBody.fechaFin body);
             Nomina.liquidaciones := liquidaciones;
             Nomina.totales := calcularTotales liquidaciones;
             Nomina.errores := erroresOUndefined errores;
             Nomina.creadoAt := Some ahora;
             Nomina.procesadoAt := Some ahora;
             Nomina.aprobadoAt := None |} in
        (Return {| Resumen.periodo := periodo;
                   Resumen.empleadosLiquidados := length liquidaciones;
                   Resumen.empleadosConError := length errores;
                   Resumen.totales := Nomina.totales nomina;
                   Resumen.errores := erroresOUndefined errores |},
         guardarNomina periodo nomina st)
    end.

(** ** Reference data (docs/API.md, docs/FORMULAS.md) *)

Definition factores2022 : Factores.t :=
  {| Factores.horaExtraDiurna := 1.25;
     Factores.horaExtraNocturna := 1.75;
     Factores.recargoNocturno := 1.35;
     Factores.horaExtraDomDiurna := 2;
     Factores.horaExtraDomNocturna := 2.5;
     Factores.dominicalSinComp := 1.75;
     Factores.dominicalConComp := 0.75 |}.

Definition config2022 : Config.t :=
  {| Config.smmlv := Some 1000000%float;
     Config.auxTransporte := 117172;
     Config.saludPct := 4;
     Config.pensionPct := 4;
     Config.horaDivisor := Some 240%float;
     Config.factores := factores2022 |}.

Definition empleadaReferencia : Empleado.t :=
  {| Empleado.cedula := "43677978";
     Empleado.nombres := "DORA JANETH JIMENEZ DAVILA";
     Empleado.salarioBase := Some 1000000%float;
     Empleado.auxTransporte := Some 117172%float;
     Empleado.esSalarioMinimo := false;
     Empleado.activo := true |}.

(** Seven days, the bonus of the reference scenario, every other quantity 0. *)
Definition novedadesReferencia : Novedades.t :=
  {| Novedades.diasLaborados := Some 7%float;
     Novedades.horasExtraDiurna := Some 0%float;
     Novedades.horasExtraNocturna := Some 0%float;
     Novedades.horasRecargoNocturno := Some 0%float;
     Novedades.horasExtraDomDiurna := Some 0%float;
     Novedades.horasExtraDomNocturna := Some 0%float;
     Novedades.dominicalSinComp := Some 0%float;
     Novedades.dominicalConComp := Some 0%float;
     Novedades.bonificacion := Some 206459.87%float;
     Novedades.prestamo := Some 0%float |}.

(** A global [salarioBase] holding [v]: the environment in which the reads
    of lines 152 and 205 succeed. *)
Definition conGlobal (v : float) : Global.t := Global.mk (Some v).

(** Stored salary 3,000,000, flagged to use the statutory minimum. *)
Definition empleadoTresMillones : Empleado.t :=
  {| Empleado.cedula := "1216727372";
     Empleado.nombres := "MARIA CAMILA";
     Empleado.salarioBase := Some 3000000%float;
     Empleado.auxTransporte := Some 117172%float;
     Empleado.esSalarioMinimo := true;
     Empleado.activo := true |}.

(** [{ diasLaborados: d }]. *)
Definition soloDias (d : float) : Novedades.t :=
  {| Novedades.diasLaborados := Some d;
     Novedades.horasExtraDiurna := None;
     Novedades.horasExtraNocturna := None;
     Novedades.horasRecargoNocturno := None;
     Novedades.horasExtraDomDiurna := None;
     Novedades.horasExtraDomNocturna := None;
     Novedades.dominicalSinComp := None;
     Novedades.dominicalConComp := None;
     Novedades.bonificacion := None;
     Novedades.prestamo := None |}.

(** [{ diasLaborados: 7, horasRecargoNocturno: -5 }]. *)
Definition novedadesRecargoNegativo : Novedades.t :=
  {| Novedades.diasLaborados := Some 7%float;
     Novedades.horasExtraDiurna := None;
     Novedades.horasExtraNocturna := None;
     Novedades.horasRecargoNocturno := Some (-5)%float;
     Novedades.horasExtraDomDiurna := None;
     Novedades.horasExtraDomNocturna := None;
     Novedades.dominicalSinComp := None;
     Novedades.dominicalConComp := None;
     Novedades.bonificacion := None;
     Novedades.prestamo := None |}.

(** [{ diasLaborados: 7, dominicalConComp: -1 }]. *)
Definition novedadesDominicalNegativo : Novedades.t :=
  {| Novedades.diasLaborados := Some 7%float;
     Novedades.horasExtraDiurna := None;
     Novedades.horasExtraNocturna := None;
     Novedades.horasRecargoNocturno := None;
     Novedades.horasExtraDomDiurna := None;
     Novedades.horasExtraDomNocturna := None;
     Novedades.dominicalSinComp := None;
     Novedades.dominicalConComp := Some (-1)%float;
     Novedades.bonificacion := None;
     Novedades.prestamo := None |}.

(** ** Outcomes of a bulk run, employee by employee *)

(** The settlement pushed for an employee whose computation returns. *)
Definition exito (g : Global.t) (ahora periodo : string) (body : LiquidarAllBody.t)
    (config : Config.t) (empleado : Empleado.t) : option Liquidacion.t :=
  match liquidarEmpleado g body config empleado with
  | Return liquidacion =>
      Some (etiquetar periodo (default "SEMANAL" (LiquidarAllBody.tipoNomina body))
              ahora liquidacion)
  | Throw _ => None
  end.

(** The error entry pushed for an employee whose computation throws. *)
Definition fallo (g : Global.t) (body : LiquidarAllBody.t) (config : Config.t)
    (empleado : Empleado.t) : option ErrorEmpleado.t :=
  match liquidarEmpleado g body config empleado with
  | Return _ => None
  | Throw error =>
      Some {| ErrorEmpleado.cedula := Empleado.cedula empleado;
              ErrorEmpleado.nombres := Empleado.nombres empleado;
              ErrorEmpleado.error := exMessage error |}
  end.

(** Whether the computation of an employee throws. *)
Definition falla (g : Global.t) (body : LiquidarAllBody.t) (config : Config.t)
    (empleado : Empleado.t) : bool :=
  isThrow (liquidarEmpleado g body config empleado).

(** [filter(e => e.activo)], line 264. *)
Definition empleadosActivos (st : Store.t) : list Empleado.t :=
  filter (λ e, Empleado.activo e = true) (Store.empleados st).

(** The [code] of what a handler threw, if it threw an [AppError]. *)
Definition codigoDe {A} (r : Completion A) : option string :=
  match r with
  | Throw x => exCode x
  | Return _ => None
  end.

(** ** Sample rosters, requests and periods *)

(** An employee whose stored salary is 0: rejected by line 36. *)
Definition empleadoSinSalario : Empleado.t :=
  {| Empleado.cedula := "1000000002";
     Empleado.nombres := "SIN SALARIO";
     Empleado.salarioBase := Some 0%float;
     Empleado.auxTransporte := Some 117172%float;
     Empleado.esSalarioMinimo := false;
     Empleado.activo := true |}.

(** An employee whose stored salary is negative. *)
Definition empleadoSalarioNegativo : Empleado.t :=
  {| Empleado.cedula := "1000000003";
     Empleado.nombres := "SALARIO NEGATIVO";
     Empleado.salarioBase := Some (-1000000)%float;
     Empleado.auxTransporte := Some 117172%float;
     Empleado.esSalarioMinimo := false;
     Empleado.activo := true |}.

(** A soft-deleted employee. *)
Definition empleadoInactivo : Empleado.t :=
  {| Empleado.cedula := "1000000004";
     Empleado.nombres := "RETIRADO";
     Empleado.salarioBase := Some 1000000%float;
     Empleado.auxTransporte := Some 117172%float;
     Empleado.esSalarioMinimo := false;
     Empleado.activo := false |}.

(** One active employee, no period yet. *)
Definition storeUnaActiva : Store.t :=
  {| Store.empleados := [empleadaReferencia; empleadoInactivo];
     Store.config := config2022;
     Store.nominas := ∅ |}.

(** Three active employees, one of them without salary. *)
Definition storeTresActivos : Store.t :=
  {| Store.empleados :=
       [empleadaReferencia; empleadoSinSalario; empleadoInactivo; empleadoTresMillones];
     Store.config := config2022;
     Store.nominas := ∅ |}.

(** [{ bonificacion: 206459.87 }]. *)
Definition soloBonificacion : Novedades.t :=
  {| Novedades.diasLaborados := None;
     Novedades.horasExtraDiurna := None;
     Novedades.horasExtraNocturna := None;
     Novedades.horasRecargoNocturno := None;
     Novedades.horasExtraDomDiurna := None;
     Novedades.horasExtraDomNocturna := None;
     Novedades.dominicalSinComp := None;
     Novedades.dominicalConComp := None;
     Novedades.bonificacion := Some 206459.87%float;
     Novedades.prestamo := None |}.

(** The body of the bulk request of docs/API.md. *)
Definition cuerpoLiquidarAll : LiquidarAllBody.t :=
  {| LiquidarAllBody.periodo := Some "2022-S19";
     LiquidarAllBody.tipoNomina := Some "SEMANAL";
     LiquidarAllBody.fechaInicio := Some "2022-05-02";
     LiquidarAllBody.fechaFin := Some "2022-05-08";
     LiquidarAllBody.novedadesDefault := Some (soloDias 7);
     LiquidarAllBody.novedadesPorEmpleado := Some {[ "43677978" := soloBonificacion ]} |}.

Definition instante1 : string := "2022-05-09T10:00:00.000Z".
Definition instante2 : string := "2022-05-10T10:00:00.000Z".

(** The settlement of the reference scenario and one of another employee, as
    the handler would store them. *)
Definition liquidacionReferencia : Liquidacion.t :=
  etiquetar "2022-S19" "SEMANAL" instante1
    (resultado 1000000 empleadaReferencia
       (montos 1000000 empleadaReferencia novedadesReferencia config2022)).

Definition liquidacionAnterior : Liquidacion.t :=
  etiquetar "2022-S19" "SEMANAL" instante1
    (resultado 1000000 empleadaReferencia
       (montos 1000000 empleadaReferencia (soloDias 5) config2022)).

Definition liquidacionTresMillones : Liquidacion.t :=
  etiquetar "2022-S19" "SEMANAL" instante1
    (resultado 3000000 empleadoTresMillones
       (montos 3000000 empleadoTresMillones (soloDias 7) config2022)).

(** A draft holding two settlements. *)
Definition nominaBorrador : Nomina.t :=
  upsertLiquidacion "43677978" liquidacionAnterior instante1
    (upsertLiquidacion "1216727372" liquidacionTresMillones instante1
       (nuevoPeriodo "2022-S19" "SEMANAL" instante1)).

(** An approved period holding one settlement. *)
Definition nominaAprobada : Nomina.t :=
  marcarAprobada instante1
    (upsertLiquidacion "1216727372" liquidacionTresMillones instante1
       (nuevoPeriodo "2022-S19" "SEMANAL" instante1)).

Definition storeAprobado : Store.t :=
  {| Store.empleados := [empleadaReferencia; empleadoTresMillones];
     Store.config := config2022;
     Store.nominas := {[ "2022-S19" := nominaAprobada ]} |}.

(** The body of the single request of docs/API.md. *)
Definition cuerpoLiquidar : LiquidarBody.t :=
  {| LiquidarBody.cedula := Some "43677978";
     LiquidarBody.periodo := Some "2022-S19";
     LiquidarBody.tipoNomina := Some "SEMANAL";
     LiquidarBody.novedades := Some novedadesReferencia;
     LiquidarBody.guardar := Some true |}.

(** A config without [horaDivisor], and one whose [horaDivisor] is 0. *)
Definition configSinDivisor : Config.t :=
  {| Config.smmlv := Some 1000000%float;
     Config.auxTransporte := 117172;
     Config.saludPct := 4;
     Config.pensionPct := 4;
     Config.horaDivisor := None;
     Config.factores := factores2022 |}.

Definition configDivisorCero : Config.t :=
  {| Config.smmlv := Some 1000000%float;
     Config.auxTransporte := 117172;
     Config.saludPct := 4;
     Config.pensionPct := 4;
     Config.horaDivisor := Some 0%float;
     Config.factores := factores2022 |}.

(** [{ diasLaborados: 7, prestamo: 0.125 }]: a loan and no bonus. *)
Definition novedadesPrestamoSinBono : Novedades.t :=
  {| Novedades.diasLaborados := Some 7%float;
     Novedades.horasExtraDiurna := None;
     Novedades.horasExtraNocturna := None;
     Novedades.horasRecargoNocturno := None;
     Novedades.horasExtraDomDiurna := None;
     Novedades.horasExtraDomNocturna := None;
     Novedades.dominicalSinComp := None;
     Novedades.dominicalConComp := None;
     Novedades.bonificacion := None;
     Novedades.prestamo := Some 0.125%float |}.

(** ** The seven violations [validarDatos] can report *)

Definition violacionEmpleado : Violacion :=
  {| campo := "empleado"; mensaje := "Empleado no válido o sin salario base" |}.
Definition violacionNovedades : Violacion :=
  {| campo := "novedades"; mensaje := "Novedades no proporcionadas" |}.
Definition violacionDias : Violacion :=
  {| campo := "diasLaborados"; mensaje := "Debe estar entre 0 y 30" |}.
Definition violacionNegativo (campo : string) : Violacion :=
  {| campo := campo; mensaje := "No puede ser negativo" |}.
Definition violacionConfig : Violacion :=
  {| campo := "config"; mensaje := "Configuración del sistema no disponible" |}.

(** [[v]] when the check fails, nothing otherwise. *)
Definition siFalla (cond : bool) (v : Violacion) : list Violacion :=
  if cond then [v] else [].

(** ** [GET /api/nominas/:periodo], nominas.js lines 118-130 *)

Definition obtenerNomina (periodo : string) (st : Store.t) : Completion Nomina.t :=
  match Store.nominas st !! periodo with
  | None =>
      Throw (ExApp (createError "NOMINA_NOT_FOUND"
               (Some ("Período " ++ periodo ++ " no encontrado"))))
  | Some nomina => Return nomina
  end.

(** ** Invariants of the stored periods *)

(** The totals of a period are the sums over its settlements. *)
Definition coherente (nomina : Nomina.t) : Prop :=
  Nomina.totales nomina = calcularTotales (Nomina.liquidaciones nomina).

Definition storeCoherente (st : Store.t) : Prop :=
  map_Forall (λ _ nomina, coherente nomina) (Store.nominas st).

(** A period holds at most one settlement per employee. *)
Definition sinRepetidos (nomina : Nomina.t) : Prop :=
  NoDup (Liquidacion.cedula <$> Nomina.liquidaciones nomina).

Definition storeSinRepetidos (st : Store.t) : Prop :=
  map_Forall (λ _ nomina, sinRepetidos nomina) (Store.nominas st).

(** The period a [POST /liquidar] request names. *)
Definition periodoDe (body : LiquidarBody.t) : string :=
  default "" (LiquidarBody.periodo body).

(** The single request of docs/API.md sent as a preview: [guardar: false]. *)
Definition cuerpoVistaPrevia : LiquidarBody.t :=
  {| LiquidarBody.cedula := Some "43677978";
     LiquidarBody.periodo := Some "2022-S19";
     LiquidarBody.tipoNomina := Some "SEMANAL";
     LiquidarBody.novedades := Some novedadesReferencia;
     LiquidarBody.guardar := Some false |}.

(** A store whose only period is a draft of two settlements. *)
Definition storeBorrador : Store.t :=
  {| Store.empleados := [empleadaReferencia; empleadoTresMillones];
     Store.config := config2022;
     Store.nominas := {[ "2022-S19" := nominaBorrador ]} |}.

(** ** The error middleware, errorHandler.js lines 73-126 *)

(** The status and the [error] object of the JSON answer: [stack] and
    [details] are only set in development, [details] being [null] (here
    [Some None]) when the error carries none. *)
Module Respuesta.
Record t := mk {
  status : Z;
  code : string;
  message : string;
  stack : option string;
  details : option (option (list Violacion))
}.
End Respuesta.

(** [process.env.NODE_ENV === 'development']. *)
Definition enDesarrollo (nodeEnv : option string) : bool :=
  match nodeEnv with
  | Some v => String.eqb v "development"
  | None => false
  end.

(** [errorHandler(err, req, res, next)]; [stack] is [err.stack].  An error
    that is not an [AppError] has no [statusCode], [code], [isOperational]
    or [details]. *)
Definition errorHandler (nodeEnv : option string) (stack : string) (err : Exception)
    : Respuesta.t :=
  let isOperational :=
    match err with
    | ExApp e => isOperational e
    | _ => false
    end in
  let statusCode :=
    match err with
    | ExApp e =>
        match statusCode e with
        | Some s => if (s =? 0)%Z then 500%Z else s
        | None => 500%Z
        end
    | _ => 500%Z
    end in
  {| Respuesta.status := statusCode;
     Respuesta.code :=
       match err with
       | ExApp e =>
           match code e with
           | Some c => if String.eqb c "" then "INTERNAL_ERROR" else c
           | None => "INTERNAL_ERROR"
           end
       | _ => "INTERNAL_ERROR"
       end;
     Respuesta.message :=
       if isOperational then exMessage err else "Ha ocurrido un error en el servidor";
     Respuesta.stack := if enDesarrollo nodeEnv then Some stack else None;
     Respuesta.details :=
       if enDesarrollo nodeEnv
       then Some match err with
                 | ExApp e => details e
                 | _ => None
                 end
       else None |}.

(** [notFoundHandler]: the error it hands to [next]. *)
Definition notFoundHandler (method originalUrl : string) : Exception :=
  ExApp {| message := "Ruta no encontrada: " ++ method ++ " " ++ originalUrl;
           statusCode := Some 404%Z;
           code := Some "ROUTE_NOT_FOUND";
           isOperational := true;
           details := None |}.

(** What the client gets from a handler wrapped in [asyncHandler]: the JSON
    body with status 200 when the handler returns, the answer of
    [errorHandler] when it throws (the rejection is passed to [next]). *)
Inductive Http (A : Type) :=
  | Json (data : A)
  | Fallo (r : Respuesta.t).
Arguments Json {A} data.
Arguments Fallo {A} r.

Definition asyncHandler {A} (nodeEnv : option string) (stack : string) (r : Completion A)
    : Http A :=
  match r with
  | Return data => Json data
  | Throw err => Fallo (errorHandler nodeEnv stack err)
  end.

(** The status of an answer. *)
Definition estadoHttp {A} (h : Http A) : Z :=
  match h with
  | Json _ => 200%Z
  | Fallo r => Respuesta.status r
  end.

(** The violations [validarDatos] can report, in the order of the source. *)
Definition violacionesPosibles : list Violacion :=
  [ violacionEmpleado; violacionNovedades; violacionDias;
    violacionNegativo "horasExtraDiurna"; violacionNegativo "horasExtraNocturna";
    violacionNegativo "prestamo"; violacionNegativo "bonificacion"; violacionConfig ].

(** ** The configuration routes, server/routes/config.js *)

(** The document of [server/data/config.json]: the fields the engine reads,
    the year and the stamp of the last update. *)
Module ConfigDoc.
Record t := mk {
  config : Config.t;
  year : option float;
  updatedAt : option string
}.
End ConfigDoc.

(** [configDefault] of [leerConfig], lines 28-44; [anio] is
    [new Date().getFullYear()]. *)
Definition configDefault (anio : float) : ConfigDoc.t :=
  {| ConfigDoc.config :=
       {| Config.smmlv := Some 1000000%float;
          Config.auxTransporte := 117172;
          Config.saludPct := 4;
          Config.pensionPct := 4;
          Config.horaDivisor := Some 240%float;
          Config.factores :=
            {| Factores.horaExtraDiurna := 1.25;
               Factores.horaExtraNocturna := 1.75;
               Factores.recargoNocturno := 1.35;
               Factores.horaExtraDomDiurna := 2;
               Factores.horaExtraDomNocturna := 2.5;
               Factores.dominicalSinComp := 1.75;
               Factores.dominicalConComp := 0.75 |} |};
     ConfigDoc.year := Some anio;
     ConfigDoc.updatedAt := None |}.

(** [leerConfig] of config.js, lines 21-50: a missing file is created with
    the defaults.  It gives the document and the file it leaves. *)
Definition leerConfig (anio : float) (archivo : option ConfigDoc.t)
    : ConfigDoc.t * option ConfigDoc.t :=
  match archivo with
  | Some doc => (doc, Some doc)
  | None => (configDefault anio, Some (configDefault anio))
  end.

(** The [factores] object of a [PUT /config] body. *)
Module FactoresCambios.
Record t := mk {
  horaExtraDiurna : option float;
  horaExtraNocturna : option float;
  recargoNocturno : option float;
  horaExtraDomDiurna : option float;
  horaExtraDomNocturna : option float;
  dominicalSinComp : option float;
  dominicalConComp : option float
}.
End FactoresCambios.

(** The body of [PUT /config]. *)
Module ConfigCambios.
Record t := mk {
  smmlv : option float;
  auxTransporte : option float;
  saludPct : option float;
  pensionPct : option float;
  horaDivisor : option float;
  factores : option FactoresCambios.t;
  year : option float
}.
End ConfigCambios.

(** [updates[campo] !== undefined] and [isNaN(valor) || valor < 0],
    lines 87-89. *)
Definition campoRechazado (o : option float) : bool :=
  match o with
  | Some valor => PrimFloat.is_nan valor || (valor <? 0)%float
  | None => false
  end.

(** The first field, in the order of [camposNumericos], that line 89
    rejects. *)
Definition primerCampoRechazado (updates : ConfigCambios.t) : option string :=
  if campoRechazado (ConfigCambios.smmlv updates) then Some "smmlv"
  else if campoRechazado (ConfigCambios.auxTransporte updates) then Some "auxTransporte"
  else if campoRechazado (ConfigCambios.saludPct updates) then Some "saludPct"
  else if campoRechazado (ConfigCambios.pensionPct updates) then Some "pensionPct"
  else if campoRechazado (ConfigCambios.horaDivisor updates) then Some "horaDivisor"
  else None.

(** [{ ...config.factores, ...updates.factores }], lines 97-102. *)
Definition mezclarFactores (f : Factores.t) (u : FactoresCambios.t) : Factores.t :=
  {| Factores.horaExtraDiurna :=
       withDefault (FactoresCambios.horaExtraDiurna u) (Factores.horaExtraDiurna f);
     Factores.horaExtraNocturna :=
       withDefault (FactoresCambios.horaExtraNocturna u) (Factores.horaExtraNocturna f);
     Factores.recargoNocturno :=
       withDefault (FactoresCambios.recargoNocturno u) (Factores.recargoNocturno f);
     Factores.horaExtraDomDiurna :=
       withDefault (FactoresCambios.horaExtraDomDiurna u) (Factores.horaExtraDomDiurna f);
     Factores.horaExtraDomNocturna :=
       withDefault (FactoresCambios.horaExtraDomNocturna u) (Factores.horaExtraDomNocturna f);
     Factores.dominicalSinComp :=
       withDefault (FactoresCambios.dominicalSinComp u) (Factores.dominicalSinComp f);
     Factores.dominicalConComp :=
       withDefault (FactoresCambios.dominicalConComp u) (Factores.dominicalConComp f) |}.

(** The document lines 86-109 build when no field is rejected. *)
Definition aplicarCambios (ahora : string) (updates : ConfigCambios.t) (doc : ConfigDoc.t)
    : ConfigDoc.t :=
  let config := ConfigDoc.config doc in
  {| ConfigDoc.config :=
       {| Config.smmlv := mezclarCampo (Config.smmlv config) (ConfigCambios.smmlv updates);
          Config.auxTransporte :=
            withDefault (ConfigCambios.auxTransporte updates) (Config.auxTransporte config);
          Config.saludPct :=
            withDefault (ConfigCambios.saludPct updates) (Config.saludPct config);
          Config.pensionPct :=
            withDefault (ConfigCambios.pensionPct updates) (Config.pensionPct config);
          Config.horaDivisor :=
            mezclarCampo (Config.horaDivisor config) (ConfigCambios.horaDivisor updates);
          Config.factores :=
            match ConfigCambios.factores updates with
            | Some u => mezclarFactores (Config.factores config) u
            | None => Config.factores config
            end |};
     ConfigDoc.year :=
       if truthyProp (ConfigCambios.year updates)
       then ConfigCambios.year updates
       else ConfigDoc.year doc;
     ConfigDoc.updatedAt := Some ahora |}.

(** [PUT /api/config], lines 80-120: the [data] of the answer, or what it
    throws, and the file it leaves. *)
Definition actualizarConfig (anio : float) (ahora : string) (updates : ConfigCambios.t)
    (archivo : option ConfigDoc.t) : Completion ConfigDoc.t * option ConfigDoc.t :=
  let '(doc, archivo) := leerConfig anio archivo in
  match primerCampoRechazado updates with
  | Some campo =>
      (Throw (ExApp (createError "VALIDATION_ERROR"
                (Some (campo ++ " debe ser un número positivo")))), archivo)
  | None =>
      let doc := aplicarCambios ahora updates doc in
      (Return doc, Some doc)
  end.

(** The [resultado] fields of [valoresCalculados] in
    [GET /api/config/formulas], lines 126-194; the describing strings of the
    answer are left out. *)
Module Formulas.
Record t := mk {
  valorDia : float;
  horaOrdinaria : float;
  horaExtraDiurna : float;
  horaExtraNocturna : float;
  recargoNocturno : float;
  horaExtraDomDiurna : float;
  horaExtraDomNocturna : float;
  deduccionSaludDia : float;
  deduccionPensionDia : float
}.
End Formulas.

Local Open Scope float_scope.

Definition formulas (config : Config.t) : Formulas.t :=
  let salario := toNumber (Config.smmlv config) in
  let divisor := toNumber (Config.horaDivisor config) in
  {| Formulas.valorDia := mathRound (salario / 30 * 100) / 100;
     Formulas.horaOrdinaria := mathRound (salario / divisor * 100) / 100;
     Formulas.horaExtraDiurna := mathRound ((salario / divisor) * 1.25 * 100) / 100;
     Formulas.horaExtraNocturna := mathRound ((salario / divisor) * 1.75 * 100) / 100;
     Formulas.recargoNocturno := mathRound ((salario / divisor) * 1.35 * 100) / 100;
     Formulas.horaExtraDomDiurna := mathRound ((salario / divisor) * 2 * 100) / 100;
     Formulas.horaExtraDomNocturna := mathRound ((salario / divisor) * 2.5 * 100) / 100;
     Formulas.deduccionSaludDia :=
       mathRound ((salario * (Config.saludPct config / 100)) / 30 * 100) / 100;
     Formulas.deduccionPensionDia :=
       mathRound ((salario * (Config.pensionPct config / 100)) / 30 * 100) / 100 |}.

Local Close Scope float_scope.

(** A [PUT /config] body that sets [smmlv] to 0, and one that sets
    [horaDivisor] to 0 and the daytime overtime factor to 1.5. *)
Definition sinCambios : ConfigCambios.t :=
  {| ConfigCambios.smmlv := None;
     ConfigCambios.auxTransporte := None;
     ConfigCambios.saludPct := None;
     ConfigCambios.pensionPct := None;
     ConfigCambios.horaDivisor := None;
     ConfigCambios.factores := None;
     ConfigCambios.year := None |}.

Definition cambiosSmmlvCero : ConfigCambios.t :=
  {| ConfigCambios.smmlv := Some 0%float;
     ConfigCambios.auxTransporte := None;
     ConfigCambios.saludPct := None;
     ConfigCambios.pensionPct := None;
     ConfigCambios.horaDivisor := None;
     ConfigCambios.factores := None;
     ConfigCambios.year := None |}.

Definition cambiosFactorDiurna : ConfigCambios.t :=
  {| ConfigCambios.smmlv := None;
     ConfigCambios.auxTransporte := None;
     ConfigCambios.saludPct := None;
     ConfigCambios.pensionPct := None;
     ConfigCambios.horaDivisor := None;
     ConfigCambios.factores :=
       Some {| FactoresCambios.horaExtraDiurna := Some 1.5%float;
               FactoresCambios.horaExtraNocturna := None;
               FactoresCambios.recargoNocturno := None;
               FactoresCambios.horaExtraDomDiurna := None;
               FactoresCambios.horaExtraDomNocturna := None;
               FactoresCambios.dominicalSinComp := None;
               FactoresCambios.dominicalConComp := None |};
     ConfigCambios.year := None |}.

(** ** The roster routes, server/routes/empleados.js *)

(** A record of [server/data/empleados.json].  The request bodies are taken
    to carry strings, numbers and booleans where the handlers expect them;
    [activo] is a boolean in every record the routes write. *)
Module Ficha.
Record t := mk {
  cedula : string;
  nombres : string;
  cuenta : string;
  tipoCuenta : string;
  salarioBase : option float;
  auxTransporte : option float;
  esSalarioMinimo : bool;
  activo : bool;
  createdAt : option string;
  updatedAt : option string
}.
End Ficha.

(** What nominas.js and the engine read of a record. *)
Definition empleadoDe (f : Ficha.t) : Empleado.t :=
  {| Empleado.cedula := Ficha.cedula f;
     Empleado.nombres := Ficha.nombres f;
     Empleado.salarioBase := Ficha.salarioBase f;
     Empleado.auxTransporte := Ficha.auxTransporte f;
     Empleado.esSalarioMinimo := Ficha.esSalarioMinimo f;
     Empleado.activo := Ficha.activo f |}.

(** [a || d] on a string property. *)
Definition oCadena (o : option string) (d : string) : string :=
  if cadenaVacia o then d else default d o.

(** [GET /api/empleados/:cedula], lines 78-92. *)
Definition obtenerEmpleado (cedula : string) (empleados : list Ficha.t) : Completion Ficha.t :=
  match list_find (λ e, Ficha.cedula e = cedula) empleados with
  | Some (_, empleado) => Return empleado
  | None =>
      Throw (ExApp (createError "EMP_NOT_FOUND"
               (Some ("Empleado con cédula " ++ cedula ++ " no encontrado"))))
  end.

(** The [activo] filter of [GET /api/empleados], lines 56-60;
    [activo] is [req.query.activo]. *)
Definition listarPorActivo (activo : option string) (empleados : list Ficha.t)
    : list Ficha.t :=
  match activo with
  | Some q => filter (λ e, Ficha.activo e = bool_decide (q = "true")) empleados
  | None => empleados
  end.

(** The body of [POST /api/empleados]. *)
Module CrearBody.
Record t := mk {
  cedula : option string;
  nombres : option string;
  cuenta : option string;
  tipoCuenta : option string;
  salarioBase : option float;
  auxTransporte : option float
}.
End CrearBody.

(** The body of [PUT /api/empleados/:cedula]. *)
Module ActualizarBody.
Record t := mk {
  cedula : option string;
  nombres : option string;
  cuenta : option string;
  tipoCuenta : option string;
  salarioBase : option float;
  auxTransporte : option float;
  esSalarioMinimo : option bool;
  activo : option bool;
  createdAt : option string
}.
End ActualizarBody.

(** [delete updates.cedula; delete updates.createdAt], lines 152-153. *)
Definition sinCedulaNiCreatedAt (updates : ActualizarBody.t) : ActualizarBody.t :=
  {| ActualizarBody.cedula := None;
     ActualizarBody.nombres := ActualizarBody.nombres updates;
     ActualizarBody.cuenta := ActualizarBody.cuenta updates;
     ActualizarBody.tipoCuenta := ActualizarBody.tipoCuenta updates;
     ActualizarBody.salarioBase := ActualizarBody.salarioBase updates;
     ActualizarBody.auxTransporte := ActualizarBody.auxTransporte updates;
     ActualizarBody.esSalarioMinimo := ActualizarBody.esSalarioMinimo updates;
     ActualizarBody.activo := ActualizarBody.activo updates;
     ActualizarBody.createdAt := None |}.

(** [{ ...data.empleados[index], ...updates, updatedAt }], lines 156-160. *)
Definition extender (ahora : string) (e : Ficha.t) (updates : ActualizarBody.t) : Ficha.t :=
  {| Ficha.cedula := default (Ficha.cedula e) (ActualizarBody.cedula updates);
     Ficha.nombres := default (Ficha.nombres e) (ActualizarBody.nombres updates);
     Ficha.cuenta := default (Ficha.cuenta e) (ActualizarBody.cuenta updates);
     Ficha.tipoCuenta := default (Ficha.tipoCuenta e) (ActualizarBody.tipoCuenta updates);
     Ficha.salarioBase := mezclarCampo (Ficha.salarioBase e) (ActualizarBody.salarioBase updates);
     Ficha.auxTransporte :=
       mezclarCampo (Ficha.auxTransporte e) (ActualizarBody.auxTransporte updates);
     Ficha.esSalarioMinimo :=
       default (Ficha.esSalarioMinimo e) (ActualizarBody.esSalarioMinimo updates);
     Ficha.activo := default (Ficha.activo e) (ActualizarBody.activo updates);
     Ficha.createdAt := mezclarCampo (Ficha.createdAt e) (ActualizarBody.createdAt updates);
     Ficha.updatedAt := Some ahora |}.

(** [data.empleados[index].activo = false] and the stamp, lines 209-210. *)
Definition desactivar (ahora : string) (e : Ficha.t) : Ficha.t :=
  {| Ficha.cedula := Ficha.cedula e;
     Ficha.nombres := Ficha.nombres e;
     Ficha.cuenta := Ficha.cuenta e;
     Ficha.tipoCuenta := Ficha.tipoCuenta e;
     Ficha.salarioBase := Ficha.salarioBase e;
     Ficha.auxTransporte := Ficha.auxTransporte e;
     Ficha.esSalarioMinimo := Ficha.esSalarioMinimo e;
     Ficha.activo := false;
     Ficha.createdAt := Ficha.createdAt e;
     Ficha.updatedAt := Some ahora |}.

(** [DELETE /api/empleados/:cedula], lines 186-224; [hardDelete] is
    [req.query.hardDelete].  It gives the [data] of the answer and the
    roster it leaves. *)
Definition eliminarEmpleado (ahora cedula : string) (hardDelete : option string)
    (empleados : list Ficha.t) : Completion Ficha.t * list Ficha.t :=
  match list_find (λ e, Ficha.cedula e = cedula) empleados with
  | None =>
      (Throw (ExApp (createError "EMP_NOT_FOUND"
                (Some ("Empleado con cédula " ++ cedula ++ " no encontrado")))), empleados)
  | Some (index, e) =>
      if bool_decide (hardDelete = Some "true")
      then (Return e, delete index empleados)
      else (Return (desactivar ahora e), <[index := desactivar ahora e]> empleados)
  end.

(** [emp.activo !== false && emp.salarioBase < minimo], line 243. *)
Definition bajoElMinimo (minimo : float) (emp : Ficha.t) : bool :=
  Ficha.activo emp && (toNumber (Ficha.salarioBase emp) <? minimo)%float.

(** [{ ...emp, salarioBase: minimo, updatedAt }], lines 245-249. *)
Definition subirAlMinimo (ahora : string) (minimo : float) (emp : Ficha.t) : Ficha.t :=
  {| Ficha.cedula := Ficha.cedula emp;
     Ficha.nombres := Ficha.nombres emp;
     Ficha.cuenta := Ficha.cuenta emp;
     Ficha.tipoCuenta := Ficha.tipoCuenta emp;
     Ficha.salarioBase := Some minimo;
     Ficha.auxTransporte := Ficha.auxTransporte emp;
     Ficha.esSalarioMinimo := Ficha.esSalarioMinimo emp;
     Ficha.activo := Ficha.activo emp;
     Ficha.createdAt := Ficha.createdAt emp;
     Ficha.updatedAt := Some ahora |}.

(** One call of the callback of [map], lines 242-252, on the counter and
    the array built so far. *)
Definition pasoMinimo (ahora : string) (minimo : float) (acc : nat * list Ficha.t)
    (emp : Ficha.t) : nat * list Ficha.t :=
  if bajoElMinimo minimo emp
  then (S acc.1, (acc.2 ++ [subirAlMinimo ahora minimo emp])%list)
  else (acc.1, (acc.2 ++ [emp])%list).

(** The [data] of the answer of [POST /actualizar-minimo]. *)
Module ResumenMinimo.
Record t := mk {
  empleadosActualizados : nat;
  nuevoMinimo : float
}.
End ResumenMinimo.

(** [POST /api/empleados/actualizar-minimo], lines 230-267;
    [nuevoSalarioMinimo] is the number the body carries, if any.  The file
    is written only when the counter is positive. *)
Definition actualizarMinimo (ahora : string) (nuevoSalarioMinimo : option float)
    (empleados : list Ficha.t) : Completion ResumenMinimo.t * list Ficha.t :=
  let minimo := toNumber nuevoSalarioMinimo in
  if negb (truthy minimo) || (minimo <=? 0)%float then
    (Throw (ExApp (createError "VALIDATION_ERROR"
              (Some "El nuevo salario mínimo debe ser un número positivo"))), empleados)
  else
    let '(contador, nuevos) := fold_left (pasoMinimo ahora minimo) empleados (0%nat, []) in
    (Return {| ResumenMinimo.empleadosActualizados := contador;
               ResumenMinimo.nuevoMinimo := minimo |},
     if (0 <? contador)%nat then nuevos else empleados).

Section Cadenas.

(** [String.prototype.toUpperCase] and [String.prototype.trim] of the
    host. *)
Variable toUpperCase : string → string.
Variable trim : string → string.

(** [POST /api/empleados], lines 98-135.  It gives the [data] of the answer
    (sent with status 201) and the roster it leaves. *)
Definition crearEmpleado (ahora : string) (body : CrearBody.t) (empleados : list Ficha.t)
    : Completion Ficha.t * list Ficha.t :=
  if cadenaVacia (CrearBody.cedula body) || cadenaVacia (CrearBody.nombres body) then
    (Throw (ExApp (createError "EMP_INVALID_DATA" (Some "Cédula y nombres son requeridos"))),
     empleados)
  else
    let cedula := default "" (CrearBody.cedula body) in
    let nombres := default "" (CrearBody.nombres body) in
    if existsb (λ e, bool_decide (Ficha.cedula e = cedula)) empleados then
      (Throw (ExApp (createError "EMP_DUPLICATE"
                (Some ("Ya existe un empleado con cédula " ++ cedula)))), empleados)
    else
      let nuevoEmpleado :=
        {| Ficha.cedula := cedula;
           Ficha.nombres := trim (toUpperCase nombres);
           Ficha.cuenta := oCadena (CrearBody.cuenta body) "";
           Ficha.tipoCuenta := toUpperCase (oCadena (CrearBody.tipoCuenta body) "AHORROS");
           Ficha.salarioBase := Some (orElse (CrearBody.salarioBase body) 1000000%float);
           Ficha.auxTransporte := Some (orElse (CrearBody.auxTransporte body) 117172%float);
           Ficha.esSalarioMinimo := false;
           Ficha.activo := true;
           Ficha.createdAt := Some ahora;
           Ficha.updatedAt := Some ahora |} in
      (Return nuevoEmpleado, (empleados ++ [nuevoEmpleado])%list).

(** The two normalisations of lines 163-168. *)
Definition normalizar (updates : ActualizarBody.t) (e : Ficha.t) : Ficha.t :=
  {| Ficha.cedula := Ficha.cedula e;
     Ficha.nombres :=
       if cadenaVacia (ActualizarBody.nombres updates) then Ficha.nombres e
       else trim (toUpperCase (default "" (ActualizarBody.nombres updates)));
     Ficha.cuenta := Ficha.cuenta e;
     Ficha.tipoCuenta :=
       if cadenaVacia (ActualizarBody.tipoCuenta updates) then Ficha.tipoCuenta e
       else toUpperCase (default "" (ActualizarBody.tipoCuenta updates));
     Ficha.salarioBase := Ficha.salarioBase e;
     Ficha.auxTransporte := Ficha.auxTransporte e;
     Ficha.esSalarioMinimo := Ficha.esSalarioMinimo e;
     Ficha.activo := Ficha.activo e;
     Ficha.createdAt := Ficha.createdAt e;
     Ficha.updatedAt := Ficha.updatedAt e |}.

(** [PUT /api/empleados/:cedula], lines 141-180. *)
Definition actualizarEmpleado (ahora cedula : string) (updates : ActualizarBody.t)
    (empleados : list Ficha.t) : Completion Ficha.t * list Ficha.t :=
  match list_find (λ e, Ficha.cedula e = cedula) empleados with
  | None =>
      (Throw (ExApp (createError "EMP_NOT_FOUND"
                (Some ("Empleado con cédula " ++ cedula ++ " no encontrado")))), empleados)
  | Some (index, e) =>
      let updates := sinCedulaNiCreatedAt updates in
      let e' := normalizar updates (extender ahora e updates) in
      (Return e', <[index := e']> empleados)
  end.

End Cadenas.

(** The two built-ins on ASCII strings, for the samples. *)
Definition mayuscula (c : Ascii.ascii) : Ascii.ascii :=
  let n := Ascii.nat_of_ascii c in
  if (97 <=? n)%nat && (n <=? 122)%nat then Ascii.ascii_of_nat (n - 32) else c.

Fixpoint toUpperCaseAscii (s : string) : string :=
  match s with
  | EmptyString => EmptyString
  | String c s' => String (mayuscula c) (toUpperCaseAscii s')
  end.

Definition esBlanco (c : Ascii.ascii) : bool :=
  let n := Ascii.nat_of_ascii c in
  (n =? 32)%nat || ((9 <=? n)%nat && (n <=? 13)%nat).

Fixpoint trimStartAscii (s : string) : string :=
  match s with
  | EmptyString => EmptyString
  | String c s' => if esBlanco c then trimStartAscii s' else s
  end.

Fixpoint trimEndAscii (s : string) : string :=
  match s with
  | EmptyString => EmptyString
  | String c s' =>
      match trimEndAscii s' with
      | EmptyString => if esBlanco c then EmptyString else String c EmptyString
      | t => String c t
      end
  end.

Definition trimAscii (s : string) : string := trimEndAscii (trimStartAscii s).

(** Sample roster and requests. *)
Definition fichaReferencia : Ficha.t :=
  {| Ficha.cedula := "43677978";
     Ficha.nombres := "DORA JANETH JIMENEZ DAVILA";
     Ficha.cuenta := "10140584028";
     Ficha.tipoCuenta := "AHORROS";
     Ficha.salarioBase := Some 1000000%float;
     Ficha.auxTransporte := Some 117172%float;
     Ficha.esSalarioMinimo := false;
     Ficha.activo := true;
     Ficha.createdAt := Some instante1;
     Ficha.updatedAt := Some instante1 |}.

Definition fichaTresMillones : Ficha.t :=
  {| Ficha.cedula := "1216727372";
     Ficha.nombres := "MARIA CAMILA";
     Ficha.cuenta := "";
     Ficha.tipoCuenta := "CORRIENTE";
     Ficha.salarioBase := Some 3000000%float;
     Ficha.auxTransporte := Some 117172%float;
     Ficha.esSalarioMinimo := false;
     Ficha.activo := true;
     Ficha.createdAt := Some instante1;
     Ficha.updatedAt := Some instante1 |}.

Definition nominaDeDos : list Ficha.t := [fichaReferencia; fichaTresMillones].

Definition cuerpoCrear : CrearBody.t :=
  {| CrearBody.cedula := Some "71000111";
     CrearBody.nombres := Some "  ana lucia  ";
     CrearBody.cuenta := None;
     CrearBody.tipoCuenta := Some "corriente";
     CrearBody.salarioBase := Some 0%float;
     CrearBody.auxTransporte := None |}.

(** The store as nominas.js reads it when empleados.json holds
    [empleados]. *)
Definition storeDe (empleados : list Ficha.t) (config : Config.t)
    (nominas : gmap string Nomina.t) : Store.t :=
  {| Store.empleados := empleadoDe <$> empleados;
     Store.config := config;
     Store.nominas := nominas |}.

(** The sample roster after a soft delete of its first record. *)
Definition nominaDeDosTrasBaja : list Ficha.t :=
  (eliminarEmpleado instante2 "43677978" None nominaDeDos).2.



(** The roster of the bulk run with one malformed employee: three active
    employees, the second with a negative salary. *)
Definition storeUnoNegativo : Store.t :=
  {| Store.empleados :=
       [empleadaReferencia; empleadoSalarioNegativo; empleadoInactivo; empleadoTresMillones];
     Store.config := config2022;
     Store.nominas := ∅ |}.

(** The entry of an employee whose computation stopped at line 152. *)
Definition errorSalarioBase (e : Empleado.t) : ErrorEmpleado.t :=
  {| ErrorEmpleado.cedula := Empleado.cedula e;
     ErrorEmpleado.nombres := Empleado.nombres e;
     ErrorEmpleado.error := "salarioBase is not defined" |}.

(** * Properties *)

(** ** Numbers *)

(** A number compares equal to itself, unless it is [NaN]. *)
Lemma SFcompare_refl x : SFcompare x x = Some Eq ∨ SFcompare x x = None.
Proof.
  destruct x as [s|s| |s m e]; simpl; auto.
  - destruct s; auto.
  - rewrite Z.compare_refl.
    change (PosDef.Pos.compare_cont Eq m m) with (Pos.compare m m).
    rewrite Pos.compare_refl. destruct s; auto.
Qed.

(** No number is below itself. *)
Lemma ltb_irrefl x : (x <? x)%float = false.
Proof.
  rewrite ltb_spec. unfold SFltb.
  destruct (SFcompare_refl (Prim2SF x)) as [-> | ->]; reflexivity.
Qed.

(** A number that [ToBoolean] takes for a zero is [0] or [-0]. *)
Lemma is_zero_inv (v : float) :
  PrimFloat.is_zero v = true → v = zero ∨ v = neg_zero.
Proof.
  unfold PrimFloat.is_zero. rewrite FloatAxioms.eqb_spec.
  intros H. rewrite <- (SF2Prim_Prim2SF v).
  destruct (Prim2SF v) as [[|]| | |]; try discriminate H; cbn in H.
  - right. reflexivity.
  - left. reflexivity.
  - destruct s; discriminate H.
  - destruct s; discriminate H.
Qed.



(** ** The engine without a global [salarioBase] *)

(** With no global of that name the engine never returns: it throws the
    validation error, or it stops at line 152. *)
Lemma calcularNominaSemanal_sinGlobales empleado novedades config :
  isThrow (calcularNominaSemanal sinGlobales empleado novedades config) = true.
Proof.
  unfold calcularNominaSemanal.
  destruct (validarDatos empleado novedades config); [|reflexivity].
  destruct empleado, novedades, config; reflexivity.
Qed.

(** An input that passes validation stops at the unresolved identifier. *)
Lemma calcularNominaSemanal_valido_sinGlobales e n c :
  validarDatos (Some e) (Some n) (Some c) = [] →
  calcularNominaSemanal sinGlobales (Some e) (Some n) (Some c) = Throw salarioBaseNoDefinido.
Proof. intros H. unfold calcularNominaSemanal. rewrite H. reflexivity. Qed.

(** With a global, an input that passes validation is settled. *)
Lemma calcularNominaSemanal_valido_conGlobal v e n c :
  validarDatos (Some e) (Some n) (Some c) = [] →
  calcularNominaSemanal (conGlobal v) (Some e) (Some n) (Some c)
  = Return (resultado v e (montos v e n c)).
Proof. intros H. unfold calcularNominaSemanal. rewrite H. reflexivity. Qed.

(** The formulas give the documented figures once [salarioBase] resolves to
    the salary of the employee. *)
Lemma escenario_referencia_conGlobal :
  ∃ l, calcularNominaSemanal (conGlobal 1000000) (Some empleadaReferencia)
         (Some novedadesReferencia) (Some config2022) = Return l
     ∧ Liquidacion.salarioDevengado l = 233333.33%float
     ∧ Liquidacion.auxDevengado l = 27340.13%float
     ∧ Liquidacion.deduccionSalud l = 9333.33%float
     ∧ Liquidacion.deduccionPension l = 9333.33%float
     ∧ Liquidacion.valorNominaSemanal l = 242006.80%float
     ∧ Liquidacion.totalNomina l = 448466.67%float
     ∧ Liquidacion.totalConsignado l = 242006.80%float.
Proof. eexists. split; [vm_compute; reflexivity|]. vm_compute. repeat split. Qed.

(** C2. The reference scenario of the documentation (salary 1,000,000,
    subsidy 117,172, 4% health and pension, divisor 240, seven days, bonus
    206,459.87) is documented to return salarioDevengado 233,333.33 and the
    other figures.  The code does not return: validation passes and the read
    of [salarioBase] on line 152 throws [ReferenceError]. *)
Theorem C2_escenario_referencia_no_retorna :
  validarDatos (Some empleadaReferencia) (Some novedadesReferencia) (Some config2022) = []
  ∧ calcularNominaSemanal sinGlobales (Some empleadaReferencia) (Some novedadesReferencia)
      (Some config2022) = Throw salarioBaseNoDefinido.
Proof. split; vm_compute; reflexivity. Qed.

(** ** Effective salary and subsidy test *)

(** Every rate is derived from [salarioBaseReal]: the minimum wage for an
    employee flagged [esSalarioMinimo], the stored salary otherwise. *)
Lemma montos_base v e n c :
  Montos.base (montos v e n c) = calcularValoresBase (salarioBaseReal e c) c.
Proof. reflexivity. Qed.

Lemma salarioBaseReal_minimo e c :
  Empleado.esSalarioMinimo e = true → salarioBaseReal e c = toNumber (Config.smmlv c).
Proof. intros H. unfold salarioBaseReal. rewrite H. reflexivity. Qed.

Lemma salarioBaseReal_almacenado e c :
  Empleado.esSalarioMinimo e = false →
  salarioBaseReal e c = toNumber (Empleado.salarioBase e).
Proof. intros H. unfold salarioBaseReal. rewrite H. reflexivity. Qed.

(** The subsidy test compares what the identifier resolved to, whoever the
    employee is. *)
Lemma montos_tieneAuxilio v e n c :
  Montos.tieneAuxilio (montos v e n c) = (v <=? toNumber (Config.smmlv c) * 2)%float.
Proof. reflexivity. Qed.

Lemma montos_tieneAuxilio_ajeno_al_empleado v e e' n c :
  Montos.tieneAuxilio (montos v e n c) = Montos.tieneAuxilio (montos v e' n c).
Proof. reflexivity. Qed.

(** C1. For an employee with stored salary 3,000,000 flagged
    [esSalarioMinimo], under a minimum wage of 1,000,000, the rates are
    computed from the minimum wage, but the subsidy test does not compare the
    stored salary: it reads the undeclared identifier [salarioBase].  As the
    program stands the call throws [ReferenceError] instead of returning a
    settlement with auxDevengado 0; and if a global of that name held
    1,000,000, this employee would be paid the subsidy (27,340.13). *)
Theorem C1_subsidio_lee_identificador_no_declarado :
  validarDatos (Some empleadoTresMillones) (Some (soloDias 7)) (Some config2022) = []
  ∧ salarioBaseReal empleadoTresMillones config2022 = 1000000%float
  ∧ calcularNominaSemanal sinGlobales (Some empleadoTresMillones) (Some (soloDias 7))
      (Some config2022) = Throw salarioBaseNoDefinido
  ∧ ∃ l, calcularNominaSemanal (conGlobal 1000000) (Some empleadoTresMillones)
           (Some (soloDias 7)) (Some config2022) = Return l
       ∧ Liquidacion.auxDevengado l = 27340.13%float.
Proof.
  repeat split; try (vm_compute; reflexivity).
  eexists. split; vm_compute; reflexivity.
Qed.

(** ** Validation *)

Lemma elem_of_pushIf_here v errores : v ∈ pushIf true v errores.
Proof. unfold pushIf. apply elem_of_app. right. apply list_elem_of_singleton. reflexivity. Qed.

Lemma elem_of_pushIf_mono cond v w errores : v ∈ errores → v ∈ pushIf cond w errores.
Proof. intros H. unfold pushIf. destruct cond; [apply elem_of_app; left|]; exact H. Qed.

Create HintDb validar.
#[local] Hint Resolve elem_of_pushIf_here elem_of_pushIf_mono : validar.

(** The four quantities that lines 52-66 do check. *)
Lemma validarDatos_horasExtraDiurna empleado n config :
  negativo (Novedades.horasExtraDiurna n) = true →
  {| campo := "horasExtraDiurna"; mensaje := "No puede ser negativo" |}
    ∈ validarDatos empleado (Some n) config.
Proof. intros H. unfold validarDatos. rewrite H. auto 8 with validar. Qed.

Lemma validarDatos_horasExtraNocturna empleado n config :
  negativo (Novedades.horasExtraNocturna n) = true →
  {| campo := "horasExtraNocturna"; mensaje := "No puede ser negativo" |}
    ∈ validarDatos empleado (Some n) config.
Proof. intros H. unfold validarDatos. rewrite H. auto 8 with validar. Qed.

Lemma validarDatos_prestamo empleado n config :
  negativo (Novedades.prestamo n) = true →
  {| campo := "prestamo"; mensaje := "No puede ser negativo" |}
    ∈ validarDatos empleado (Some n) config.
Proof. intros H. unfold validarDatos. rewrite H. auto 8 with validar. Qed.

Lemma validarDatos_bonificacion empleado n config :
  negativo (Novedades.bonificacion n) = true →
  {| campo := "bonificacion"; mensaje := "No puede ser negativo" |}
    ∈ validarDatos empleado (Some n) config.
Proof. intros H. unfold validarDatos. rewrite H. auto 8 with validar. Qed.

(** The outcome of validation does not depend on the five quantities that
    line 46 does not destructure. *)
Lemma validarDatos_ignora_recargos empleado config d hed hen p b r1 r2 r3 r4 r5 s1 s2 s3 s4 s5 :
  validarDatos empleado (Some (Novedades.mk d hed hen r1 r2 r3 r4 r5 b p)) config
  = validarDatos empleado (Some (Novedades.mk d hed hen s1 s2 s3 s4 s5 b p)) config.
Proof. reflexivity. Qed.

(** With the novelties present the checks are not fail-fast: the list holds,
    in the order of the source, one entry for each check that fails. *)
Lemma validarDatos_con_novedades empleado n config :
  validarDatos empleado (Some n) config
  = (siFalla (empleadoInvalido empleado) violacionEmpleado
     ++ siFalla (diasFueraDeRango (Novedades.diasLaborados n)) violacionDias
     ++ siFalla (negativo (Novedades.horasExtraDiurna n)) (violacionNegativo "horasExtraDiurna")
     ++ siFalla (negativo (Novedades.horasExtraNocturna n))
          (violacionNegativo "horasExtraNocturna")
     ++ siFalla (negativo (Novedades.prestamo n)) (violacionNegativo "prestamo")
     ++ siFalla (negativo (Novedades.bonificacion n)) (violacionNegativo "bonificacion")
     ++ siFalla (configInvalida config) violacionConfig)%list.
Proof.
  unfold validarDatos, pushIf, siFalla.
  destruct (empleadoInvalido empleado), (diasFueraDeRango _), (negativo (Novedades.horasExtraDiurna n)),
    (negativo (Novedades.horasExtraNocturna n)), (negativo (Novedades.prestamo n)),
    (negativo (Novedades.bonificacion n)), (configInvalida config); reflexivity.
Qed.

(** Any violation makes the engine throw the validation error, with the
    whole list as its details. *)
Lemma calcularNominaSemanal_invalido g empleado novedades config :
  validarDatos empleado novedades config ≠ [] →
  calcularNominaSemanal g empleado novedades config
  = Throw (errorDeValidacion (validarDatos empleado novedades config)).
Proof.
  intros H. unfold calcularNominaSemanal.
  destruct (validarDatos empleado novedades config); [contradiction|reflexivity].
Qed.

(** With the novelties present, a missing config is reported. *)
Lemma validarDatos_config empleado n config :
  configInvalida config = true →
  {| campo := "config"; mensaje := "Configuración del sistema no disponible" |}
    ∈ validarDatos empleado (Some n) config.
Proof. intros H. unfold validarDatos. rewrite H. auto with validar. Qed.

(** With the novelties missing, the list ends at the [novedades] entry:
    line 43 returns before the config is looked at. *)
Lemma validarDatos_sin_novedades empleado config :
  validarDatos empleado None config
  = (pushIf (empleadoInvalido empleado)
       {| campo := "empleado"; mensaje := "Empleado no válido o sin salario base" |} []
     ++ [{| campo := "novedades"; mensaje := "Novedades no proporcionadas" |}])%list.
Proof. reflexivity. Qed.

(** C4. Novelties missing and config missing: the error carries the
    [novedades] violation alone; the [config] violation is not in the list,
    because [validarDatos] returns on line 43 before it reaches the config
    check of line 69; this holds whatever the config is. *)
Theorem C4_novedades_y_config_ausentes :
  validarDatos (Some empleadaReferencia) None None
  = [{| campo := "novedades"; mensaje := "Novedades no proporcionadas" |}]
  ∧ calcularNominaSemanal sinGlobales (Some empleadaReferencia) None None
    = Throw (errorDeValidacion
               [{| campo := "novedades"; mensaje := "Novedades no proporcionadas" |}])
  ∧ ∀ g config,
      calcularNominaSemanal g (Some empleadaReferencia) None config
      = Throw (errorDeValidacion
                 [{| campo := "novedades"; mensaje := "Novedades no proporcionadas" |}]).
Proof. repeat split. Qed.

(** C5. A negative [horasRecargoNocturno] or [dominicalConComp] raises no
    violation: [validarDatos] returns the empty list, so no validation error
    is thrown for it (the call then stops at line 152; with a global
    [salarioBase] it returns a settlement with a negative surcharge). *)
Theorem C5_recargos_negativos_no_validados :
  validarDatos (Some empleadaReferencia) (Some novedadesRecargoNegativo) (Some config2022) = []
  ∧ validarDatos (Some empleadaReferencia) (Some novedadesDominicalNegativo)
      (Some config2022) = []
  ∧ calcularNominaSemanal sinGlobales (Some empleadaReferencia)
      (Some novedadesRecargoNegativo) (Some config2022) = Throw salarioBaseNoDefinido
  ∧ ∃ l, calcularNominaSemanal (conGlobal 1000000) (Some empleadaReferencia)
           (Some novedadesRecargoNegativo) (Some config2022) = Return l
       ∧ valor (DetalleExtras.recargoNocturno (Liquidacion.detalleExtras l))
         = (-28125)%float.
Proof.
  repeat split; try (vm_compute; reflexivity).
  eexists. split; vm_compute; reflexivity.
Qed.

(** ** Monthly variant *)

(** Days not supplied: the monthly engine runs on 30 days. *)
Lemma novedadesMensual_sin_dias n :
  Novedades.diasLaborados n = None →
  Novedades.diasLaborados (novedadesMensual n) = Some 30%float.
Proof. intros H. unfold novedadesMensual. cbn. rewrite H. reflexivity. Qed.






(** The theorem on the reference employee: thirty days by default, and the
    same end for the weekly and the monthly call with 0, 15 and 31 days. *)
Lemma mensual_es_semanal_ejemplos :
  calcularNominaMensual sinGlobales (Some empleadaReferencia) (Some Novedades.vacio)
    (Some config2022) = Throw salarioBaseNoDefinido
  ∧ (∃ errores,
       calcularNominaSemanal sinGlobales (Some empleadaReferencia) (Some Novedades.vacio)
         (Some config2022) = Throw (errorDeValidacion errores))
  ∧ Forall (λ d,
              calcularNominaMensual sinGlobales (Some empleadaReferencia) (Some (soloDias d))
                (Some config2022)
              = calcularNominaSemanal sinGlobales (Some empleadaReferencia)
                  (Some (soloDias d)) (Some config2022))
      [0%float; 15%float; 31%float].
Proof.
  split_and!.
  - vm_compute. reflexivity.
  - eexists. vm_compute. reflexivity.
  - repeat (apply Forall_cons; split; [vm_compute; reflexivity|]). apply Forall_nil_2.
Qed.

(** What the fallback [|| 30] would do to a supplied 0 if the identifier of
    line 152 resolved: the weekly engine would settle no day, the monthly
    one thirty. *)
Lemma mensual_cero_dias_con_global :
  Novedades.diasLaborados (novedadesMensual (soloDias 0)) = Some 30%float
  ∧ (∃ s m,
       calcularNominaSemanal (conGlobal 1000000) (Some empleadaReferencia)
         (Some (soloDias 0)) (Some config2022) = Return s
       ∧ calcularNominaMensual (conGlobal 1000000) (Some empleadaReferencia)
           (Some (soloDias 0)) (Some config2022) = Return m
       ∧ Liquidacion.diasLaborados s = 0%float
       ∧ Liquidacion.salarioDevengado s = 0%float
       ∧ Liquidacion.diasLaborados m = 30%float
       ∧ Liquidacion.salarioDevengado m = 1000000%float)
  ∧ calcularNominaSemanal sinGlobales (Some empleadaReferencia)
      (Some (soloDias 0)) (Some config2022) = Throw salarioBaseNoDefinido
  ∧ calcularNominaMensual sinGlobales (Some empleadaReferencia)
      (Some (soloDias 0)) (Some config2022) = Throw salarioBaseNoDefinido.
Proof.
  split; [reflexivity|]. split.
  - do 2 eexists. split; [vm_compute; reflexivity|].
    split; [vm_compute; reflexivity|]. vm_compute. repeat split.
  - split; vm_compute; reflexivity.
Qed.

(** ** Bulk settlement *)

Lemma exito_Return g ahora periodo body config e l :
  liquidarEmpleado g body config e = Return l →
  exito g ahora periodo body config e
  = Some (etiquetar periodo (default "SEMANAL" (LiquidarAllBody.tipoNomina body)) ahora l)
  ∧ fallo g body config e = None
  ∧ falla g body config e = false.
Proof. intros H. unfold exito, fallo, falla. rewrite H. repeat split. Qed.

Lemma fallo_Throw g ahora periodo body config e x :
  liquidarEmpleado g body config e = Throw x →
  exito g ahora periodo body config e = None
  ∧ fallo g body config e
    = Some {| ErrorEmpleado.cedula := Empleado.cedula e;
              ErrorEmpleado.nombres := Empleado.nombres e;
              ErrorEmpleado.error := exMessage x |}
  ∧ falla g body config e = true.
Proof. intros H. unfold exito, fallo, falla. rewrite H. repeat split. Qed.

Lemma paso_Return g ahora periodo body config liquidaciones errores e l :
  liquidarEmpleado g body config e = Return l →
  pasoLiquidarAll g ahora periodo body config (liquidaciones, errores) e
  = ((liquidaciones
      ++ [etiquetar periodo (default "SEMANAL" (LiquidarAllBody.tipoNomina body)) ahora l])%list,
     errores).
Proof. intros H. unfold pasoLiquidarAll. rewrite H. reflexivity. Qed.

Lemma paso_Throw g ahora periodo body config liquidaciones errores e x :
  liquidarEmpleado g body config e = Throw x →
  pasoLiquidarAll g ahora periodo body config (liquidaciones, errores) e
  = (liquidaciones,
     (errores ++ [{| ErrorEmpleado.cedula := Empleado.cedula e;
                     ErrorEmpleado.nombres := Empleado.nombres e;
                     ErrorEmpleado.error := exMessage x |}])%list).
Proof. intros H. unfold pasoLiquidarAll. rewrite H. reflexivity. Qed.

Lemma omap_cons {A B} (f : A → option B) (x : A) (l : list A) :
  omap f (x :: l) = match f x with Some y => y :: omap f l | None => omap f l end.
Proof. reflexivity. Qed.

(** The loop splits the roster, in order, into the settlements of the
    employees whose computation returns and the error entries of those
    whose computation throws. *)
Lemma fold_pasoLiquidarAll g ahora periodo body config empleados liquidaciones errores :
  fold_left (pasoLiquidarAll g ahora periodo body config) empleados (liquidaciones, errores)
  = ((liquidaciones ++ omap (exito g ahora periodo body config) empleados)%list,
     (errores ++ omap (fallo g body config) empleados)%list).
Proof.
  revert liquidaciones errores.
  induction empleados as [|e empleados IH]; intros liquidaciones errores.
  - cbn. rewrite !app_nil_r. reflexivity.
  - rewrite !omap_cons. simpl fold_left.
    destruct (liquidarEmpleado g body config e) as [l|x] eqn:He.
    + destruct (exito_Return g ahora periodo body config e l He) as (-> & -> & _).
      rewrite (paso_Return _ _ _ _ _ _ _ _ _ He), IH, <- app_assoc. reflexivity.
    + destruct (fallo_Throw g ahora periodo body config e x He) as (-> & -> & _).
      rewrite (paso_Throw _ _ _ _ _ _ _ _ _ He), IH, <- app_assoc. reflexivity.
Qed.

(** Every employee of the roster ends in exactly one of the two lists. *)
Lemma exitos_mas_fallos g ahora periodo body config empleados :
  (length (omap (exito g ahora periodo body config) empleados)
   + length (omap (fallo g body config) empleados) = length empleados)%nat.
Proof.
  induction empleados as [|e empleados IH]; [reflexivity|].
  rewrite !omap_cons.
  destruct (liquidarEmpleado g body config e) as [l|x] eqn:He.
  - destruct (exito_Return g ahora periodo body config e l He) as (-> & -> & _). cbn. lia.
  - destruct (fallo_Throw g ahora periodo body config e x He) as (-> & -> & _). cbn. lia.
Qed.

(** The error entries are those of the employees that fail. *)
Lemma fallos_de_los_que_fallan g body config (empleados : list Empleado.t) :
  omap (fallo g body config) empleados
  = omap (fallo g body config) (filter (λ e, falla g body config e = true) empleados).
Proof.
  induction empleados as [|e empleados IH]; [reflexivity|].
  rewrite filter_cons, omap_cons.
  destruct (liquidarEmpleado g body config e) as [l|x] eqn:He.
  - destruct (exito_Return g "" "" body config e l He) as (_ & -> & Hf).
    rewrite decide_False by (rewrite Hf; discriminate). exact IH.
  - destruct (fallo_Throw g "" "" body config e x He) as (_ & Hfa & Hf).
    rewrite decide_True by exact Hf. rewrite omap_cons, Hfa, IH. reflexivity.
Qed.

(** What [liquidarAll] does on a request that names a period, for a roster
    with at least one active employee: it never throws, and it saves a draft
    holding the settlements that were computed and the errors that were
    caught. *)
Lemma liquidarAll_guarda g ahora body st periodo :
  LiquidarAllBody.periodo body = Some periodo → periodo ≠ "" →
  empleadosActivos st ≠ [] →
  let liquidaciones :=
    omap (exito g ahora periodo body (Store.config st)) (empleadosActivos st) in
  let errores := omap (fallo g body (Store.config st)) (empleadosActivos st) in
  let nomina :=
    {| Nomina.periodo := periodo;
       Nomina.tipoNomina := default "SEMANAL" (LiquidarAllBody.tipoNomina body);
       Nomina.estado := "borrador";
       Nomina.fechaInicio := oNull (LiquidarAllBody.fechaInicio body);
       Nomina.fechaFin := oNull (LiquidarAllBody.fechaFin body);
       Nomina.liquidaciones := liquidaciones;
       Nomina.totales := calcularTotales liquidaciones;
       Nomina.errores := erroresOUndefined errores;
       Nomina.creadoAt := Some ahora;
       Nomina.procesadoAt := Some ahora;
       Nomina.aprobadoAt := None |} in
  liquidarAll g ahora body st
  = (Return {| Resumen.periodo := periodo;
               Resumen.empleadosLiquidados := length liquidaciones;
               Resumen.empleadosConError := length errores;
               Resumen.totales := calcularTotales liquidaciones;
               Resumen.errores := erroresOUndefined errores |},
     guardarNomina periodo nomina st).
Proof.
  intros Hp Hne Hact. cbn zeta. unfold liquidarAll. rewrite Hp. cbn [cadenaVacia default].
  destruct (String.eqb_spec periodo "") as [->|_]; [contradiction|].
  fold (empleadosActivos st).
  destruct (empleadosActivos st) as [|e activos] eqn:Ha; [contradiction|].
  rewrite fold_pasoLiquidarAll. reflexivity.
Qed.

(** C7. The bulk run over three active employees of whom one has a
    negative salary.  The run does not abort, and it saves a draft; but the
    draft holds no settlement and three error entries, not two settlements
    and one error entry.  The negative salary raises no violation (line 36
    rejects a falsy salary only), and the computation of every employee,
    the two well-formed ones included, stops at the identifier of line 152,
    which the [catch] of the loop files as that employee's error.  Were the
    identifier bound, all three would be settled and no error filed. *)
Theorem C7_liquidarAll_salario_negativo :
  empleadosActivos storeUnoNegativo
  = [empleadaReferencia; empleadoSalarioNegativo; empleadoTresMillones]
  ∧ validarDatos (Some empleadoSalarioNegativo)
      (Some (novedadesDe cuerpoLiquidarAll empleadoSalarioNegativo)) (Some config2022) = []
  ∧ Forall (λ e, liquidarEmpleado sinGlobales cuerpoLiquidarAll config2022 e
                 = Throw salarioBaseNoDefinido)
      [empleadaReferencia; empleadoSalarioNegativo; empleadoTresMillones]
  ∧ (∃ st',
       liquidarAll sinGlobales instante1 cuerpoLiquidarAll storeUnoNegativo
       = (Return {| Resumen.periodo := "2022-S19";
                    Resumen.empleadosLiquidados := 0;
                    Resumen.empleadosConError := 3;
                    Resumen.totales :=
                      {| Totales.totalNomina := 0; Totales.totalConsignado := 0 |};
                    Resumen.errores :=
                      Some [errorSalarioBase empleadaReferencia;
                            errorSalarioBase empleadoSalarioNegativo;
                            errorSalarioBase empleadoTresMillones] |}, st')
       ∧ Store.nominas st' !! "2022-S19"
         = Some {| Nomina.periodo := "2022-S19";
                   Nomina.tipoNomina := "SEMANAL";
                   Nomina.estado := "borrador";
                   Nomina.fechaInicio := Some "2022-05-02";
                   Nomina.fechaFin := Some "2022-05-08";
                   Nomina.liquidaciones := [];
                   Nomina.totales :=
                     {| Totales.totalNomina := 0; Totales.totalConsignado := 0 |};
                   Nomina.errores :=
                     Some [errorSalarioBase empleadaReferencia;
                           errorSalarioBase empleadoSalarioNegativo;
                           errorSalarioBase empleadoTresMillones];
                   Nomina.creadoAt := Some instante1;
                   Nomina.procesadoAt := Some instante1;
                   Nomina.aprobadoAt := None |})
  ∧ (∃ resumen st',
       liquidarAll (conGlobal 1000000) instante1 cuerpoLiquidarAll storeUnoNegativo
       = (Return resumen, st')
       ∧ Resumen.empleadosLiquidados resumen = 3%nat
       ∧ Resumen.empleadosConError resumen = 0%nat
       ∧ Resumen.errores resumen = None).
Proof.
  split_and!.
  - vm_compute. reflexivity.
  - vm_compute. reflexivity.
  - repeat (apply Forall_cons; split; [vm_compute; reflexivity|]). apply Forall_nil_2.
  - eexists. split; vm_compute; reflexivity.
  - do 2 eexists. split; [vm_compute; reflexivity|]. split_and!; reflexivity.
Qed.

(** A negative stored salary is truthy: line 36 does not reject it, and with
    a global [salarioBase] the employee is settled. *)
Lemma salario_negativo_no_rechazado :
  validarDatos (Some empleadoSalarioNegativo) (Some (soloDias 7)) (Some config2022) = []
  ∧ falla (conGlobal 1000000) cuerpoLiquidarAll config2022 empleadoSalarioNegativo = false.
Proof. split; vm_compute; reflexivity. Qed.

(** ** Upsert of a settlement *)

Section Upsert.
Variable cedula : string.
Variable liquidacion : Liquidacion.t.
Hypothesis Hcedula : Liquidacion.cedula liquidacion = cedula.

Let mismaCedula (l : Liquidacion.t) : Prop := Liquidacion.cedula l = cedula.

(** After an upsert the settlement is the first one of its employee. *)
Lemma actualizarOAgregar_find liquidaciones :
  ∃ i, list_find mismaCedula (actualizarOAgregar cedula liquidacion liquidaciones)
       = Some (i, liquidacion).
Proof.
  unfold actualizarOAgregar. fold mismaCedula.
  destruct (list_find mismaCedula liquidaciones) as [[i y]|] eqn:Hf.
  - exists i. apply list_find_Some in Hf as (Hi & _ & Hmin).
    apply list_find_insert_Some. right; left.
    split_and!; eauto using lookup_lt_Some.
  - exists (0 + length liquidaciones)%nat. rewrite list_find_app_r by exact Hf.
    cbn. rewrite decide_True by exact Hcedula. reflexivity.
Qed.

(** Upserting the same settlement again leaves the list as it is. *)
Lemma actualizarOAgregar_idempotente liquidaciones :
  actualizarOAgregar cedula liquidacion
    (actualizarOAgregar cedula liquidacion liquidaciones)
  = actualizarOAgregar cedula liquidacion liquidaciones.
Proof.
  destruct (actualizarOAgregar_find liquidaciones) as [i Hi].
  unfold actualizarOAgregar at 1. fold mismaCedula. rewrite Hi.
  apply list_find_Some in Hi as (Hi & _). apply list_insert_id. exact Hi.
Qed.

(** An employee already in the list is replaced in place. *)
Lemma actualizarOAgregar_reemplaza liquidaciones anterior :
  anterior ∈ liquidaciones → Liquidacion.cedula anterior = cedula →
  ∃ i previa, list_find mismaCedula liquidaciones = Some (i, previa)
    ∧ actualizarOAgregar cedula liquidacion liquidaciones = <[i := liquidacion]> liquidaciones
    ∧ length (actualizarOAgregar cedula liquidacion liquidaciones) = length liquidaciones.
Proof.
  intros Hin Hc.
  destruct (list_find_elem_of mismaCedula liquidaciones anterior Hin Hc) as [[i previa] Hf].
  exists i, previa. unfold actualizarOAgregar. fold mismaCedula. rewrite Hf.
  split_and!; [reflexivity..|apply length_insert].
Qed.

(** An employee not in the list is appended. *)
Lemma actualizarOAgregar_agrega liquidaciones :
  Forall (λ l, Liquidacion.cedula l ≠ cedula) liquidaciones →
  actualizarOAgregar cedula liquidacion liquidaciones
  = (liquidaciones ++ [liquidacion])%list.
Proof.
  intros Hall. unfold actualizarOAgregar. fold mismaCedula.
  rewrite (proj2 (list_find_None mismaCedula liquidaciones)); [reflexivity|exact Hall].
Qed.
End Upsert.

(** The totals of a stored period are recomputed from its whole list. *)
Lemma upsertLiquidacion_totales cedula liquidacion ahora nomina :
  Nomina.totales (upsertLiquidacion cedula liquidacion ahora nomina)
  = {| Totales.totalNomina :=
         sumar Liquidacion.totalNomina
           (Nomina.liquidaciones (upsertLiquidacion cedula liquidacion ahora nomina));
       Totales.totalConsignado :=
         sumar Liquidacion.totalConsignado
           (Nomina.liquidaciones (upsertLiquidacion cedula liquidacion ahora nomina)) |}.
Proof. reflexivity. Qed.

(** C8. The upsert of lines 200-213, for a settlement filed under its own
    cedula.  If the batch already holds a settlement of that cedula, the
    first one of them is replaced in place: the list keeps its length, the
    new settlement stands at that index, and every other index holds what
    it held.  If it holds none, the settlement is appended.  Either way the
    totals are recomputed as the sums, from 0 and in list order, of
    [totalNomina] and of [totalConsignado] over all the settlements of the
    list.  Upserting the same settlement a second time leaves the list, and
    so its length and the totals, as the first upsert left them; only
    [procesadoAt] is stamped again. *)
Theorem C8_upsert_idempotente cedula liquidacion ahora1 ahora2 nomina :
  Liquidacion.cedula liquidacion = cedula →
  let una := upsertLiquidacion cedula liquidacion ahora1 nomina in
  let dos := upsertLiquidacion cedula liquidacion ahora2 una in
  (∀ i anterior,
     list_find (λ l, Liquidacion.cedula l = cedula) (Nomina.liquidaciones nomina)
     = Some (i, anterior) →
     length (Nomina.liquidaciones una) = length (Nomina.liquidaciones nomina)
     ∧ Nomina.liquidaciones una !! i = Some liquidacion
     ∧ ∀ j, j ≠ i → Nomina.liquidaciones una !! j = Nomina.liquidaciones nomina !! j)
  ∧ (list_find (λ l, Liquidacion.cedula l = cedula) (Nomina.liquidaciones nomina) = None →
     Nomina.liquidaciones una = (Nomina.liquidaciones nomina ++ [liquidacion])%list)
  ∧ Totales.totalNomina (Nomina.totales una)
    = fold_left (λ sum l, (sum + Liquidacion.totalNomina l)%float)
        (Nomina.liquidaciones una) 0%float
  ∧ Totales.totalConsignado (Nomina.totales una)
    = fold_left (λ sum l, (sum + Liquidacion.totalConsignado l)%float)
        (Nomina.liquidaciones una) 0%float
  ∧ Nomina.liquidaciones dos = Nomina.liquidaciones una
  ∧ length (Nomina.liquidaciones dos) = length (Nomina.liquidaciones una)
  ∧ Nomina.totales dos = Nomina.totales una
  ∧ Totales.totalNomina (Nomina.totales dos)
    = fold_left (λ sum l, (sum + Liquidacion.totalNomina l)%float)
        (Nomina.liquidaciones una) 0%float
  ∧ Totales.totalConsignado (Nomina.totales dos)
    = fold_left (λ sum l, (sum + Liquidacion.totalConsignado l)%float)
        (Nomina.liquidaciones una) 0%float
  ∧ Nomina.procesadoAt una = Some ahora1
  ∧ Nomina.procesadoAt dos = Some ahora2.
Proof.
  intros Hc una dos.
  assert (Hl : Nomina.liquidaciones dos = Nomina.liquidaciones una).
  { subst una dos. cbn. apply actualizarOAgregar_idempotente. exact Hc. }
  split_and!.
  - intros i anterior Hf. subst una. cbn. unfold actualizarOAgregar. rewrite Hf.
    apply list_find_Some in Hf as (Hi & _).
    split_and!.
    + apply length_insert.
    + apply list_lookup_insert_eq. exact (lookup_lt_Some _ _ _ Hi).
    + intros j Hj. apply list_lookup_insert_ne. congruence.
  - intros Hf. subst una. cbn. unfold actualizarOAgregar. rewrite Hf. reflexivity.
  - reflexivity.
  - reflexivity.
  - exact Hl.
  - rewrite Hl. reflexivity.
  - change (calcularTotales (Nomina.liquidaciones dos)
            = calcularTotales (Nomina.liquidaciones una)).
    rewrite Hl. reflexivity.
  - change (sumar Liquidacion.totalNomina (Nomina.liquidaciones dos)
            = sumar Liquidacion.totalNomina (Nomina.liquidaciones una)).
    rewrite Hl. reflexivity.
  - change (sumar Liquidacion.totalConsignado (Nomina.liquidaciones dos)
            = sumar Liquidacion.totalConsignado (Nomina.liquidaciones una)).
    rewrite Hl. reflexivity.
  - reflexivity.
  - reflexivity.
Qed.

(** The theorem on a draft of two settlements, for the employee whose
    settlement stands second in it: the new settlement takes that place,
    the other one stays, and the totals are the sums of the two. *)
Lemma C8_upsert_idempotente_witness :
  Liquidacion.cedula liquidacionReferencia = "43677978"
  ∧ list_find (λ l, Liquidacion.cedula l = "43677978") (Nomina.liquidaciones nominaBorrador)
    = Some (1%nat, liquidacionAnterior)
  ∧ Nomina.liquidaciones
      (upsertLiquidacion "43677978" liquidacionReferencia instante1 nominaBorrador)
    = [liquidacionTresMillones; liquidacionReferencia]
  ∧ Nomina.totales
      (upsertLiquidacion "43677978" liquidacionReferencia instante1 nominaBorrador)
    = {| Totales.totalNomina :=
           (0 + Liquidacion.totalNomina liquidacionTresMillones
            + Liquidacion.totalNomina liquidacionReferencia)%float;
         Totales.totalConsignado :=
           (0 + Liquidacion.totalConsignado liquidacionTresMillones
            + Liquidacion.totalConsignado liquidacionReferencia)%float |}
  ∧ Nomina.liquidaciones
      (upsertLiquidacion "43677978" liquidacionReferencia instante2
         (upsertLiquidacion "43677978" liquidacionReferencia instante1 nominaBorrador))
    = [liquidacionTresMillones; liquidacionReferencia]
  ∧ Nomina.totales
      (upsertLiquidacion "43677978" liquidacionReferencia instante2
         (upsertLiquidacion "43677978" liquidacionReferencia instante1 nominaBorrador))
    = Nomina.totales
        (upsertLiquidacion "43677978" liquidacionReferencia instante1 nominaBorrador).
Proof.
  pose proof (C8_upsert_idempotente "43677978" liquidacionReferencia instante1 instante2
                nominaBorrador eq_refl) as H.
  cbv zeta in H. destruct H as (_ & _ & _ & _ & Hl & _ & Ht & _).
  split_and!.
  - reflexivity.
  - reflexivity.
  - reflexivity.
  - reflexivity.
  - rewrite Hl. reflexivity.
  - exact Ht.
Defined.

(** The settlement a request stores is filed under the [cedula] of the
    request. *)
Lemma liquidar_cedula g ahora body st l st' :
  liquidar g ahora body st = (Return l, st') →
  Some (Liquidacion.cedula l) = LiquidarBody.cedula body.
Proof.
  unfold liquidar.
  destruct (LiquidarBody.cedula body) as [cedula|]; cbn [cadenaVacia default];
    [|intros [=]].
  destruct (String.eqb cedula ""); [intros [=]|].
  destruct (cadenaVacia (LiquidarBody.periodo body)); [intros [=]|].
  destruct (list_find _ (Store.empleados st)) as [[i e]|] eqn:Hf; [|intros [=]].
  apply list_find_Some in Hf as (_ & He & _).
  unfold calcular.
  destruct (String.eqb _ "MENSUAL").
  - unfold calcularNominaMensual, calcularNominaSemanal.
    destruct (validarDatos _ _ _); [|intros [=]].
    destruct (Global.salarioBase g); intros [= <- _]. cbn. f_equal. exact He.
  - unfold calcularNominaSemanal.
    destruct (validarDatos _ _ _); [|intros [=]].
    destruct (Global.salarioBase g); intros [= <- _]. cbn. f_equal. exact He.
Qed.

(** ** Approval *)

(** A period that is not approved yet is approved and stamped. *)
Lemma aprobar_borrador ahora periodo st nomina :
  Store.nominas st !! periodo = Some nomina → Nomina.estado nomina ≠ "aprobada" →
  aprobar ahora periodo st
  = (Return {| Aprobacion.periodo := periodo;
               Aprobacion.estado := "aprobada";
               Aprobacion.totales := Nomina.totales nomina |},
     guardarNomina periodo (marcarAprobada ahora nomina) st).
Proof.
  intros Hn He. unfold aprobar. rewrite Hn.
  destruct (String.eqb_spec (Nomina.estado nomina) "aprobada"); [contradiction|reflexivity].
Qed.

(** An approved period refuses approval and is left untouched. *)
Lemma aprobar_aprobada ahora periodo st nomina :
  Store.nominas st !! periodo = Some nomina → Nomina.estado nomina = "aprobada" →
  aprobar ahora periodo st
  = (Throw (ExApp (createError "NOMINA_ALREADY_CLOSED" (Some "Este período ya está aprobado"))),
     st).
Proof. intros Hn He. unfold aprobar. rewrite Hn, He. reflexivity. Qed.

(** Approving twice: the second request fails and the stamp of the first
    one stays. *)
Lemma aprobar_dos_veces ahora1 ahora2 periodo st r st1 :
  aprobar ahora1 periodo st = (Return r, st1) →
  aprobar ahora2 periodo st1
  = (Throw (ExApp (createError "NOMINA_ALREADY_CLOSED" (Some "Este período ya está aprobado"))),
     st1)
  ∧ (Nomina.aprobadoAt <$> Store.nominas st1 !! periodo) = Some (Some ahora1).
Proof.
  unfold aprobar at 1.
  destruct (Store.nominas st !! periodo) as [nomina|] eqn:Hn; [|intros [=]].
  destruct (String.eqb (Nomina.estado nomina) "aprobada"); [intros [=]|].
  intros [= _ <-].
  assert (Hl : Store.nominas (guardarNomina periodo (marcarAprobada ahora1 nomina) st)
               !! periodo = Some (marcarAprobada ahora1 nomina))
    by apply lookup_insert_eq.
  split.
  - apply (aprobar_aprobada _ _ _ _ Hl). reflexivity.
  - rewrite Hl. reflexivity.
Qed.

(** Nothing the engines throw carries the code of a closed period. *)
Lemma calcular_no_cerrada tipoNomina g empleado novedades config :
  codigoDe (calcular tipoNomina g empleado novedades config) ≠ Some "NOMINA_ALREADY_CLOSED".
Proof.
  assert (Hs : ∀ n, codigoDe (calcularNominaSemanal g empleado n config)
                    ≠ Some "NOMINA_ALREADY_CLOSED").
  { intros n. unfold calcularNominaSemanal.
    destruct (validarDatos empleado n config); [|discriminate].
    destruct empleado, n, config; try discriminate.
    destruct (Global.salarioBase g); discriminate. }
  unfold calcular. destruct (String.eqb tipoNomina "MENSUAL"); [|apply Hs].
  unfold calcularNominaMensual. destruct novedades as [n|]; [|discriminate].
  specialize (Hs (Some (novedadesMensual n))).
  destruct (calcularNominaSemanal g empleado (Some (novedadesMensual n)) config);
    [discriminate|exact Hs].
Qed.

(** [POST /liquidar] never answers with the code of a closed period: the
    handler does not look at [estado]. *)
Lemma liquidar_no_cerrada g ahora body st :
  codigoDe (liquidar g ahora body st).1 ≠ Some "NOMINA_ALREADY_CLOSED".
Proof.
  unfold liquidar.
  destruct (cadenaVacia (LiquidarBody.cedula body)); [discriminate|].
  destruct (cadenaVacia (LiquidarBody.periodo body)); [discriminate|].
  destruct (list_find _ (Store.empleados st)) as [[i e]|]; [|discriminate].
  pose proof (calcular_no_cerrada (default "SEMANAL" (LiquidarBody.tipoNomina body)) g
                (Some e) (Some (default Novedades.vacio (LiquidarBody.novedades body)))
                (Some (Store.config st))) as Hc.
  destruct (calcular _ g _ _ _); [discriminate|exact Hc].
Qed.

(** The [guardar] branch writes into whatever period document it finds. *)
Lemma guardarLiquidacion_existente cedula periodo tipoNomina ahora l st nomina :
  Store.nominas st !! periodo = Some nomina →
  Store.nominas (guardarLiquidacion cedula periodo tipoNomina ahora l st) !! periodo
  = Some (upsertLiquidacion cedula l ahora nomina).
Proof. intros Hn. unfold guardarLiquidacion. rewrite Hn. apply lookup_insert_eq. Qed.

(** C3, as the code has it. For a period whose stored status is 'aprobada':
    approving it again fails with NOMINA_ALREADY_CLOSED and leaves the store,
    [aprobadoAt] included, as it was; [POST /liquidar] never fails with
    NOMINA_ALREADY_CLOSED; and its [guardar] branch upserts the settlement
    into the approved period, which keeps its status and its stamp. *)
Theorem C3_aprobada_terminal_solo_para_aprobar ahora periodo st nomina :
  Store.nominas st !! periodo = Some nomina → Nomina.estado nomina = "aprobada" →
  aprobar ahora periodo st
  = (Throw (ExApp (createError "NOMINA_ALREADY_CLOSED" (Some "Este período ya está aprobado"))),
     st)
  ∧ codigoDe (aprobar ahora periodo st).1 = Some "NOMINA_ALREADY_CLOSED"
  ∧ (∀ g body, codigoDe (liquidar g ahora body st).1 ≠ Some "NOMINA_ALREADY_CLOSED")
  ∧ (∀ cedula tipoNomina l,
       let st' := guardarLiquidacion cedula periodo tipoNomina ahora l st in
       Store.nominas st' !! periodo = Some (upsertLiquidacion cedula l ahora nomina)
       ∧ Nomina.estado (upsertLiquidacion cedula l ahora nomina) = "aprobada"
       ∧ Nomina.aprobadoAt (upsertLiquidacion cedula l ahora nomina)
         = Nomina.aprobadoAt nomina
       ∧ Nomina.liquidaciones (upsertLiquidacion cedula l ahora nomina)
         = actualizarOAgregar cedula l (Nomina.liquidaciones nomina)).
Proof.
  intros Hn He. split_and!.
  - apply (aprobar_aprobada _ _ _ _ Hn He).
  - rewrite (aprobar_aprobada _ _ _ _ Hn He). reflexivity.
  - intros g body. apply liquidar_no_cerrada.
  - intros cedula tipoNomina l st'. split_and!.
    + apply guardarLiquidacion_existente. exact Hn.
    + exact He.
    + reflexivity.
    + reflexivity.
Qed.

(** The theorem on the approved period of the sample store. *)
Lemma C3_aprobada_terminal_solo_para_aprobar_witness :
  Store.nominas storeAprobado !! "2022-S19" = Some nominaAprobada
  ∧ Nomina.estado nominaAprobada = "aprobada"
  ∧ aprobar instante2 "2022-S19" storeAprobado
    = (Throw (ExApp (createError "NOMINA_ALREADY_CLOSED"
                (Some "Este período ya está aprobado"))), storeAprobado)
  ∧ (∀ g body,
       codigoDe (liquidar g instante2 body storeAprobado).1 ≠ Some "NOMINA_ALREADY_CLOSED").
Proof.
  assert (Hn : Store.nominas storeAprobado !! "2022-S19" = Some nominaAprobada)
    by (vm_compute; reflexivity).
  destruct (C3_aprobada_terminal_solo_para_aprobar instante2 "2022-S19" storeAprobado
              nominaAprobada Hn eq_refl) as (H1 & _ & H3 & _).
  split_and!; [exact Hn|reflexivity|exact H1|exact H3].
Defined.

(** C3 as stated fails. The period is approved; a [POST /liquidar] with
    [guardar] against it is not rejected with NOMINA_ALREADY_CLOSED.  As the
    program stands the request dies at line 152 with a [ReferenceError],
    which carries no code; with a global [salarioBase] the request succeeds
    and the approved period goes from one settlement to two, with new totals,
    still 'aprobada'. *)
Lemma C3_counterexample_liquidar_en_periodo_aprobado :
  (Nomina.estado <$> Store.nominas storeAprobado !! "2022-S19") = Some "aprobada"
  ∧ (liquidar sinGlobales instante2 cuerpoLiquidar storeAprobado).1
    = Throw salarioBaseNoDefinido
  ∧ codigoDe (liquidar sinGlobales instante2 cuerpoLiquidar storeAprobado).1
    ≠ Some "NOMINA_ALREADY_CLOSED"
  ∧ isThrow (liquidar (conGlobal 1000000) instante2 cuerpoLiquidar storeAprobado).1 = false
  ∧ (length ∘ Nomina.liquidaciones <$> Store.nominas storeAprobado !! "2022-S19") = Some 1%nat
  ∧ (length ∘ Nomina.liquidaciones
       <$> Store.nominas (liquidar (conGlobal 1000000) instante2 cuerpoLiquidar storeAprobado).2
           !! "2022-S19") = Some 2%nat
  ∧ (Nomina.estado
       <$> Store.nominas (liquidar (conGlobal 1000000) instante2 cuerpoLiquidar storeAprobado).2
           !! "2022-S19") = Some "aprobada"
  ∧ (Totales.totalConsignado ∘ Nomina.totales
       <$> Store.nominas storeAprobado !! "2022-S19") = Some 214666.67%float
  ∧ (Totales.totalConsignado ∘ Nomina.totales
       <$> Store.nominas (liquidar (conGlobal 1000000) instante2 cuerpoLiquidar storeAprobado).2
           !! "2022-S19") = Some 456673.47%float.
Proof.
  split_and!; try (vm_compute; reflexivity).
  vm_compute. discriminate.
Qed.

(** ** Rounding *)

(** [roundHalfUp n p] is the integer [k] with [k - 1/2 <= n / 2^p < k + 1/2]. *)
Lemma roundHalfUp_spec n p :
  (0 ≤ p)%Z →
  ((2 * roundHalfUp n p - 1) * 2 ^ p ≤ 2 * n < (2 * roundHalfUp n p + 1) * 2 ^ p)%Z.
Proof.
  intros Hp. unfold roundHalfUp.
  rewrite Z.pow_add_r, Z.pow_1_r by lia.
  assert (Hq : (0 < 2 ^ p)%Z) by (apply Z.pow_pos_nonneg; lia).
  set (q := (2 ^ p)%Z) in *.
  pose proof (Z.div_mod (2 * n + q) (q * 2) ltac:(lia)) as Hdm.
  pose proof (Z.mod_pos_bound (2 * n + q) (q * 2) ltac:(lia)) as Hm.
  nia.
Qed.

Lemma roundHalfUp_unique n p k :
  (0 ≤ p)%Z → ((2 * k - 1) * 2 ^ p ≤ 2 * n < (2 * k + 1) * 2 ^ p)%Z → roundHalfUp n p = k.
Proof.
  intros Hp Hk. pose proof (roundHalfUp_spec n p Hp) as Hr.
  assert (Hq : (0 < 2 ^ p)%Z) by (apply Z.pow_pos_nonneg; lia).
  set (q := (2 ^ p)%Z) in *. set (r := roundHalfUp n p) in *. nia.
Qed.

(** A tie [j + 1/2] goes to [j + 1], whatever the sign of [j]. *)
Lemma roundHalfUp_empate j p :
  (0 ≤ p)%Z → roundHalfUp ((2 * j + 1) * 2 ^ p) (p + 1) = (j + 1)%Z.
Proof.
  intros Hp. apply roundHalfUp_unique; [lia|].
  rewrite Z.pow_add_r, Z.pow_1_r by lia.
  assert (Hq : (0 < 2 ^ p)%Z) by (apply Z.pow_pos_nonneg; lia).
  nia.
Qed.

(** Sample values of [Math.round]. *)
Lemma mathRound_ejemplos :
  mathRound 0.5 = 1%float
  ∧ mathRound 1.5 = 2%float
  ∧ mathRound 2.5 = 3%float
  ∧ mathRound (-0.5) = (-0)%float
  ∧ mathRound (-1.5) = (-1)%float
  ∧ mathRound (-2.5) = (-2)%float
  ∧ mathRound (-2.6) = (-3)%float
  ∧ mathRound 0.49999999999999994 = 0%float
  ∧ mathRound 4503599627370495.5 = 4503599627370496%float
  ∧ mathRound 9007199254740992 = 9007199254740992%float
  ∧ mathRound infinity = infinity
  ∧ mathRound nan = nan
  ∧ mathRound (-0) = (-0)%float.
Proof. repeat split. Qed.

(** [Math.round] of a finite number with a fractional part. *)
Lemma mathRound_finito x s m e :
  Prim2SF x = S754_finite s m e → (e < 0)%Z →
  mathRound x
  = let k := roundHalfUp (if s then Z.neg m else Z.pos m) (- e) in
    if (k =? 0)%Z then (if s then neg_zero else zero) else ofZ k.
Proof.
  intros Hx He. unfold mathRound. rewrite Hx.
  destruct (Z.leb_spec 0 e); [lia|reflexivity].
Qed.

(** Two numbers with different decodings are different. *)
Lemma float_distintos (x y : float) : Prim2SF x ≠ Prim2SF y → x ≠ y.
Proof. intros H ->. apply H. reflexivity. Qed.

(** [Math.round] of a finite number with a fractional part is the integer
    [k] with [k - 1/2 <= y < k + 1/2], as a number, the zero keeping the
    sign of [y]. *)
Lemma mathRound_entero_mas_cercano y s m e :
  Prim2SF y = S754_finite s m e → (e < 0)%Z →
  ∃ k, ((2 * k - 1) * 2 ^ (- e) ≤ 2 * (if s then Z.neg m else Z.pos m)
        < (2 * k + 1) * 2 ^ (- e))%Z
       ∧ mathRound y = if (k =? 0)%Z then (if s then neg_zero else zero) else ofZ k.
Proof.
  intros Hy He. exists (roundHalfUp (if s then Z.neg m else Z.pos m) (- e)).
  split; [apply roundHalfUp_spec; lia|]. apply (mathRound_finito y s m e Hy He).
Qed.

(** [Math.round] of an integral number, a zero, an infinity or [NaN] is
    the number itself. *)
Lemma mathRound_sin_fraccion y :
  match Prim2SF y with
  | S754_finite _ _ e => (0 ≤ e)%Z
  | _ => True
  end →
  mathRound y = y.
Proof.
  unfold mathRound. destruct (Prim2SF y) as [| | |s m e]; try reflexivity.
  intros He. destruct (Z.leb_spec 0 e); [reflexivity|lia].
Qed.

(** C9, as the code has it.  Rounding is applied at the point of output
    only: each of the twenty-five amounts of a returned settlement is
    [redondear] of the amount computed from the inputs without any rounding
    on the way.  [redondear(x)] is [Math.round(x * 100) / 100] in double
    arithmetic: the product is a double [y], [Math.round(y)] is the integer
    [k] with [k - 1/2 <= y < k + 1/2] (a tie goes to the larger integer,
    whatever the sign), and [k] is divided by 100.  So an exact half cent
    below zero goes toward zero, -0.125 to -0.12; -0.005, a double beyond
    the half cent whose product is the double -0.5, goes to -0; and 0.615,
    a double below the half cent whose product is the double 61.5, goes to
    0.62: the result is not always the cent nearest to [x]. *)
Theorem C9_redondeo_solo_al_reportar :
  (∀ g e n c l,
     calcularNominaSemanal g (Some e) (Some n) (Some c) = Return l →
     ∃ salarioBase, Global.salarioBase g = Some salarioBase ∧
       (let salario :=
          if Empleado.esSalarioMinimo e
          then toNumber (Config.smmlv c)
          else toNumber (Empleado.salarioBase e) in
        let divisor := orElse (Config.horaDivisor c) 240 in
        let f := Config.factores c in
        let dias := withDefault (Novedades.diasLaborados n) 7 in
        let horasExtraDiurna := withDefault (Novedades.horasExtraDiurna n) 0 in
        let horasExtraNocturna := withDefault (Novedades.horasExtraNocturna n) 0 in
        let horasRecargoNocturno := withDefault (Novedades.horasRecargoNocturno n) 0 in
        let horasExtraDomDiurna := withDefault (Novedades.horasExtraDomDiurna n) 0 in
        let horasExtraDomNocturna := withDefault (Novedades.horasExtraDomNocturna n) 0 in
        let dominicalSinComp := withDefault (Novedades.dominicalSinComp n) 0 in
        let dominicalConComp := withDefault (Novedades.dominicalConComp n) 0 in
        let bonificacion := withDefault (Novedades.bonificacion n) 0 in
        let prestamo := withDefault (Novedades.prestamo n) 0 in
        let salarioDevengado := salario / 30 * dias in
        let auxDevengado :=
          if salarioBase <=? toNumber (Config.smmlv c) * 2
          then Config.auxTransporte c / 30 * dias
          else 0 in
        let valorHorasExtraDiurna :=
          horasExtraDiurna * (salario / divisor * Factores.horaExtraDiurna f) in
        let valorHorasExtraNocturna :=
          horasExtraNocturna * (salario / divisor * Factores.horaExtraNocturna f) in
        let valorRecargoNocturno :=
          horasRecargoNocturno * (salario / divisor * Factores.recargoNocturno f) in
        let valorHorasExtraDomDiurna :=
          horasExtraDomDiurna * (salario / divisor * Factores.horaExtraDomDiurna f) in
        let valorHorasExtraDomNocturna :=
          horasExtraDomNocturna * (salario / divisor * Factores.horaExtraDomNocturna f) in
        let valorDominicalSinComp :=
          dominicalSinComp * (salario / 30 * Factores.dominicalSinComp f) in
        let valorDominicalConComp :=
          dominicalConComp * (salario / 30 * Factores.dominicalConComp f) in
        let totalExtras :=
          valorHorasExtraDiurna + valorHorasExtraNocturna + valorRecargoNocturno
          + valorHorasExtraDomDiurna + valorHorasExtraDomNocturna
          + valorDominicalSinComp + valorDominicalConComp in
        let totalDevengadoSalarial := salarioDevengado + totalExtras in
        let deduccionSalud := salario * (Config.saludPct c / 100) / 30 * dias in
        let deduccionPension := salario * (Config.pensionPct c / 100) / 30 * dias in
        let totalDeducciones := deduccionSalud + deduccionPension + prestamo in
        let valorNominaSemanal :=
          totalDevengadoSalarial + auxDevengado - deduccionSalud - deduccionPension in
        let valorBoniSemanal := bonificacion - prestamo in
        let totalNomina := valorNominaSemanal + valorBoniSemanal in
        let detalle := Liquidacion.detalleExtras l in
        let valoresBase := Liquidacion.valoresBase l in
        Liquidacion.salarioDevengado l = redondear salarioDevengado
        ∧ Liquidacion.auxDevengado l = redondear auxDevengado
        ∧ Liquidacion.totalExtras l = redondear totalExtras
        ∧ valor (DetalleExtras.horasExtraDiurna detalle) = redondear valorHorasExtraDiurna
        ∧ valor (DetalleExtras.horasExtraNocturna detalle)
          = redondear valorHorasExtraNocturna
        ∧ valor (DetalleExtras.recargoNocturno detalle) = redondear valorRecargoNocturno
        ∧ valor (DetalleExtras.horasExtraDomDiurna detalle)
          = redondear valorHorasExtraDomDiurna
        ∧ valor (DetalleExtras.horasExtraDomNocturna detalle)
          = redondear valorHorasExtraDomNocturna
        ∧ valor (DetalleExtras.dominicalSinComp detalle) = redondear valorDominicalSinComp
        ∧ valor (DetalleExtras.dominicalConComp detalle) = redondear valorDominicalConComp
        ∧ Liquidacion.bonificacion l = redondear bonificacion
        ∧ Liquidacion.totalDevengado l
          = redondear (totalDevengadoSalarial + auxDevengado + bonificacion)
        ∧ Liquidacion.deduccionSalud l = redondear deduccionSalud
        ∧ Liquidacion.deduccionPension l = redondear deduccionPension
        ∧ Liquidacion.deduccionPrestamo l = redondear prestamo
        ∧ Liquidacion.totalDeducciones l = redondear totalDeducciones
        ∧ Liquidacion.valorNominaSemanal l = redondear valorNominaSemanal
        ∧ Liquidacion.valorBoniSemanal l = redondear valorBoniSemanal
        ∧ Liquidacion.totalNomina l = redondear totalNomina
        ∧ Liquidacion.totalConsignado l = redondear valorNominaSemanal
        ∧ Metadata.valorDia valoresBase = redondear (salario / 30)
        ∧ Metadata.auxDia valoresBase = redondear (Config.auxTransporte c / 30)
        ∧ Metadata.horaOrdinaria valoresBase = redondear (salario / divisor)
        ∧ Metadata.saludDia valoresBase
          = redondear (salario * (Config.saludPct c / 100) / 30)
        ∧ Metadata.pensionDia valoresBase
          = redondear (salario * (Config.pensionPct c / 100) / 30))%float)
  ∧ (∀ x, redondear x = (mathRound (x * 100) / 100)%float)
  ∧ (∀ y s m e,
       Prim2SF y = S754_finite s m e → (e < 0)%Z →
       ∃ k, ((2 * k - 1) * 2 ^ (- e) ≤ 2 * (if s then Z.neg m else Z.pos m)
             < (2 * k + 1) * 2 ^ (- e))%Z
            ∧ mathRound y = if (k =? 0)%Z then (if s then neg_zero else zero) else ofZ k)
  ∧ (∀ y, match Prim2SF y with
          | S754_finite _ _ e => (0 ≤ e)%Z
          | _ => True
          end → mathRound y = y)
  ∧ (Prim2SF (-0.125 * 100)%float = Prim2SF (-12.5)%float
     ∧ mathRound (-12.5) = (-12)%float
     ∧ redondear (-0.125) = (-0.12)%float)
  ∧ (Prim2SF (0.125 * 100)%float = Prim2SF 12.5%float
     ∧ mathRound 12.5 = 13%float
     ∧ redondear 0.125 = 0.13%float)
  ∧ (∃ m e, Prim2SF (-0.005)%float = S754_finite true m e
            ∧ (5 * 2 ^ (- e) < Z.pos m * 1000)%Z
            ∧ Prim2SF (-0.005 * 100)%float = Prim2SF (-0.5)%float
            ∧ redondear (-0.005) = (-0)%float)
  ∧ (∃ m e, Prim2SF 0.615%float = S754_finite false m e
            ∧ (Z.pos m * 1000 < 615 * 2 ^ (- e))%Z
            ∧ Prim2SF (0.615 * 100)%float = Prim2SF 61.5%float
            ∧ redondear 0.615 = 0.62%float).
Proof.
  split; [|split; [|split; [|split; [|split; [|split; [|split]]]]]].
  - intros g e n c l Hl. unfold calcularNominaSemanal in Hl.
    destruct (validarDatos (Some e) (Some n) (Some c)); [|discriminate Hl].
    destruct (Global.salarioBase g) as [v|]; [|discriminate Hl].
    injection Hl as <-. exists v. split; [reflexivity|].
    cbv zeta. split_and!; reflexivity.
  - intros x. reflexivity.
  - apply mathRound_entero_mas_cercano.
  - apply mathRound_sin_fraccion.
  - split_and!; vm_compute; reflexivity.
  - split_and!; vm_compute; reflexivity.
  - do 2 eexists. split_and!; [vm_compute; reflexivity|vm_compute; reflexivity|..];
      vm_compute; reflexivity.
  - do 2 eexists. split_and!; [vm_compute; reflexivity|vm_compute; reflexivity|..];
      vm_compute; reflexivity.
Qed.

(** The theorem on the reference scenario, with a global [salarioBase]:
    seven days of a salary of 1,000,000, no extras, a bonus of 206,459.87. *)
Lemma C9_redondeo_solo_al_reportar_witness :
  ∃ l, calcularNominaSemanal (conGlobal 1000000) (Some empleadaReferencia)
         (Some novedadesReferencia) (Some config2022) = Return l
     ∧ Liquidacion.salarioDevengado l = redondear (1000000 / 30 * 7)%float
     ∧ Liquidacion.salarioDevengado l = 233333.33%float
     ∧ Liquidacion.deduccionSalud l = redondear (1000000 * (4 / 100) / 30 * 7)%float
     ∧ Liquidacion.deduccionSalud l = 9333.33%float.
Proof.
  eexists. split; [vm_compute; reflexivity|].
  destruct (proj1 C9_redondeo_solo_al_reportar (conGlobal 1000000) empleadaReferencia
              novedadesReferencia config2022 _ eq_refl) as (v & Hv & H).
  injection Hv as <-. cbv zeta in H.
  destruct H as (H1 & _ & _ & _ & _ & _ & _ & _ & _ & _ & _ & _ & H13 & _).
  split_and!; [exact H1|vm_compute; reflexivity|exact H13|vm_compute; reflexivity].
Defined.

(** C9 as stated fails: a negative half cent is not rounded away from zero.
    [redondear(-0.005)] is [-0], not [-0.01]; [redondear(-0.125)] is
    [-0.12], not [-0.13]; and a settlement with a loan of 0.125 and no bonus
    reports [valorBoniSemanal = -0.12]. *)
Lemma C9_counterexample_medio_centavo_negativo :
  redondear (-0.005) = (-0)%float
  ∧ redondear (-0.005) ≠ (-0.01)%float
  ∧ redondear (-0.125) = (-0.12)%float
  ∧ redondear (-0.125) ≠ (-0.13)%float
  ∧ ∃ l, calcularNominaSemanal (conGlobal 1000000) (Some empleadaReferencia)
           (Some novedadesPrestamoSinBono) (Some config2022) = Return l
       ∧ Liquidacion.valorBoniSemanal l = (-0.12)%float
       ∧ Liquidacion.valorBoniSemanal l ≠ (-0.13)%float.
Proof.
  split_and!; try (vm_compute; reflexivity);
    try (apply float_distintos; vm_compute; discriminate).
  eexists. split_and!; [vm_compute; reflexivity|vm_compute; reflexivity|].
  apply float_distintos; vm_compute; discriminate.
Qed.

(** ** The hourly divisor *)

(** The divisor is never falsy: neither zero nor [NaN]. *)
Lemma divisorHora_truthy config : truthy (divisorHora config) = true.
Proof.
  unfold divisorHora, orElse.
  destruct (Config.horaDivisor config) as [d|]; [|reflexivity].
  destruct (truthy d) eqn:Hd; [exact Hd|reflexivity].
Qed.

Lemma divisorHora_falsy config :
  truthyProp (Config.horaDivisor config) = false → divisorHora config = 240%float.
Proof.
  unfold divisorHora, orElse, truthyProp.
  destruct (Config.horaDivisor config) as [d|]; [|reflexivity].
  intros ->. reflexivity.
Qed.

Lemma divisorHora_configurado config d :
  Config.horaDivisor config = Some d → truthy d = true → divisorHora config = d.
Proof. intros H Hd. unfold divisorHora, orElse. rewrite H, Hd. reflexivity. Qed.

(** C10, as the code has it. The hourly value and the five surcharge unit
    values that are derived from it divide by [horaDivisor] when it is a
    truthy number and by 240 when it is absent, zero or [NaN]; the divisor
    used is never zero.  The two Sunday unit values are derived from the
    daily value, [salarioBase / 30], and do not use the divisor. *)
Theorem C10_divisor_hora_protegido salarioBase config :
  let base := calcularValoresBase salarioBase config in
  let f := Config.factores config in
  let divisor := divisorHora config in
  divisor = (if truthyProp (Config.horaDivisor config)
             then toNumber (Config.horaDivisor config) else 240%float)
  ∧ PrimFloat.is_zero divisor = false
  ∧ PrimFloat.is_nan divisor = false
  ∧ ValoresBase.horaOrdinaria base = (salarioBase / divisor)%float
  ∧ ValoresBase.horaExtraDiurna base
    = (salarioBase / divisor * Factores.horaExtraDiurna f)%float
  ∧ ValoresBase.horaExtraNocturna base
    = (salarioBase / divisor * Factores.horaExtraNocturna f)%float
  ∧ ValoresBase.recargoNocturno base
    = (salarioBase / divisor * Factores.recargoNocturno f)%float
  ∧ ValoresBase.horaExtraDomDiurna base
    = (salarioBase / divisor * Factores.horaExtraDomDiurna f)%float
  ∧ ValoresBase.horaExtraDomNocturna base
    = (salarioBase / divisor * Factores.horaExtraDomNocturna f)%float
  ∧ ValoresBase.dominicalSinComp base
    = (salarioBase / 30 * Factores.dominicalSinComp f)%float
  ∧ ValoresBase.dominicalConComp base
    = (salarioBase / 30 * Factores.dominicalConComp f)%float.
Proof.
  intros base f divisor.
  pose proof (divisorHora_truthy config) as Ht. fold divisor in Ht.
  unfold truthy in Ht. apply negb_true_iff, orb_false_iff in Ht as [Hz Hn].
  split_and!; try reflexivity; try assumption.
  subst divisor. unfold divisorHora, orElse, truthyProp, toNumber.
  destruct (Config.horaDivisor config); reflexivity.
Qed.

(** C10 as stated fails for the two Sunday unit values: with [horaDivisor]
    absent or zero they are [salarioBase / 30] times the factor (58,333.33
    and 25,000 on a salary of 1,000,000), not [salarioBase / 240] times the
    factor (7,291.67 and 3,125). *)
Lemma C10_counterexample_dominicales_no_usan_divisor :
  divisorHora configSinDivisor = 240%float
  ∧ divisorHora configDivisorCero = 240%float
  ∧ ValoresBase.horaOrdinaria (calcularValoresBase 1000000 configSinDivisor)
    = (1000000 / 240)%float
  ∧ ValoresBase.dominicalSinComp (calcularValoresBase 1000000 configSinDivisor)
    = (1000000 / 30 * 1.75)%float
  ∧ ValoresBase.dominicalSinComp (calcularValoresBase 1000000 configSinDivisor)
    ≠ (1000000 / 240 * 1.75)%float
  ∧ ValoresBase.dominicalConComp (calcularValoresBase 1000000 configDivisorCero)
    = (1000000 / 30 * 0.75)%float
  ∧ ValoresBase.dominicalConComp (calcularValoresBase 1000000 configDivisorCero)
    ≠ (1000000 / 240 * 0.75)%float.
Proof.
  split_and!; try (vm_compute; reflexivity);
    apply float_distintos; vm_compute; discriminate.
Qed.

(** ** The handlers without a global [salarioBase] *)

Lemma calcular_sinGlobales tipoNomina empleado novedades config :
  isThrow (calcular tipoNomina sinGlobales empleado novedades config) = true.
Proof.
  unfold calcular. destruct (String.eqb tipoNomina "MENSUAL").
  - unfold calcularNominaMensual. destruct novedades as [n|]; [|reflexivity].
    pose proof (calcularNominaSemanal_sinGlobales empleado (Some (novedadesMensual n)) config)
      as H.
    destruct (calcularNominaSemanal _ _ _ _); [discriminate H|reflexivity].
  - apply calcularNominaSemanal_sinGlobales.
Qed.

(** As the program stands a bulk run settles nobody: every active employee
    ends in the error list. *)
Lemma liquidarAll_sinGlobales ahora periodo body config (empleados : list Empleado.t) :
  omap (exito sinGlobales ahora periodo body config) empleados = []
  ∧ length (omap (fallo sinGlobales body config) empleados) = length empleados.
Proof.
  assert (He : omap (exito sinGlobales ahora periodo body config) empleados = []).
  { induction empleados as [|e empleados IH]; [reflexivity|].
    rewrite omap_cons. unfold exito at 1, liquidarEmpleado.
    pose proof (calcular_sinGlobales (default "SEMANAL" (LiquidarAllBody.tipoNomina body))
                  (Some e) (Some (novedadesDe body e)) (Some config)) as H.
    destruct (calcular _ _ _ _ _); [discriminate H|exact IH]. }
  split; [exact He|].
  pose proof (exitos_mas_fallos sinGlobales ahora periodo body config empleados) as H.
  rewrite He in H. exact H.
Qed.

(** As the program stands [POST /liquidar] never stores anything. *)
Lemma liquidar_sinGlobales ahora body st :
  isThrow (liquidar sinGlobales ahora body st).1 = true
  ∧ (liquidar sinGlobales ahora body st).2 = st.
Proof.
  unfold liquidar.
  destruct (cadenaVacia (LiquidarBody.cedula body)); [split; reflexivity|].
  destruct (cadenaVacia (LiquidarBody.periodo body)); [split; reflexivity|].
  destruct (list_find _ (Store.empleados st)) as [[i e]|]; [|split; reflexivity].
  pose proof (calcular_sinGlobales (default "SEMANAL" (LiquidarBody.tipoNomina body))
                (Some e) (Some (default Novedades.vacio (LiquidarBody.novedades body)))
                (Some (Store.config st))) as H.
  destruct (calcular _ _ _ _ _); [discriminate H|split; reflexivity].
Qed.

(** * Further properties of the handlers *)

(** ** What [POST /liquidar] writes *)

(** The store a request leaves: the one it found, or that one with the
    settlement upserted into the period it names. *)
Lemma liquidar_store g ahora body st :
  (liquidar g ahora body st).2 = st
  ∨ ∃ l cedula,
      (liquidar g ahora body st).1 = Return l
      ∧ LiquidarBody.cedula body = Some cedula
      ∧ Liquidacion.cedula l = cedula
      ∧ LiquidarBody.guardar body ≠ Some false
      ∧ cadenaVacia (LiquidarBody.periodo body) = false
      ∧ (liquidar g ahora body st).2
        = guardarLiquidacion cedula (periodoDe body)
            (default "SEMANAL" (LiquidarBody.tipoNomina body)) ahora l st.
Proof.
  destruct (liquidar g ahora body st) as [r st'] eqn:Hrun. cbn [fst snd].
  pose proof (liquidar_cedula g ahora body st) as Hced.
  rewrite Hrun in Hced. unfold liquidar in Hrun.
  destruct (cadenaVacia (LiquidarBody.cedula body)) eqn:Hc;
    [left; congruence|].
  destruct (cadenaVacia (LiquidarBody.periodo body)) eqn:Hp;
    [left; congruence|].
  destruct (list_find _ (Store.empleados st)) as [[i e]|]; [|left; congruence].
  destruct (calcular _ g _ _ _) as [l|x]; [|left; congruence].
  injection Hrun as <- <-.
  specialize (Hced _ _ eq_refl).
  destruct (LiquidarBody.cedula body) as [cedula|]; [|discriminate Hc].
  injection Hced as Hced.
  destruct (LiquidarBody.guardar body) as [[|]|]; cbn [default];
    [right|left; reflexivity|right];
    (eexists _, cedula; split_and!; [reflexivity|reflexivity|exact Hced|discriminate|reflexivity|reflexivity]).
Qed.

(** The document a bulk run saves. *)
Lemma cadenaVacia_false o :
  cadenaVacia o = false → ∃ s, o = Some s ∧ s ≠ "".
Proof.
  destruct o as [s|]; [|discriminate]. cbn.
  destruct (String.eqb_spec s ""); [discriminate|]. eauto.
Qed.

(** X1. A bulk run is answered with a validation error exactly when the
    request names no period or the roster has no active employee: the first
    with the message 'El período es requerido', the second with 'No hay
    empleados activos para liquidar', and the store is then as it was.  The
    failure of an employee's computation, the validation error of the
    engine included, never is the answer of the run. *)
Theorem liquidarAll_error_de_validacion_sii g ahora body st :
  (codigoDe (liquidarAll g ahora body st).1 = Some "VALIDATION_ERROR"
   ↔ cadenaVacia (LiquidarAllBody.periodo body) = true ∨ empleadosActivos st = [])
  ∧ (cadenaVacia (LiquidarAllBody.periodo body) = true →
     liquidarAll g ahora body st
     = (Throw (ExApp (createError "VALIDATION_ERROR" (Some "El período es requerido"))), st))
  ∧ (cadenaVacia (LiquidarAllBody.periodo body) = false → empleadosActivos st = [] →
     liquidarAll g ahora body st
     = (Throw (ExApp (createError "VALIDATION_ERROR"
                 (Some "No hay empleados activos para liquidar"))), st)).
Proof.
  destruct (cadenaVacia (LiquidarAllBody.periodo body)) eqn:Hp.
  - unfold liquidarAll. rewrite Hp. cbn. split_and!; [split; auto|reflexivity|discriminate].
  - destruct (cadenaVacia_false _ Hp) as (p & Hsome & Hne).
    destruct (empleadosActivos st) as [|e activos] eqn:Ha.
    + unfold liquidarAll. rewrite Hp. fold (empleadosActivos st). rewrite Ha.
      cbn. split_and!; [split; auto|discriminate|reflexivity].
    + assert (Hact : empleadosActivos st ≠ []) by (rewrite Ha; discriminate).
      pose proof (liquidarAll_guarda g ahora body st p Hsome Hne Hact) as Hrun.
      cbn zeta in Hrun. rewrite Hrun. cbn. split_and!; [split| |]; try discriminate.
      intros [H|H]; discriminate H.
Qed.

(** The engines copy the [cedula] of the employee. *)
Lemma calcular_cedula tipoNomina g e novedades config l :
  calcular tipoNomina g (Some e) novedades config = Return l →
  Liquidacion.cedula l = Empleado.cedula e.
Proof.
  assert (Hs : ∀ n l', calcularNominaSemanal g (Some e) n config = Return l' →
                       Liquidacion.cedula l' = Empleado.cedula e).
  { intros n l'. unfold calcularNominaSemanal.
    destruct (validarDatos _ _ _); [|discriminate].
    destruct n, config; try discriminate.
    destruct (Global.salarioBase g); [|discriminate]. intros [= <-]. reflexivity. }
  unfold calcular. destruct (String.eqb tipoNomina "MENSUAL"); [|apply Hs].
  unfold calcularNominaMensual. destruct novedades as [n|]; [|discriminate].
  destruct (calcularNominaSemanal g (Some e) (Some (novedadesMensual n)) config) as [l'|]
    eqn:Hl; [|discriminate].
  intros [= <-]. cbn. exact (Hs _ _ Hl).
Qed.

(** What a request that returns leaves in the store. *)
Lemma liquidar_Return g ahora body st l st' :
  liquidar g ahora body st = (Return l, st') →
  ∃ cedula,
    LiquidarBody.cedula body = Some cedula
    ∧ Liquidacion.cedula l = cedula
    ∧ cadenaVacia (LiquidarBody.periodo body) = false
    ∧ st' = if default true (LiquidarBody.guardar body)
            then guardarLiquidacion cedula (periodoDe body)
                   (default "SEMANAL" (LiquidarBody.tipoNomina body)) ahora l st
            else st.
Proof.
  intros Hrun. pose proof (liquidar_cedula _ _ _ _ _ _ Hrun) as Hced.
  unfold liquidar in Hrun.
  destruct (cadenaVacia (LiquidarBody.cedula body)) eqn:Hc; [discriminate Hrun|].
  destruct (cadenaVacia (LiquidarBody.periodo body)) eqn:Hp; [discriminate Hrun|].
  destruct (list_find _ (Store.empleados st)) as [[i e]|]; [|discriminate Hrun].
  destruct (calcular _ g _ _ _) as [l0|x]; [|discriminate Hrun].
  injection Hrun as <- <-.
  destruct (LiquidarBody.cedula body) as [cedula|]; [|discriminate Hc].
  injection Hced as Hced. exists cedula. split_and!; try reflexivity. exact Hced.
Qed.

(** A request that throws leaves the store as it was. *)
Lemma liquidar_Throw g ahora body st :
  isThrow (liquidar g ahora body st).1 = true → (liquidar g ahora body st).2 = st.
Proof.
  unfold liquidar.
  destruct (cadenaVacia (LiquidarBody.cedula body)); [reflexivity|].
  destruct (cadenaVacia (LiquidarBody.periodo body)); [reflexivity|].
  destruct (list_find _ (Store.empleados st)) as [[i e]|]; [|reflexivity].
  destruct (calcular _ g _ _ _) as [l0|x]; [discriminate|reflexivity].
Qed.

(** X2. [POST /liquidar] writes nothing when it fails, whatever the failure,
    and nothing when the request sets [guardar] to false. *)
Theorem liquidar_no_escribe g ahora body st :
  isThrow (liquidar g ahora body st).1 = true ∨ LiquidarBody.guardar body = Some false →
  (liquidar g ahora body st).2 = st.
Proof.
  intros [H|H]; [apply liquidar_Throw; exact H|].
  destruct (liquidar g ahora body st) as [[l|x] st'] eqn:Hrun; cbn [snd].
  - apply liquidar_Return in Hrun as (cedula & _ & _ & _ & ->). rewrite H. reflexivity.
  - pose proof (liquidar_Throw g ahora body st) as Ht. rewrite Hrun in Ht. apply Ht. reflexivity.
Qed.

(** X3. The first settlement saved for a period creates its document: a
    draft of the requested pay type holding that settlement alone, its totals
    the sums over it, created and processed at the time of the request. *)
Theorem liquidar_crea_borrador g ahora body st l st' p :
  liquidar g ahora body st = (Return l, st') →
  LiquidarBody.guardar body ≠ Some false →
  LiquidarBody.periodo body = Some p →
  Store.nominas st !! p = None →
  Store.nominas st' !! p
  = Some {| Nomina.periodo := p;
            Nomina.tipoNomina := default "SEMANAL" (LiquidarBody.tipoNomina body);
            Nomina.estado := "borrador";
            Nomina.fechaInicio := None;
            Nomina.fechaFin := None;
            Nomina.liquidaciones := [l];
            Nomina.totales := calcularTotales [l];
            Nomina.errores := None;
            Nomina.creadoAt := Some ahora;
            Nomina.procesadoAt := Some ahora;
            Nomina.aprobadoAt := None |}.
Proof.
  intros Hrun Hg Hp Hnone.
  apply liquidar_Return in Hrun as (cedula & _ & _ & _ & ->).
  unfold periodoDe. rewrite Hp.
  assert (Hsave : Store.nominas
                    (guardarLiquidacion cedula p
                       (default "SEMANAL" (LiquidarBody.tipoNomina body)) ahora l st) !! p
                  = Some (upsertLiquidacion cedula l ahora
                            (nuevoPeriodo p (default "SEMANAL" (LiquidarBody.tipoNomina body))
                               ahora))).
  { unfold guardarLiquidacion. rewrite Hnone. apply lookup_insert_eq. }
  destruct (LiquidarBody.guardar body) as [[|]|]; [|contradiction|]; exact Hsave.
Qed.

(** The store a bulk run leaves: the one it found, or that one with a fresh
    draft saved under the period of the request. *)
Lemma liquidarAll_store g ahora body st :
  (liquidarAll g ahora body st).2 = st
  ∨ ∃ p nomina,
      LiquidarAllBody.periodo body = Some p
      ∧ (liquidarAll g ahora body st).2 = guardarNomina p nomina st
      ∧ coherente nomina
      ∧ Nomina.liquidaciones nomina
        = omap (exito g ahora p body (Store.config st)) (empleadosActivos st).
Proof.
  destruct (cadenaVacia (LiquidarAllBody.periodo body)) eqn:Hp.
  - left. unfold liquidarAll. rewrite Hp. reflexivity.
  - destruct (cadenaVacia_false _ Hp) as (p & Hsome & Hne).
    destruct (empleadosActivos st) as [|e activos] eqn:Ha.
    + left. unfold liquidarAll. rewrite Hp. fold (empleadosActivos st). rewrite Ha.
      reflexivity.
    + right. assert (Hact : empleadosActivos st ≠ []) by (rewrite Ha; discriminate).
      pose proof (liquidarAll_guarda g ahora body st p Hsome Hne Hact) as Hrun.
      cbn zeta in Hrun. rewrite Hrun, <- Ha. cbn [snd].
      eexists p, _. split_and!; [exact Hsome|reflexivity..].
Qed.

(** The store an approval leaves. *)
Lemma aprobar_store ahora periodo st :
  (aprobar ahora periodo st).2 = st
  ∨ ∃ nomina,
      Store.nominas st !! periodo = Some nomina
      ∧ (aprobar ahora periodo st).2 = guardarNomina periodo (marcarAprobada ahora nomina) st.
Proof.
  unfold aprobar. destruct (Store.nominas st !! periodo) as [nomina|]; [|left; reflexivity].
  destruct (String.eqb _ _); [left; reflexivity|right; eauto].
Qed.

(** X5. If the totals of every stored period are the sums over its
    settlements, they still are after any request to [POST /liquidar],
    [POST /liquidar-all] or [PUT /:periodo/aprobar]. *)
Theorem totales_coherentes_preservados g ahora st :
  storeCoherente st →
  (∀ body, storeCoherente (liquidar g ahora body st).2)
  ∧ (∀ body, storeCoherente (liquidarAll g ahora body st).2)
  ∧ (∀ periodo, storeCoherente (aprobar ahora periodo st).2).
Proof.
  intros Hst. split_and!.
  - intros body.
    destruct (liquidar_store g ahora body st) as [->|(l & c & _ & _ & _ & _ & _ & ->)];
      [exact Hst|].
    apply map_Forall_insert_2; [reflexivity|exact Hst].
  - intros body.
    destruct (liquidarAll_store g ahora body st) as [->|(p & n & _ & -> & Hn & _)];
      [exact Hst|].
    apply map_Forall_insert_2; [exact Hn|exact Hst].
  - intros periodo.
    destruct (aprobar_store ahora periodo st) as [->|(n & Hn & ->)]; [exact Hst|].
    apply map_Forall_insert_2; [|exact Hst].
    exact (Hst periodo n Hn).
Qed.

(** ** One settlement per employee *)

(** The cedulas of a list after an upsert: unchanged when the employee was
    in it, one more at the end otherwise. *)
Lemma actualizarOAgregar_cedulas cedula l (liquidaciones : list Liquidacion.t) :
  Liquidacion.cedula l = cedula →
  Liquidacion.cedula <$> actualizarOAgregar cedula l liquidaciones
  = if decide (cedula ∈ Liquidacion.cedula <$> liquidaciones)
    then Liquidacion.cedula <$> liquidaciones
    else ((Liquidacion.cedula <$> liquidaciones) ++ [cedula])%list.
Proof.
  intros Hc. unfold actualizarOAgregar.
  destruct (list_find _ liquidaciones) as [[i y]|] eqn:Hf.
  - apply list_find_Some in Hf as (Hi & Hy & _).
    rewrite decide_True by (apply list_elem_of_fmap; exists y; split;
                            [symmetry; exact Hy|eapply list_elem_of_lookup_2; exact Hi]).
    rewrite list_fmap_insert. apply list_insert_id.
    rewrite list_lookup_fmap, Hi. cbn. congruence.
  - apply list_find_None in Hf.
    rewrite decide_False.
    + rewrite fmap_app. cbn. rewrite Hc. reflexivity.
    + intros (y & Hy & Hin)%list_elem_of_fmap.
      rewrite Forall_forall in Hf. apply (Hf y Hin). symmetry. exact Hy.
Qed.

Lemma actualizarOAgregar_sinRepetidos cedula l (liquidaciones : list Liquidacion.t) :
  Liquidacion.cedula l = cedula →
  NoDup (Liquidacion.cedula <$> liquidaciones) →
  NoDup (Liquidacion.cedula <$> actualizarOAgregar cedula l liquidaciones).
Proof.
  intros Hc Hnd. rewrite (actualizarOAgregar_cedulas _ _ _ Hc).
  destruct (decide _) as [Hin|Hin]; [exact Hnd|].
  apply NoDup_app. split_and!; [exact Hnd| |apply NoDup_singleton].
  intros x Hx Hx'%list_elem_of_singleton. subst. contradiction.
Qed.

(** The cedulas of the settlements of a bulk run are those of the employees
    whose computation returns, in roster order. *)
Lemma exitos_cedulas g ahora periodo body config (empleados : list Empleado.t) :
  Liquidacion.cedula <$> omap (exito g ahora periodo body config) empleados
  = Empleado.cedula <$> filter (λ e, falla g body config e = false) empleados.
Proof.
  induction empleados as [|e empleados IH]; [reflexivity|].
  rewrite omap_cons, filter_cons.
  destruct (liquidarEmpleado g body config e) as [l|x] eqn:He.
  - destruct (exito_Return g ahora periodo body config e l He) as (-> & _ & Hf).
    rewrite decide_True by exact Hf. cbn. rewrite IH. f_equal.
    apply (calcular_cedula _ _ _ _ _ _ He).
  - destruct (fallo_Throw g ahora periodo body config e x He) as (-> & _ & Hf).
    rewrite decide_False by (rewrite Hf; discriminate). exact IH.
Qed.

(** The cedulas of the error entries are those of the employees whose
    computation throws, in roster order. *)
Lemma fallos_cedulas g body config (empleados : list Empleado.t) :
  ErrorEmpleado.cedula <$> omap (fallo g body config) empleados
  = Empleado.cedula <$> filter (λ e, falla g body config e = true) empleados.
Proof.
  induction empleados as [|e empleados IH]; [reflexivity|].
  rewrite omap_cons, filter_cons.
  destruct (liquidarEmpleado g body config e) as [l|x] eqn:He.
  - destruct (exito_Return g "" "" body config e l He) as (_ & -> & Hf).
    rewrite decide_False by (rewrite Hf; discriminate). exact IH.
  - destruct (fallo_Throw g "" "" body config e x He) as (_ & -> & Hf).
    rewrite decide_True by exact Hf. cbn. rewrite IH. reflexivity.
Qed.

(** X6. If no stored period holds two settlements of one employee, none does
    after a [POST /liquidar] or an approval; and none does after a bulk run
    when no two active employees share a cedula. *)
Theorem un_empleado_una_liquidacion g ahora st :
  storeSinRepetidos st →
  (∀ body, storeSinRepetidos (liquidar g ahora body st).2)
  ∧ (∀ periodo, storeSinRepetidos (aprobar ahora periodo st).2)
  ∧ (∀ body, NoDup (Empleado.cedula <$> empleadosActivos st) →
             storeSinRepetidos (liquidarAll g ahora body st).2).
Proof.
  intros Hst. split_and!.
  - intros body.
    destruct (liquidar_store g ahora body st) as [->|(l & c & _ & _ & Hc & _ & _ & ->)];
      [exact Hst|].
    apply map_Forall_insert_2; [|exact Hst].
    unfold sinRepetidos. cbn. apply actualizarOAgregar_sinRepetidos; [exact Hc|].
    destruct (Store.nominas st !! periodoDe body) as [n|] eqn:Hn.
    + exact (Hst _ _ Hn).
    + cbn. apply NoDup_nil_2.
  - intros periodo.
    destruct (aprobar_store ahora periodo st) as [->|(n & Hn & ->)]; [exact Hst|].
    apply map_Forall_insert_2; [|exact Hst]. exact (Hst _ _ Hn).
  - intros body Hnd.
    destruct (liquidarAll_store g ahora body st) as [->|(p & n & _ & -> & _ & Hl)];
      [exact Hst|].
    apply map_Forall_insert_2; [|exact Hst].
    unfold sinRepetidos. rewrite Hl, exitos_cedulas.
    eapply sublist_NoDup; [exact Hnd|apply fmap_sublist, sublist_filter].
Qed.

(** X7. Saving a settlement leaves the settlements of the other employees of
    the period where they were. *)
Theorem liquidar_conserva_a_los_demas g ahora body st l st' nomina j otra :
  liquidar g ahora body st = (Return l, st') →
  Store.nominas st !! periodoDe body = Some nomina →
  Nomina.liquidaciones nomina !! j = Some otra →
  Some (Liquidacion.cedula otra) ≠ LiquidarBody.cedula body →
  ∃ nomina', Store.nominas st' !! periodoDe body = Some nomina'
           ∧ Nomina.liquidaciones nomina' !! j = Some otra.
Proof.
  intros Hrun Hn Hj Hne.
  apply liquidar_Return in Hrun as (cedula & Hced & Hc & _ & ->).
  destruct (default true (LiquidarBody.guardar body)); [|eauto].
  unfold guardarLiquidacion. rewrite Hn. cbn. rewrite lookup_insert_eq.
  eexists. split; [reflexivity|]. cbn. unfold actualizarOAgregar.
  destruct (list_find _ (Nomina.liquidaciones nomina)) as [[i y]|] eqn:Hf.
  - apply list_find_Some in Hf as (Hi & Hy & _).
    rewrite list_lookup_insert_ne; [exact Hj|].
    intros ->. rewrite Hi in Hj. injection Hj as ->. congruence.
  - apply lookup_app_l_Some. exact Hj.
Qed.

(** ** Bulk runs *)

Lemma guardarNomina_lookup periodo nomina st :
  Store.nominas (guardarNomina periodo nomina st) !! periodo = Some nomina.
Proof. apply lookup_insert_eq. Qed.

(** X8. A bulk run does not read the document stored under its period: what
    it saves is the same whatever was there, an approved period included.
    The saved document is a draft without approval stamp whose settlements
    are those computed in this run. *)
Theorem liquidarAll_descarta_lo_anterior g ahora body st p anterior :
  LiquidarAllBody.periodo body = Some p → p ≠ "" → empleadosActivos st ≠ [] →
  Store.nominas (liquidarAll g ahora body (guardarNomina p anterior st)).2 !! p
  = Store.nominas (liquidarAll g ahora body st).2 !! p
  ∧ ∃ nomina,
      Store.nominas (liquidarAll g ahora body (guardarNomina p anterior st)).2 !! p
      = Some nomina
      ∧ Nomina.estado nomina = "borrador"
      ∧ Nomina.aprobadoAt nomina = None
      ∧ Nomina.creadoAt nomina = Some ahora
      ∧ Nomina.liquidaciones nomina
        = omap (exito g ahora p body (Store.config st)) (empleadosActivos st).
Proof.
  intros Hp Hne Hact.
  pose proof (liquidarAll_guarda g ahora body st p Hp Hne Hact) as H1.
  pose proof (liquidarAll_guarda g ahora body (guardarNomina p anterior st) p Hp Hne Hact)
    as H2.
  cbn zeta in H1, H2.
  change (empleadosActivos (guardarNomina p anterior st)) with (empleadosActivos st) in H2.
  change (Store.config (guardarNomina p anterior st)) with (Store.config st) in H2.
  rewrite H1, H2. cbn [snd]. rewrite !guardarNomina_lookup. split; [reflexivity|].
  eexists. split; [reflexivity|]. repeat split.
Qed.

(** X9. After a bulk run every active employee is accounted for exactly
    once: the settlements are those of the active employees whose
    computation returned, the error entries those of the ones whose
    computation threw, both in roster order, and the two counts of the
    response add up to the number of active employees. *)
Theorem liquidarAll_cuentas g ahora body st p :
  LiquidarAllBody.periodo body = Some p → p ≠ "" → empleadosActivos st ≠ [] →
  ∃ resumen nomina,
    liquidarAll g ahora body st = (Return resumen, guardarNomina p nomina st)
    ∧ Liquidacion.cedula <$> Nomina.liquidaciones nomina
      = Empleado.cedula
          <$> filter (λ e, falla g body (Store.config st) e = false) (empleadosActivos st)
    ∧ ErrorEmpleado.cedula <$> default [] (Nomina.errores nomina)
      = Empleado.cedula
          <$> filter (λ e, falla g body (Store.config st) e = true) (empleadosActivos st)
    ∧ (Resumen.empleadosLiquidados resumen + Resumen.empleadosConError resumen
       = length (empleadosActivos st))%nat
    ∧ Resumen.empleadosLiquidados resumen = length (Nomina.liquidaciones nomina)
    ∧ Resumen.empleadosConError resumen = length (default [] (Nomina.errores nomina))
    ∧ Resumen.totales resumen = Nomina.totales nomina.
Proof.
  intros Hp Hne Hact.
  pose proof (liquidarAll_guarda g ahora body st p Hp Hne Hact) as Hrun.
  cbn zeta in Hrun. do 2 eexists. split; [exact Hrun|]. cbn.
  assert (Herr : ∀ errores : list ErrorEmpleado.t,
            default [] (erroresOUndefined errores) = errores)
    by (intros [|? ?]; reflexivity).
  rewrite Herr. split_and!; try reflexivity.
  - apply exitos_cedulas.
  - apply fallos_cedulas.
  - apply exitos_mas_fallos.
Qed.

Lemma todos_fallan_sinGlobales body config (empleados : list Empleado.t) :
  filter (λ e, falla sinGlobales body config e = true) empleados = empleados.
Proof.
  induction empleados as [|e l IH]; [reflexivity|].
  rewrite filter_cons, decide_True.
  - f_equal. exact IH.
  - unfold falla, liquidarEmpleado. apply calcular_sinGlobales.
Qed.

(** X10. As the program stands, with no global [salarioBase], a bulk run
    settles nobody: it saves a draft with no settlement, totals 0 and one
    error entry for each active employee. *)
Theorem liquidarAll_no_liquida_a_nadie ahora body st p :
  LiquidarAllBody.periodo body = Some p → p ≠ "" → empleadosActivos st ≠ [] →
  ∃ resumen nomina,
    liquidarAll sinGlobales ahora body st = (Return resumen, guardarNomina p nomina st)
    ∧ Nomina.liquidaciones nomina = []
    ∧ Nomina.totales nomina = {| Totales.totalNomina := 0; Totales.totalConsignado := 0 |}
    ∧ Resumen.empleadosLiquidados resumen = 0%nat
    ∧ Resumen.empleadosConError resumen = length (empleadosActivos st)
    ∧ ErrorEmpleado.cedula <$> default [] (Nomina.errores nomina)
      = Empleado.cedula <$> empleadosActivos st.
Proof.
  intros Hp Hne Hact.
  pose proof (liquidarAll_guarda sinGlobales ahora body st p Hp Hne Hact) as Hrun.
  cbn zeta in Hrun.
  destruct (liquidarAll_sinGlobales ahora p body (Store.config st) (empleadosActivos st))
    as [He Hf].
  rewrite He in Hrun. do 2 eexists. split; [exact Hrun|]. cbn.
  assert (Herr : ∀ errores : list ErrorEmpleado.t,
            default [] (erroresOUndefined errores) = errores)
    by (intros [|? ?]; reflexivity).
  rewrite Herr, fallos_cedulas, todos_fallan_sinGlobales.
  split_and!; try reflexivity. exact Hf.
Qed.

(** X11. The merge of the default novelties with the override of an
    employee takes each of the ten properties from the override when the
    override has it and from the defaults otherwise; an empty side changes
    nothing, and merging is associative. *)
Theorem mezclar_leyes a b c :
  mezclar a Novedades.vacio = a
  ∧ mezclar Novedades.vacio b = b
  ∧ mezclar (mezclar a b) c = mezclar a (mezclar b c)
  ∧ Forall (λ propiedad : Novedades.t → option float,
              (∀ v, propiedad b = Some v → propiedad (mezclar a b) = Some v)
              ∧ (propiedad b = None → propiedad (mezclar a b) = propiedad a))
      [ Novedades.diasLaborados; Novedades.horasExtraDiurna; Novedades.horasExtraNocturna;
        Novedades.horasRecargoNocturno; Novedades.horasExtraDomDiurna;
        Novedades.horasExtraDomNocturna; Novedades.dominicalSinComp;
        Novedades.dominicalConComp; Novedades.bonificacion; Novedades.prestamo ].
Proof.
  split_and!.
  - destruct a; reflexivity.
  - destruct b as [d1 d2 d3 d4 d5 d6 d7 d8 d9 d10].
    destruct d1, d2, d3, d4, d5, d6, d7, d8, d9, d10; reflexivity.
  - destruct a, b, c. unfold mezclar. cbn. f_equal;
      match goal with |- mezclarCampo (mezclarCampo _ ?y) ?z = _ =>
        destruct y, z; reflexivity end.
  - repeat (apply Forall_cons; split;
            [split; [intros v H|intros H]; cbn; rewrite H; reflexivity|]).
    apply Forall_nil_2.
Qed.

(** ** Approval and reading back *)

(** X12. Approving a stored period that is not approved yet succeeds
    whatever its status says: the document keeps its settlements, totals and
    dates, gets status 'aprobada' and the time of the request as
    [aprobadoAt], the response repeats the totals, a later read returns that
    document, and a later approval is refused and changes nothing. *)
Theorem aprobar_transicion ahora despues periodo st nomina :
  Store.nominas st !! periodo = Some nomina → Nomina.estado nomina ≠ "aprobada" →
  ∃ r st',
    aprobar ahora periodo st = (Return r, st')
    ∧ Aprobacion.estado r = "aprobada"
    ∧ Aprobacion.totales r = Nomina.totales nomina
    ∧ obtenerNomina periodo st' = Return (marcarAprobada ahora nomina)
    ∧ Nomina.estado (marcarAprobada ahora nomina) = "aprobada"
    ∧ Nomina.aprobadoAt (marcarAprobada ahora nomina) = Some ahora
    ∧ Nomina.liquidaciones (marcarAprobada ahora nomina) = Nomina.liquidaciones nomina
    ∧ Nomina.totales (marcarAprobada ahora nomina) = Nomina.totales nomina
    ∧ Nomina.procesadoAt (marcarAprobada ahora nomina) = Nomina.procesadoAt nomina
    ∧ aprobar despues periodo st'
      = (Throw (ExApp (createError "NOMINA_ALREADY_CLOSED"
                  (Some "Este período ya está aprobado"))), st').
Proof.
  intros Hn He. pose proof (aprobar_borrador ahora periodo st nomina Hn He) as Hrun.
  do 2 eexists. split; [exact Hrun|].
  split_and!; try reflexivity.
  - unfold obtenerNomina. rewrite guardarNomina_lookup. reflexivity.
  - destruct (aprobar_dos_veces ahora despues periodo st _ _ Hrun) as [H _]. exact H.
Qed.

(** X13. An approval fails exactly when the period has no document
    (NOMINA_NOT_FOUND) or its status is already 'aprobada'
    (NOMINA_ALREADY_CLOSED); a failed approval leaves the store as it was. *)
Theorem aprobar_falla_sii ahora periodo st :
  (isThrow (aprobar ahora periodo st).1 = true
   ↔ Store.nominas st !! periodo = None
     ∨ ∃ nomina, Store.nominas st !! periodo = Some nomina
                 ∧ Nomina.estado nomina = "aprobada")
  ∧ (isThrow (aprobar ahora periodo st).1 = true → (aprobar ahora periodo st).2 = st)
  ∧ (Store.nominas st !! periodo = None →
     codigoDe (aprobar ahora periodo st).1 = Some "NOMINA_NOT_FOUND")
  ∧ (∀ nomina, Store.nominas st !! periodo = Some nomina →
       Nomina.estado nomina = "aprobada" →
       codigoDe (aprobar ahora periodo st).1 = Some "NOMINA_ALREADY_CLOSED").
Proof.
  unfold aprobar. destruct (Store.nominas st !! periodo) as [nomina|] eqn:Hn.
  - destruct (String.eqb_spec (Nomina.estado nomina) "aprobada") as [He|He]; cbn.
    + split_and!; try done. split; [eauto|done].
    + split_and!; try done.
      * split; [done|].
        intros [H|(n & [= <-] & H)]; [discriminate H|contradiction].
      * intros n [= <-] H. contradiction.
  - cbn. split_and!; try done. split; auto.
Qed.

(** X14. Read your writes: after a [POST /liquidar] that returns with
    [guardar] on, [GET /:periodo] for the period of the request returns a
    document that holds the returned settlement, has totals equal to the
    sums over its settlements, and was processed at the time of the request. *)
Theorem obtenerNomina_tras_liquidar g ahora body st l st' :
  liquidar g ahora body st = (Return l, st') →
  LiquidarBody.guardar body ≠ Some false →
  ∃ nomina,
    obtenerNomina (periodoDe body) st' = Return nomina
    ∧ l ∈ Nomina.liquidaciones nomina
    ∧ coherente nomina
    ∧ Nomina.procesadoAt nomina = Some ahora.
Proof.
  intros Hrun Hg.
  apply liquidar_Return in Hrun as (cedula & _ & Hc & _ & ->).
  assert (default true (LiquidarBody.guardar body) = true) as ->
    by (destruct (LiquidarBody.guardar body) as [[|]|]; [reflexivity|contradiction|reflexivity]).
  unfold obtenerNomina, guardarLiquidacion. rewrite guardarNomina_lookup.
  eexists. split; [reflexivity|]. split_and!; try reflexivity. cbn.
  destruct (actualizarOAgregar_find cedula l Hc
              (Nomina.liquidaciones
                 match Store.nominas st !! periodoDe body with
                 | Some nomina => nomina
                 | None => nuevoPeriodo (periodoDe body)
                             (default "SEMANAL" (LiquidarBody.tipoNomina body)) ahora
                 end)) as [i Hi].
  apply list_find_Some in Hi as (Hi & _). eapply list_elem_of_lookup_2. exact Hi.
Qed.

(** A bulk run that returns was given a period and found an active
    employee. *)
Lemma liquidarAll_Return g ahora body st resumen st' :
  liquidarAll g ahora body st = (Return resumen, st') →
  cadenaVacia (LiquidarAllBody.periodo body) = false ∧ empleadosActivos st ≠ [].
Proof.
  unfold liquidarAll, empleadosActivos.
  destruct (cadenaVacia _); [discriminate|].
  destruct (filter _ _); [discriminate|].
  intros _. split; [reflexivity|discriminate].
Qed.

(** X15. After a bulk run that returns, [GET /:periodo] for the period of
    the response returns a draft whose number of settlements, totals and
    error list are the ones the response reported. *)
Theorem obtenerNomina_tras_liquidarAll g ahora body st resumen st' :
  liquidarAll g ahora body st = (Return resumen, st') →
  ∃ nomina,
    obtenerNomina (Resumen.periodo resumen) st' = Return nomina
    ∧ Nomina.estado nomina = "borrador"
    ∧ length (Nomina.liquidaciones nomina) = Resumen.empleadosLiquidados resumen
    ∧ Nomina.totales nomina = Resumen.totales resumen
    ∧ Nomina.errores nomina = Resumen.errores resumen
    ∧ coherente nomina.
Proof.
  intros Hrun.
  destruct (liquidarAll_Return _ _ _ _ _ _ Hrun) as [Hp Hact].
  destruct (cadenaVacia_false _ Hp) as (p & Hsome & Hne).
  pose proof (liquidarAll_guarda g ahora body st p Hsome Hne Hact) as H.
  cbn zeta in H. rewrite H in Hrun. injection Hrun as <- <-.
  unfold obtenerNomina. cbn [Resumen.periodo]. rewrite guardarNomina_lookup.
  eexists. split; [reflexivity|]. repeat split.
Qed.

(** ** The properties above on the sample stores *)

Ltac distinto := let H := fresh in intros H; vm_compute in H; discriminate H.

Lemma liquidar_no_escribe_witness :
  isThrow (liquidar (conGlobal 1000000) instante1 cuerpoVistaPrevia storeUnaActiva).1 = false
  ∧ (liquidar (conGlobal 1000000) instante1 cuerpoVistaPrevia storeUnaActiva).2
    = storeUnaActiva
  ∧ isThrow (liquidar sinGlobales instante1 cuerpoLiquidar storeUnaActiva).1 = true
  ∧ (liquidar sinGlobales instante1 cuerpoLiquidar storeUnaActiva).2 = storeUnaActiva.
Proof.
  split_and!.
  - vm_compute. reflexivity.
  - apply liquidar_no_escribe. right. reflexivity.
  - vm_compute. reflexivity.
  - apply liquidar_no_escribe. left. vm_compute. reflexivity.
Defined.

Lemma liquidar_crea_borrador_witness :
  ∃ l st',
    liquidar (conGlobal 1000000) instante1 cuerpoLiquidar storeUnaActiva = (Return l, st')
    ∧ Store.nominas storeUnaActiva !! "2022-S19" = None
    ∧ (Nomina.liquidaciones <$> Store.nominas st' !! "2022-S19") = Some [l]
    ∧ (Nomina.estado <$> Store.nominas st' !! "2022-S19") = Some "borrador".
Proof.
  destruct (liquidar (conGlobal 1000000) instante1 cuerpoLiquidar storeUnaActiva)
    as [[l|x] st'] eqn:Hrun; [|vm_compute in Hrun; discriminate Hrun].
  exists l, st'. split; [reflexivity|]. split; [reflexivity|].
  rewrite (liquidar_crea_borrador _ _ _ _ _ _ "2022-S19" Hrun);
    [split; reflexivity|discriminate|reflexivity|reflexivity].
Defined.

Lemma totales_coherentes_preservados_witness :
  storeCoherente storeAprobado
  ∧ storeCoherente (liquidar (conGlobal 1000000) instante2 cuerpoLiquidar storeAprobado).2
  ∧ storeCoherente (liquidarAll sinGlobales instante2 cuerpoLiquidarAll storeAprobado).2
  ∧ storeCoherente (aprobar instante2 "2022-S19" storeBorrador).2.
Proof.
  assert (H : storeCoherente storeAprobado) by (apply map_Forall_singleton; reflexivity).
  assert (H' : storeCoherente storeBorrador) by (apply map_Forall_singleton; reflexivity).
  split_and!.
  - exact H.
  - apply (totales_coherentes_preservados (conGlobal 1000000) instante2 storeAprobado H).
  - apply (totales_coherentes_preservados sinGlobales instante2 storeAprobado H).
  - apply (totales_coherentes_preservados sinGlobales instante2 storeBorrador H').
Defined.

Lemma un_empleado_una_liquidacion_witness :
  storeSinRepetidos storeBorrador
  ∧ storeSinRepetidos (liquidar (conGlobal 1000000) instante2 cuerpoLiquidar storeBorrador).2
  ∧ storeSinRepetidos (aprobar instante2 "2022-S19" storeBorrador).2.
Proof.
  assert (H : storeSinRepetidos storeBorrador).
  { apply map_Forall_singleton. unfold sinRepetidos.
    apply (bool_decide_unpack _). vm_compute. exact I. }
  split_and!.
  - exact H.
  - apply (un_empleado_una_liquidacion (conGlobal 1000000) instante2 storeBorrador H).
  - apply (un_empleado_una_liquidacion (conGlobal 1000000) instante2 storeBorrador H).
Defined.

Lemma liquidar_conserva_a_los_demas_witness :
  ∃ nomina',
    Store.nominas (liquidar (conGlobal 1000000) instante2 cuerpoLiquidar storeAprobado).2
      !! "2022-S19" = Some nomina'
    ∧ Nomina.liquidaciones nomina' !! 0%nat = Some liquidacionTresMillones.
Proof.
  destruct (liquidar (conGlobal 1000000) instante2 cuerpoLiquidar storeAprobado)
    as [[l|x] st'] eqn:Hrun; [|vm_compute in Hrun; discriminate Hrun].
  apply (liquidar_conserva_a_los_demas _ _ _ _ _ _ nominaAprobada 0 liquidacionTresMillones
           Hrun); [reflexivity|reflexivity|discriminate].
Defined.

Lemma liquidarAll_descarta_lo_anterior_witness :
  Nomina.estado nominaAprobada = "aprobada"
  ∧ ∃ nomina,
      Store.nominas
        (liquidarAll sinGlobales instante2 cuerpoLiquidarAll
           (guardarNomina "2022-S19" nominaAprobada storeUnaActiva)).2 !! "2022-S19"
      = Some nomina
      ∧ Nomina.estado nomina = "borrador"
      ∧ Nomina.aprobadoAt nomina = None.
Proof.
  split; [reflexivity|].
  destruct (liquidarAll_descarta_lo_anterior sinGlobales instante2 cuerpoLiquidarAll
              storeUnaActiva "2022-S19" nominaAprobada)
    as (_ & nomina & H1 & H2 & H3 & _); [reflexivity|discriminate|distinto|].
  exists nomina. split_and!; assumption.
Defined.

Lemma liquidarAll_cuentas_witness :
  ∃ resumen nomina,
    liquidarAll (conGlobal 1000000) instante1 cuerpoLiquidarAll storeTresActivos
    = (Return resumen, guardarNomina "2022-S19" nomina storeTresActivos)
    ∧ Liquidacion.cedula <$> Nomina.liquidaciones nomina = ["43677978"; "1216727372"]
    ∧ ErrorEmpleado.cedula <$> default [] (Nomina.errores nomina) = ["1000000002"]
    ∧ (Resumen.empleadosLiquidados resumen + Resumen.empleadosConError resumen = 3)%nat.
Proof.
  destruct (liquidarAll_cuentas (conGlobal 1000000) instante1 cuerpoLiquidarAll
              storeTresActivos "2022-S19")
    as (resumen & nomina & H1 & H2 & H3 & H4 & _); [reflexivity|discriminate|distinto|].
  exists resumen, nomina. split_and!; [exact H1| | |exact H4].
  - rewrite H2. vm_compute. reflexivity.
  - rewrite H3. vm_compute. reflexivity.
Defined.

Lemma liquidarAll_no_liquida_a_nadie_witness :
  ∃ resumen nomina,
    liquidarAll sinGlobales instante1 cuerpoLiquidarAll storeTresActivos
    = (Return resumen, guardarNomina "2022-S19" nomina storeTresActivos)
    ∧ Nomina.liquidaciones nomina = []
    ∧ Resumen.empleadosConError resumen = 3%nat.
Proof.
  destruct (liquidarAll_no_liquida_a_nadie instante1 cuerpoLiquidarAll storeTresActivos
              "2022-S19")
    as (resumen & nomina & H1 & H2 & _ & _ & H5 & _); [reflexivity|discriminate|distinto|].
  exists resumen, nomina. split_and!; [exact H1|exact H2|exact H5].
Defined.

Lemma aprobar_transicion_witness :
  ∃ r st',
    aprobar instante2 "2022-S19" storeBorrador = (Return r, st')
    ∧ Aprobacion.estado r = "aprobada"
    ∧ obtenerNomina "2022-S19" st' = Return (marcarAprobada instante2 nominaBorrador)
    ∧ isThrow (aprobar instante2 "2022-S19" st').1 = true.
Proof.
  destruct (aprobar_transicion instante2 instante2 "2022-S19" storeBorrador nominaBorrador)
    as (r & st' & H1 & H2 & _ & H4 & _ & _ & _ & _ & _ & H10); [reflexivity|distinto|].
  exists r, st'. split_and!; [exact H1|exact H2|exact H4|].
  rewrite H10. reflexivity.
Defined.

Lemma obtenerNomina_tras_liquidar_witness :
  ∃ l nomina,
    (liquidar (conGlobal 1000000) instante1 cuerpoLiquidar storeUnaActiva).1 = Return l
    ∧ obtenerNomina "2022-S19"
        (liquidar (conGlobal 1000000) instante1 cuerpoLiquidar storeUnaActiva).2
      = Return nomina
    ∧ l ∈ Nomina.liquidaciones nomina.
Proof.
  destruct (liquidar (conGlobal 1000000) instante1 cuerpoLiquidar storeUnaActiva)
    as [[l|x] st'] eqn:Hrun; [|vm_compute in Hrun; discriminate Hrun].
  destruct (obtenerNomina_tras_liquidar _ _ _ _ _ _ Hrun) as (nomina & H1 & H2 & _);
    [discriminate|].
  exists l, nomina. split_and!; [reflexivity|exact H1|exact H2].
Defined.

Lemma obtenerNomina_tras_liquidarAll_witness :
  ∃ resumen nomina,
    (liquidarAll sinGlobales instante1 cuerpoLiquidarAll storeUnaActiva).1 = Return resumen
    ∧ obtenerNomina "2022-S19"
        (liquidarAll sinGlobales instante1 cuerpoLiquidarAll storeUnaActiva).2
      = Return nomina
    ∧ Nomina.errores nomina = Resumen.errores resumen.
Proof.
  destruct (liquidarAll sinGlobales instante1 cuerpoLiquidarAll storeUnaActiva)
    as [[resumen|x] st'] eqn:Hrun; [|vm_compute in Hrun; discriminate Hrun].
  destruct (obtenerNomina_tras_liquidarAll _ _ _ _ _ _ Hrun)
    as (nomina & H1 & _ & _ & _ & H5 & _).
  assert (Hp : Resumen.periodo resumen = "2022-S19").
  { vm_compute in Hrun. injection Hrun as <- _. reflexivity. }
  rewrite Hp in H1. exists resumen, nomina. split_and!; [reflexivity|exact H1|exact H5].
Defined.

(** * Errors as the client sees them *)

Ltac en_lista := apply (bool_decide_unpack _); vm_compute; exact I.

Lemma assoc_Some {A} k (tbl : list (string * A)) v :
  assoc k tbl = Some v → (k, v) ∈ tbl.
Proof.
  induction tbl as [|[k' v'] tbl IH]; cbn; [discriminate|].
  destruct (String.eqb_spec k k') as [->|_].
  - intros [= ->]. apply list_elem_of_here.
  - intros H. apply list_elem_of_further, IH, H.
Qed.

(** Every entry of [ErrorCodes] is filed under its own code, and has a
    status among 400, 404, 409, 500 and a message. *)
Lemma ErrorCodes_bien_formada :
  Forall (λ kv, def_code kv.2 = kv.1
                ∧ def_status kv.2 ∈ [400; 404; 409; 500]%Z
                ∧ def_code kv.2 ≠ ""
                ∧ def_message kv.2 ≠ "") ErrorCodes.
Proof.
  unfold ErrorCodes.
  repeat (apply Forall_cons; split;
          [cbn; split_and!; [reflexivity|en_lista|discriminate|discriminate]|]).
  apply Forall_nil_2.
Qed.

Lemma assoc_None {A} k (tbl : list (string * A)) :
  assoc k tbl = None ↔ k ∉ tbl.*1.
Proof.
  induction tbl as [|[k' v'] tbl IH]; cbn.
  - split; [intros _ H; apply elem_of_nil in H; exact H|reflexivity].
  - destruct (String.eqb_spec k k') as [->|Hne].
    + split; [discriminate|]. intros H. exfalso. apply H, list_elem_of_here.
    + rewrite IH. split.
      * intros H [Heq|Hin]%elem_of_cons; [exact (Hne Heq)|exact (H Hin)].
      * intros H Hin. apply H, list_elem_of_further, Hin.
Qed.

Lemma assoc_elem_of {A} k (tbl : list (string * A)) v :
  NoDup tbl.*1 → (k, v) ∈ tbl → assoc k tbl = Some v.
Proof.
  induction tbl as [|[k' v'] tbl IH]; cbn.
  - intros _ H. apply elem_of_nil in H. destruct H.
  - intros [Hk Hnd]%NoDup_cons [Heq|Hin]%elem_of_cons.
    + injection Heq as -> ->. rewrite String.eqb_refl. reflexivity.
    + destruct (String.eqb_spec k k') as [->|_]; [|exact (IH Hnd Hin)].
      exfalso. apply Hk. apply list_elem_of_fmap. exists (k', v). split; [reflexivity|exact Hin].
Qed.

(** The twelve keys of [ErrorCodes] are distinct, and none of them is a name
    inherited from [Object.prototype]. *)
Lemma ErrorCodes_claves :
  NoDup ErrorCodes.*1 ∧ Forall (λ k, k ∉ heredadas) ErrorCodes.*1.
Proof. split; en_lista. Qed.

(** What [ErrorCodes[errorKey]] is, by the kind of the key. *)
Lemma propiedad_casos errorKey :
  (∀ errorDef, (errorKey, errorDef) ∈ ErrorCodes → propiedad errorKey = Propia errorDef)
  ∧ (errorKey ∈ heredadas → propiedad errorKey = Heredada)
  ∧ (errorKey ∉ ErrorCodes.*1 → errorKey ∉ heredadas → propiedad errorKey = Indefinida).
Proof.
  destruct ErrorCodes_claves as [Hnd Hdis]. unfold propiedad. split_and!.
  - intros errorDef Hin. rewrite (assoc_elem_of _ _ _ Hnd Hin). reflexivity.
  - intros Hh. destruct (assoc errorKey ErrorCodes) as [d|] eqn:Ha.
    + exfalso. apply assoc_Some in Ha. rewrite Forall_forall in Hdis.
      apply (Hdis errorKey); [|exact Hh].
      apply list_elem_of_fmap. exists (errorKey, d). split; [reflexivity|exact Ha].
    + rewrite bool_decide_eq_true_2 by exact Hh. reflexivity.
  - intros Hk Hh. apply assoc_None in Hk. rewrite Hk.
    rewrite bool_decide_eq_false_2 by exact Hh. reflexivity.
Qed.

(** X16. What an error made by [createError] looks like to the client, for
    every key and message.  The message sent is the message of the error,
    which is the custom one when that is not empty; the status sent is one
    of 400, 404, 409 and 500.  For a key of [ErrorCodes] the error carries
    the status and the code of its entry, the code being the key, and they
    are sent as they are; without a custom message the message is the one
    of the entry.  For a name that [ErrorCodes] inherits from
    [Object.prototype] (constructor, toString, ...) the lookup is truthy,
    the error has neither status nor code, the handler sends 500 and
    INTERNAL_ERROR, and without a custom message the message sent is
    empty.  For any other key the error is the INTERNAL_ERROR entry's. *)
Theorem createError_llega_al_cliente nodeEnv stack errorKey customMessage :
  let e := createError errorKey customMessage in
  let r := errorHandler nodeEnv stack (ExApp e) in
  Respuesta.message r = message e
  ∧ Respuesta.status r ∈ [400; 404; 409; 500]%Z
  ∧ (∀ m, customMessage = Some m → m ≠ "" → Respuesta.message r = m)
  ∧ (∀ errorDef,
       (errorKey, errorDef) ∈ ErrorCodes →
       statusCode e = Some (def_status errorDef)
       ∧ code e = Some errorKey
       ∧ Respuesta.status r = def_status errorDef
       ∧ Respuesta.code r = errorKey
       ∧ (cadenaVacia customMessage = true →
          Respuesta.message r = def_message errorDef ∧ def_message errorDef ≠ ""))
  ∧ (errorKey ∈ heredadas →
     statusCode e = None
     ∧ code e = None
     ∧ Respuesta.status r = 500%Z
     ∧ Respuesta.code r = "INTERNAL_ERROR"
     ∧ (cadenaVacia customMessage = true → Respuesta.message r = ""))
  ∧ (errorKey ∉ ErrorCodes.*1 → errorKey ∉ heredadas →
     statusCode e = Some 500%Z
     ∧ code e = Some "INTERNAL_ERROR"
     ∧ Respuesta.status r = 500%Z
     ∧ Respuesta.code r = "INTERNAL_ERROR"
     ∧ (cadenaVacia customMessage = true →
        Respuesta.message r = "Error interno del servidor")).
Proof.
  intros e r.
  destruct (propiedad_casos errorKey) as (Hpropia & Hheredada & Hindef).
  assert (Hcustom : ∀ m o, customMessage = Some m → m ≠ "" → mensajeO customMessage o = m).
  { intros m o -> Hne. apply String.eqb_neq in Hne. cbn. rewrite Hne. reflexivity. }
  assert (Hsin : ∀ o, cadenaVacia customMessage = true → mensajeO customMessage o = default "" o).
  { intros o. unfold mensajeO, cadenaVacia.
    destruct customMessage as [m|]; [intros ->|]; reflexivity. }
  split_and!.
  - subst r e. unfold createError. destruct (propiedad errorKey); reflexivity.
  - subst r e. unfold createError.
    destruct (propiedad errorKey) as [d| |] eqn:Hp; cbn; try en_lista.
    unfold propiedad in Hp. destruct (assoc errorKey ErrorCodes) as [d'|] eqn:Ha;
      [|destruct (bool_decide _); discriminate Hp].
    injection Hp as ->. apply assoc_Some in Ha.
    pose proof ErrorCodes_bien_formada as Hwf. rewrite Forall_forall in Hwf.
    destruct (Hwf _ Ha) as (_ & Hs & _). cbn in Hs.
    destruct (Z.eqb_spec (def_status d) 0) as [H0|_]; [|exact Hs].
    rewrite H0 in Hs. apply (bool_decide_pack _) in Hs. vm_compute in Hs. destruct Hs.
  - intros m Hm Hne. subst r e. unfold createError.
    destruct (propiedad errorKey); cbn; apply Hcustom; assumption.
  - intros errorDef Hin. subst r e. unfold createError. rewrite (Hpropia _ Hin).
    pose proof ErrorCodes_bien_formada as Hwf. rewrite Forall_forall in Hwf.
    destruct (Hwf _ Hin) as (Hc & Hs & Hc0 & Hm). cbn in Hc, Hs, Hc0, Hm. cbn.
    assert (Hs0 : (def_status errorDef =? 0)%Z = false).
    { apply Z.eqb_neq. intros H0. rewrite H0 in Hs.
      apply (bool_decide_pack _) in Hs. vm_compute in Hs. exact Hs. }
    apply String.eqb_neq in Hc0. rewrite Hs0, Hc0, Hc.
    split_and!; try reflexivity.
    intros Hv. rewrite (Hsin _ Hv). split; [reflexivity|exact Hm].
  - intros Hh. subst r e. unfold createError. rewrite (Hheredada Hh). cbn.
    split_and!; try reflexivity. intros Hv. rewrite (Hsin _ Hv). reflexivity.
  - intros Hk Hh. subst r e. unfold createError. rewrite (Hindef Hk Hh). cbn.
    split_and!; try reflexivity. intros Hv. rewrite (Hsin _ Hv). reflexivity.
Qed.

(** The three kinds of key at work. *)
Lemma createError_ejemplos :
  errorHandler None "" (ExApp (createError "EMP_NOT_FOUND" None))
  = {| Respuesta.status := 404; Respuesta.code := "EMP_NOT_FOUND";
       Respuesta.message := "Empleado no encontrado";
       Respuesta.stack := None; Respuesta.details := None |}
  ∧ errorHandler None "" (ExApp (createError "constructor" None))
    = {| Respuesta.status := 500; Respuesta.code := "INTERNAL_ERROR";
         Respuesta.message := "";
         Respuesta.stack := None; Respuesta.details := None |}
  ∧ errorHandler None "" (ExApp (createError "NO_EXISTE" None))
    = {| Respuesta.status := 500; Respuesta.code := "INTERNAL_ERROR";
         Respuesta.message := "Error interno del servidor";
         Respuesta.stack := None; Respuesta.details := None |}.
Proof. split_and!; vm_compute; reflexivity. Qed.

(** X17. Outside development the answer to an error holds a status, a code
    and a message and nothing else: neither stack nor details.  So the list
    of violations of a validation error never reaches the client (two
    requests that are invalid for different reasons get the same answer),
    and an error that is not an [AppError] is answered with status 500, code
    INTERNAL_ERROR and a fixed message, whatever its own message.  In
    development the violations are sent as [details]. *)
Theorem errorHandler_fuera_de_desarrollo nodeEnv stack stack' :
  nodeEnv ≠ Some "development" →
  (∀ err, Respuesta.stack (errorHandler nodeEnv stack err) = None
          ∧ Respuesta.details (errorHandler nodeEnv stack err) = None)
  ∧ (∀ errores errores',
       errorHandler nodeEnv stack (errorDeValidacion errores)
       = errorHandler nodeEnv stack' (errorDeValidacion errores'))
  ∧ (∀ errores,
       errorHandler nodeEnv stack (errorDeValidacion errores)
       = {| Respuesta.status := 400; Respuesta.code := "VALIDATION_ERROR";
            Respuesta.message := "Error en los datos de entrada";
            Respuesta.stack := None; Respuesta.details := None |})
  ∧ (∀ msg,
       errorHandler nodeEnv stack (ExReferenceError msg)
       = {| Respuesta.status := 500; Respuesta.code := "INTERNAL_ERROR";
            Respuesta.message := "Ha ocurrido un error en el servidor";
            Respuesta.stack := None; Respuesta.details := None |}
       ∧ errorHandler nodeEnv stack (ExTypeError msg)
         = errorHandler nodeEnv stack (ExReferenceError msg))
  ∧ (∀ errores,
       Respuesta.details (errorHandler (Some "development") stack (errorDeValidacion errores))
       = Some (Some errores)).
Proof.
  intros Hne.
  assert (Hdev : enDesarrollo nodeEnv = false).
  { destruct nodeEnv as [v|]; [|reflexivity]. cbn.
    destruct (String.eqb_spec v "development"); [congruence|reflexivity]. }
  split_and!.
  - intros err. unfold errorHandler. cbn. rewrite Hdev. split; reflexivity.
  - intros errores errores'. unfold errorHandler. cbn. rewrite Hdev. reflexivity.
  - intros errores. unfold errorHandler. cbn. rewrite Hdev. reflexivity.
  - intros msg. unfold errorHandler. cbn. rewrite Hdev. split; reflexivity.
  - intros errores. reflexivity.
Qed.

Lemma errorHandler_fuera_de_desarrollo_witness :
  errorHandler (Some "production") "pila" (errorDeValidacion [violacionDias])
  = errorHandler (Some "production") "otra pila"
      (errorDeValidacion [violacionEmpleado; violacionConfig])
  ∧ Respuesta.message (errorHandler (Some "production") "pila" salarioBaseNoDefinido)
    = "Ha ocurrido un error en el servidor".
Proof.
  destruct (errorHandler_fuera_de_desarrollo (Some "production") "pila" "otra pila")
    as (_ & H2 & _ & H4 & _); [discriminate|].
  split; [apply H2|]. unfold salarioBaseNoDefinido.
  rewrite (proj1 (H4 _)). reflexivity.
Defined.

(** X18. As the program stands, [POST /liquidar] is never answered with
    status 200: the answer is 400, 404 or 500.  A request that names an
    employee of the roster and whose weekly novelties pass validation is
    answered 500 INTERNAL_ERROR with the fixed message. *)
Theorem liquidar_nunca_200 nodeEnv stack ahora body st :
  estadoHttp (asyncHandler nodeEnv stack (liquidar sinGlobales ahora body st).1)
    ∈ [400; 404; 500]%Z
  ∧ (∀ cedula i e,
       LiquidarBody.cedula body = Some cedula → cedula ≠ "" →
       cadenaVacia (LiquidarBody.periodo body) = false →
       list_find (λ e, Empleado.cedula e = cedula) (Store.empleados st) = Some (i, e) →
       LiquidarBody.tipoNomina body ≠ Some "MENSUAL" →
       validarDatos (Some e) (Some (default Novedades.vacio (LiquidarBody.novedades body)))
         (Some (Store.config st)) = [] →
       ∃ r, asyncHandler nodeEnv stack (liquidar sinGlobales ahora body st).1 = Fallo r
            ∧ Respuesta.status r = 500%Z
            ∧ Respuesta.code r = "INTERNAL_ERROR"
            ∧ Respuesta.message r = "Ha ocurrido un error en el servidor").
Proof.
  split.
  - unfold liquidar.
    destruct (cadenaVacia (LiquidarBody.cedula body)); [cbn; en_lista|].
    destruct (cadenaVacia (LiquidarBody.periodo body)); [cbn; en_lista|].
    destruct (list_find _ (Store.empleados st)) as [[i e]|]; [|cbn; en_lista].
    assert (Hs : ∀ n, estadoHttp (asyncHandler nodeEnv stack
                        (calcularNominaSemanal sinGlobales (Some e) n
                           (Some (Store.config st)))) ∈ [400; 404; 500]%Z).
    { intros n. unfold calcularNominaSemanal.
      destruct (validarDatos _ _ _); [|cbn; en_lista].
      destruct n; cbn; en_lista. }
    unfold calcular. destruct (String.eqb _ "MENSUAL").
    + unfold calcularNominaMensual. cbn [default].
      specialize (Hs (Some (novedadesMensual
                             (default Novedades.vacio (LiquidarBody.novedades body))))).
      destruct (calcularNominaSemanal _ _ _ _) as [l|x]; [|exact Hs].
      cbn in Hs. apply (bool_decide_pack _) in Hs. vm_compute in Hs. destruct Hs.
    + specialize (Hs (Some (default Novedades.vacio (LiquidarBody.novedades body)))).
      destruct (calcularNominaSemanal _ _ _ _) as [l|x]; [|exact Hs].
      cbn in Hs. apply (bool_decide_pack _) in Hs. vm_compute in Hs. destruct Hs.
  - intros cedula i e Hc Hne Hp Hf Ht Hv.
    unfold liquidar. rewrite Hc, Hp. cbn [cadenaVacia default from_option id].
    apply String.eqb_neq in Hne. rewrite Hne, Hf.
    assert (Hm : String.eqb (default "SEMANAL" (LiquidarBody.tipoNomina body)) "MENSUAL"
                 = false).
    { destruct (LiquidarBody.tipoNomina body) as [t|]; [|reflexivity]. cbn.
      apply String.eqb_neq. congruence. }
    unfold calcular. rewrite Hm.
    rewrite (calcularNominaSemanal_valido_sinGlobales _ _ _ Hv).
    eexists. split; [reflexivity|]. repeat split.
Qed.

(** * Further properties of the engine *)

Lemma siFalla_nil cond v : siFalla cond v = [] ↔ cond = false.
Proof. destruct cond; cbn; split; congruence. Qed.

(** X19. What the engine accepts.  [validarDatos] returns no violation
    exactly when the employee is present with a salary that is neither
    missing, zero nor NaN (a negative one will do), the novelties are
    present, [diasLaborados] is supplied and is neither below 0 nor above 30
    (NaN will do), none of [horasExtraDiurna], [horasExtraNocturna],
    [prestamo], [bonificacion] is below 0, and the config is present with an
    [smmlv] that is neither missing, zero nor NaN. *)
Theorem validarDatos_vacio_sii empleado novedades config :
  validarDatos empleado novedades config = []
  ↔ ∃ e n c d,
      empleado = Some e ∧ novedades = Some n ∧ config = Some c
      ∧ truthyProp (Empleado.salarioBase e) = true
      ∧ Novedades.diasLaborados n = Some d
      ∧ (d <? 0)%float = false ∧ (30 <? d)%float = false
      ∧ negativo (Novedades.horasExtraDiurna n) = false
      ∧ negativo (Novedades.horasExtraNocturna n) = false
      ∧ negativo (Novedades.prestamo n) = false
      ∧ negativo (Novedades.bonificacion n) = false
      ∧ truthyProp (Config.smmlv c) = true.
Proof.
  split.
  - destruct novedades as [n|].
    + rewrite validarDatos_con_novedades.
      intros H. repeat (apply app_eq_nil in H as [?%siFalla_nil H]).
      apply siFalla_nil in H.
      destruct empleado as [e|]; [|discriminate].
      destruct config as [c|]; [|discriminate].
      destruct (Novedades.diasLaborados n) as [d|] eqn:Hd; [|discriminate].
      cbn in *. exists e, n, c, d.
      match goal with Hdias : (_ || _) = false |- _ =>
        apply orb_false_iff in Hdias as [? ?] end.
      split_and!; try reflexivity; try assumption; apply negb_false_iff; assumption.
    + rewrite validarDatos_sin_novedades. intros H.
      apply app_eq_nil in H as [_ H]. discriminate H.
  - intros (e & n & c & d & -> & -> & -> & He & Hd & Hlo & Hhi & H1 & H2 & H3 & H4 & Hc).
    rewrite validarDatos_con_novedades. cbn. rewrite Hd, He, Hc, H1, H2, H3, H4. cbn.
    rewrite Hlo, Hhi. reflexivity.
Qed.

(** X20. The details of a validation error name only the eight fields of
    [violacionesPosibles], each at most once, in the order of that list. *)
Theorem validarDatos_sublista empleado novedades config :
  sublist (validarDatos empleado novedades config) violacionesPosibles
  ∧ NoDup (validarDatos empleado novedades config)
  ∧ (length (validarDatos empleado novedades config) ≤ 7)%nat.
Proof.
  assert (Hnd : NoDup violacionesPosibles).
  { cbv [violacionesPosibles violacionEmpleado violacionNovedades violacionDias
         violacionNegativo violacionConfig].
    repeat (apply NoDup_cons_2;
            [intros H; repeat (apply elem_of_cons in H as [H|H]; [discriminate H|]);
             apply elem_of_nil in H; exact H|]).
    apply NoDup_nil_2. }
  assert (Hsub : sublist (validarDatos empleado novedades config) violacionesPosibles).
  { destruct novedades as [n|].
    - rewrite validarDatos_con_novedades. unfold siFalla, violacionesPosibles.
      destruct (empleadoInvalido empleado), (diasFueraDeRango _),
        (negativo (Novedades.horasExtraDiurna n)), (negativo (Novedades.horasExtraNocturna n)),
        (negativo (Novedades.prestamo n)), (negativo (Novedades.bonificacion n)),
        (configInvalida config); cbn; repeat constructor.
    - rewrite validarDatos_sin_novedades. unfold pushIf, violacionesPosibles.
      destruct (empleadoInvalido empleado); cbn; repeat constructor. }
  split_and!; [exact Hsub|exact (sublist_NoDup _ _ Hnd Hsub)|].
  destruct novedades as [n|].
  - rewrite validarDatos_con_novedades. unfold siFalla.
    destruct (empleadoInvalido empleado), (diasFueraDeRango _),
      (negativo (Novedades.horasExtraDiurna n)), (negativo (Novedades.horasExtraNocturna n)),
      (negativo (Novedades.prestamo n)), (negativo (Novedades.bonificacion n)),
      (configInvalida config); cbn; lia.
  - rewrite validarDatos_sin_novedades. unfold pushIf.
    destruct (empleadoInvalido empleado); cbn; lia.
Qed.

(** Novelties that pass validation carry a [diasLaborados] that is neither
    below 0 nor above 30. *)
Lemma validarDatos_vacio_dias empleado n config :
  validarDatos empleado (Some n) config = [] →
  ∃ e c d, empleado = Some e ∧ config = Some c
           ∧ Novedades.diasLaborados n = Some d
           ∧ (d <? 0)%float = false ∧ (30 <? d)%float = false.
Proof.
  rewrite validarDatos_con_novedades.
  intros H. repeat (apply app_eq_nil in H as [?%siFalla_nil H]).
  destruct empleado as [e|]; [|discriminate].
  destruct config as [c|]; [|discriminate].
  destruct (Novedades.diasLaborados n) as [d|] eqn:Hd; [|discriminate].
  cbn in *. exists e, c, d.
  match goal with Hdias : (_ || _) = false |- _ =>
    apply orb_false_iff in Hdias as [? ?] end.
  split_and!; try reflexivity; assumption.
Qed.

(** X21. The weekly default of seven days is never used: validation
    rejects novelties without [diasLaborados] before the default applies.
    A settlement that is returned reports the [diasLaborados] that was
    supplied, and that value is neither below 0 nor above 30. *)
Theorem dias_por_defecto_inalcanzable g empleado n config l :
  calcularNominaSemanal g empleado (Some n) config = Return l →
  ∃ d, Novedades.diasLaborados n = Some d
       ∧ Liquidacion.diasLaborados l = d
       ∧ (d <? 0)%float = false ∧ (30 <? d)%float = false.
Proof.
  unfold calcularNominaSemanal.
  destruct (validarDatos empleado (Some n) config) eqn:Hv; [|discriminate].
  apply validarDatos_vacio_dias in Hv as (e & c & d & -> & -> & Hd & Hlo & Hhi).
  destruct (Global.salarioBase g) as [v|]; [|discriminate].
  intros [= <-]. exists d. cbn. rewrite Hd. auto.
Qed.

Lemma dias_por_defecto_inalcanzable_witness :
  ∃ l d, calcularNominaSemanal (conGlobal 1000000) (Some empleadaReferencia)
           (Some novedadesReferencia) (Some config2022) = Return l
       ∧ Novedades.diasLaborados novedadesReferencia = Some d
       ∧ Liquidacion.diasLaborados l = d.
Proof.
  destruct (calcularNominaSemanal (conGlobal 1000000) (Some empleadaReferencia)
              (Some novedadesReferencia) (Some config2022)) as [l|x] eqn:Hrun;
    [|vm_compute in Hrun; discriminate Hrun].
  destruct (dias_por_defecto_inalcanzable _ _ _ _ _ Hrun) as (d & H1 & H2 & _).
  exists l, d. auto.
Defined.

(** X22. A weekly [POST /liquidar] whose novelties lack [diasLaborados], or
    that sends no novelties at all, never returns a settlement, whatever the
    employee, the config and the binding of [salarioBase]: nothing is
    saved. *)
Theorem liquidar_semanal_exige_dias g ahora body st :
  LiquidarBody.tipoNomina body ≠ Some "MENSUAL" →
  Novedades.diasLaborados (default Novedades.vacio (LiquidarBody.novedades body)) = None →
  isThrow (liquidar g ahora body st).1 = true
  ∧ (liquidar g ahora body st).2 = st
  ∧ (∀ cedula i e,
       LiquidarBody.cedula body = Some cedula → cedula ≠ "" →
       cadenaVacia (LiquidarBody.periodo body) = false →
       list_find (λ e, Empleado.cedula e = cedula) (Store.empleados st) = Some (i, e) →
       ∃ errores, (liquidar g ahora body st).1 = Throw (errorDeValidacion errores)
                  ∧ violacionDias ∈ errores).
Proof.
  intros Ht Hd.
  assert (Hm : String.eqb (default "SEMANAL" (LiquidarBody.tipoNomina body)) "MENSUAL"
               = false).
  { destruct (LiquidarBody.tipoNomina body) as [t|]; [|reflexivity]. cbn.
    apply String.eqb_neq. congruence. }
  assert (Hcalc : ∀ e, ∃ errores,
            calcular (default "SEMANAL" (LiquidarBody.tipoNomina body)) g (Some e)
              (Some (default Novedades.vacio (LiquidarBody.novedades body)))
              (Some (Store.config st)) = Throw (errorDeValidacion errores)
            ∧ violacionDias ∈ errores).
  { intros e. unfold calcular. rewrite Hm.
    assert (Hin : violacionDias
                  ∈ validarDatos (Some e)
                      (Some (default Novedades.vacio (LiquidarBody.novedades body)))
                      (Some (Store.config st))).
    { rewrite validarDatos_con_novedades, Hd. cbn.
      apply elem_of_app. right. apply list_elem_of_here. }
    eexists. split; [|exact Hin].
    apply calcularNominaSemanal_invalido. intros H0. rewrite H0 in Hin.
    apply elem_of_nil in Hin. exact Hin. }
  assert (Hthrow : isThrow (liquidar g ahora body st).1 = true).
  { unfold liquidar.
    destruct (cadenaVacia (LiquidarBody.cedula body)); [reflexivity|].
    destruct (cadenaVacia (LiquidarBody.periodo body)); [reflexivity|].
    destruct (list_find _ (Store.empleados st)) as [[i e]|]; [|reflexivity].
    destruct (Hcalc e) as (errores & -> & _). reflexivity. }
  split_and!; [exact Hthrow|apply liquidar_Throw; exact Hthrow|].
  intros cedula i e Hc Hne Hp Hf.
  unfold liquidar. rewrite Hc, Hp. cbn [cadenaVacia default from_option id].
  apply String.eqb_neq in Hne. rewrite Hne, Hf.
  destruct (Hcalc e) as (errores & -> & Hin). eauto.
Qed.

Lemma liquidar_semanal_exige_dias_witness :
  isThrow (liquidar (conGlobal 1000000) instante1
             (LiquidarBody.mk (Some "43677978") (Some "2022-S19") None None None)
             storeUnaActiva).1 = true.
Proof.
  apply (liquidar_semanal_exige_dias (conGlobal 1000000) instante1
           (LiquidarBody.mk (Some "43677978") (Some "2022-S19") None None None)
           storeUnaActiva); [discriminate|reflexivity].
Defined.

(** X23. In the monthly engine the [diasLaborados] violation is raised
    exactly when a truthy [diasLaborados] below 0 or above 30 is supplied: a
    missing one, 0 and NaN are replaced by 30 and pass. *)
Theorem mensual_dias_fuera_de_rango empleado n config :
  violacionDias ∈ validarDatos empleado (Some (novedadesMensual n)) config
  ↔ ∃ d, Novedades.diasLaborados n = Some d ∧ truthy d = true
         ∧ ((d <? 0)%float = true ∨ (30 <? d)%float = true).
Proof.
  rewrite validarDatos_con_novedades.
  assert (Hotros : ∀ (c1 c3 c4 c5 c6 c7 : bool) (c2 : bool),
            violacionDias
            ∈ (siFalla c1 violacionEmpleado ++ siFalla c2 violacionDias
               ++ siFalla c3 (violacionNegativo "horasExtraDiurna")
               ++ siFalla c4 (violacionNegativo "horasExtraNocturna")
               ++ siFalla c5 (violacionNegativo "prestamo")
               ++ siFalla c6 (violacionNegativo "bonificacion")
               ++ siFalla c7 violacionConfig)%list
            ↔ c2 = true).
  { intros c1 c3 c4 c5 c6 c7 c2.
    destruct c1, c2, c3, c4, c5, c6, c7; cbn; split; intros H; try reflexivity;
      try discriminate H;
      try (repeat (apply elem_of_cons in H as [H|H]; [discriminate H|]);
           apply elem_of_nil in H; destruct H);
      repeat first [apply list_elem_of_here | apply list_elem_of_further]. }
  rewrite Hotros. cbn [novedadesMensual Novedades.diasLaborados diasFueraDeRango].
  unfold orElse. destruct (Novedades.diasLaborados n) as [d|].
  - destruct (truthy d) eqn:Ht.
    + rewrite orb_true_iff. split.
      * intros H. exists d. auto.
      * intros (d' & [= <-] & _ & H). exact H.
    + split; [intros H; vm_compute in H; discriminate H|].
      intros (d' & [= <-] & H & _). congruence.
  - split; [intros H; vm_compute in H; discriminate H|]. intros (d' & [=] & _).
Qed.

(** X24. Novelties missing altogether: the weekly engine answers with the
    validation error, the monthly engine throws a [TypeError] while reading
    [novedades.diasLaborados], which the client sees as 500 INTERNAL_ERROR
    instead of 400 VALIDATION_ERROR.  The routes of nominas.js always pass
    an object, so this is about direct callers of the engine. *)
Theorem sin_novedades_semanal_y_mensual g empleado config nodeEnv stack :
  (∃ errores, calcularNominaSemanal g empleado None config = Throw (errorDeValidacion errores)
              ∧ violacionNovedades ∈ errores)
  ∧ (∃ msg, calcularNominaMensual g empleado None config = Throw (ExTypeError msg))
  ∧ estadoHttp (asyncHandler nodeEnv stack (calcularNominaSemanal g empleado None config))
    = 400%Z
  ∧ estadoHttp (asyncHandler nodeEnv stack (calcularNominaMensual g empleado None config))
    = 500%Z.
Proof.
  assert (Hin : violacionNovedades ∈ validarDatos empleado None config).
  { rewrite validarDatos_sin_novedades. apply elem_of_app. right. apply list_elem_of_here. }
  assert (Hrun : calcularNominaSemanal g empleado None config
                 = Throw (errorDeValidacion (validarDatos empleado None config))).
  { apply calcularNominaSemanal_invalido. intros H0. rewrite H0 in Hin.
    apply elem_of_nil in Hin. exact Hin. }
  split_and!.
  - eexists. split; [exact Hrun|exact Hin].
  - eexists. reflexivity.
  - rewrite Hrun. reflexivity.
  - reflexivity.
Qed.

(** ** The configuration routes *)

(** Line 89 lets both zeros through. *)
Lemma campoRechazado_cero (v : float) :
  PrimFloat.is_zero v = true → campoRechazado (Some v) = false.
Proof. intros [-> | ->]%is_zero_inv; reflexivity. Qed.

Lemma primerCampoRechazado_None updates :
  primerCampoRechazado updates = None
  ↔ campoRechazado (ConfigCambios.smmlv updates) = false
    ∧ campoRechazado (ConfigCambios.auxTransporte updates) = false
    ∧ campoRechazado (ConfigCambios.saludPct updates) = false
    ∧ campoRechazado (ConfigCambios.pensionPct updates) = false
    ∧ campoRechazado (ConfigCambios.horaDivisor updates) = false.
Proof.
  unfold primerCampoRechazado.
  destruct (campoRechazado (ConfigCambios.smmlv updates)),
    (campoRechazado (ConfigCambios.auxTransporte updates)),
    (campoRechazado (ConfigCambios.saludPct updates)),
    (campoRechazado (ConfigCambios.pensionPct updates)),
    (campoRechazado (ConfigCambios.horaDivisor updates));
    split; try discriminate; try tauto; intros (? & ? & ? & ? & ?); discriminate.
Qed.

Lemma actualizarConfig_acepta anio ahora updates archivo :
  primerCampoRechazado updates = None →
  actualizarConfig anio ahora updates archivo
  = (Return (aplicarCambios ahora updates (leerConfig anio archivo).1),
     Some (aplicarCambios ahora updates (leerConfig anio archivo).1)).
Proof.
  intros H. unfold actualizarConfig. destruct (leerConfig anio archivo) as [doc a].
  rewrite H. reflexivity.
Qed.

(** X25. [PUT /config] is refused exactly when one of the five numeric
    fields is supplied with [NaN] or a number below zero; the error is a
    VALIDATION_ERROR that names the first such field in the order smmlv,
    auxTransporte, saludPct, pensionPct, horaDivisor.  Factors and year are
    not checked.  A refused request leaves an existing file as it was, and
    on a missing file it has already written the defaults.  An accepted
    request answers with the document it has written, stamped with the time
    of the request. *)
Theorem actualizarConfig_rechaza_sii anio ahora updates archivo :
  (isThrow (actualizarConfig anio ahora updates archivo).1 = true
   ↔ campoRechazado (ConfigCambios.smmlv updates) = true
     ∨ campoRechazado (ConfigCambios.auxTransporte updates) = true
     ∨ campoRechazado (ConfigCambios.saludPct updates) = true
     ∨ campoRechazado (ConfigCambios.pensionPct updates) = true
     ∨ campoRechazado (ConfigCambios.horaDivisor updates) = true)
  ∧ (∀ campo, primerCampoRechazado updates = Some campo →
       (actualizarConfig anio ahora updates archivo).1
       = Throw (ExApp (createError "VALIDATION_ERROR"
                  (Some (campo ++ " debe ser un número positivo"))))
       ∧ codigoDe (actualizarConfig anio ahora updates archivo).1 = Some "VALIDATION_ERROR"
       ∧ (actualizarConfig anio ahora updates archivo).2
         = Some (default (configDefault anio) archivo))
  ∧ (isThrow (actualizarConfig anio ahora updates archivo).1 = false →
     ∃ doc, actualizarConfig anio ahora updates archivo = (Return doc, Some doc)
            ∧ ConfigDoc.updatedAt doc = Some ahora).
Proof.
  split_and!.
  - destruct (primerCampoRechazado updates) as [campo|] eqn:Hp.
    + unfold actualizarConfig. destruct (leerConfig anio archivo) as [doc a].
      rewrite Hp. cbn. split; [intros _|reflexivity].
      destruct (campoRechazado (ConfigCambios.smmlv updates)) eqn:H1; [auto|].
      destruct (campoRechazado (ConfigCambios.auxTransporte updates)) eqn:H2; [auto|].
      destruct (campoRechazado (ConfigCambios.saludPct updates)) eqn:H3; [auto|].
      destruct (campoRechazado (ConfigCambios.pensionPct updates)) eqn:H4; [auto|].
      destruct (campoRechazado (ConfigCambios.horaDivisor updates)) eqn:H5; [auto 10|].
      assert (Hn : primerCampoRechazado updates = None)
        by (apply primerCampoRechazado_None; auto).
      congruence.
    + rewrite (actualizarConfig_acepta _ _ _ _ Hp). cbn.
      apply primerCampoRechazado_None in Hp as (-> & -> & -> & -> & ->).
      split; [discriminate|]. intros [H|[H|[H|[H|H]]]]; discriminate H.
  - intros campo Hp. unfold actualizarConfig.
    destruct archivo as [doc|]; cbn; rewrite Hp; cbn; auto.
  - destruct (primerCampoRechazado updates) as [campo|] eqn:Hp.
    + unfold actualizarConfig. destruct (leerConfig anio archivo) as [doc a].
      rewrite Hp. cbn. discriminate.
    + rewrite (actualizarConfig_acepta _ _ _ _ Hp). intros _.
      eexists. split; reflexivity.
Qed.

(** With the novelties present, a config that fails line 69 makes both
    engines throw the validation error with the config violation. *)
Lemma calcular_configInvalida tipoNomina g empleado n config :
  configInvalida config = true →
  ∃ errores, calcular tipoNomina g empleado (Some n) config
             = Throw (errorDeValidacion errores)
             ∧ violacionConfig ∈ errores.
Proof.
  intros Hc.
  assert (Hs : ∀ n', ∃ errores,
             calcularNominaSemanal g empleado (Some n') config
             = Throw (errorDeValidacion errores) ∧ violacionConfig ∈ errores).
  { intros n'. exists (validarDatos empleado (Some n') config).
    pose proof (validarDatos_config empleado n' config Hc) as Hin.
    split; [|exact Hin].
    apply calcularNominaSemanal_invalido. intros H0. rewrite H0 in Hin.
    apply elem_of_nil in Hin. exact Hin. }
  unfold calcular. destruct (String.eqb tipoNomina "MENSUAL"); [|apply Hs].
  destruct (Hs (novedadesMensual n)) as (errores & Hr & Hin).
  exists errores. split; [|exact Hin].
  unfold calcularNominaMensual. rewrite Hr. reflexivity.
Qed.

(** X26. [PUT /config] accepts [smmlv: 0] (its message asks for a positive
    number, its test refuses only [NaN] and numbers below zero) and writes
    it.  With that config neither engine settles anybody: every call with
    novelties, whatever the employee, throws the validation error with the
    config violation. *)
Theorem smmlv_cero_detiene_la_nomina anio ahora updates archivo v :
  ConfigCambios.smmlv updates = Some v → PrimFloat.is_zero v = true →
  campoRechazado (ConfigCambios.auxTransporte updates) = false →
  campoRechazado (ConfigCambios.saludPct updates) = false →
  campoRechazado (ConfigCambios.pensionPct updates) = false →
  campoRechazado (ConfigCambios.horaDivisor updates) = false →
  ∃ doc,
    actualizarConfig anio ahora updates archivo = (Return doc, Some doc)
    ∧ Config.smmlv (ConfigDoc.config doc) = Some v
    ∧ ∀ tipoNomina g empleado n,
        ∃ errores,
          calcular tipoNomina g empleado (Some n) (Some (ConfigDoc.config doc))
          = Throw (errorDeValidacion errores)
          ∧ violacionConfig ∈ errores.
Proof.
  intros Hv Hz H2 H3 H4 H5.
  assert (Hp : primerCampoRechazado updates = None).
  { apply primerCampoRechazado_None. rewrite Hv.
    split_and!; try assumption. apply campoRechazado_cero, Hz. }
  eexists. split; [apply (actualizarConfig_acepta _ _ _ _ Hp)|].
  assert (Hs : Config.smmlv
                 (ConfigDoc.config (aplicarCambios ahora updates (leerConfig anio archivo).1))
               = Some v).
  { cbn. rewrite Hv. reflexivity. }
  split; [exact Hs|].
  intros tipoNomina g empleado n. apply calcular_configInvalida.
  unfold configInvalida. rewrite Hs. cbn. unfold truthy. rewrite Hz. reflexivity.
Qed.

Lemma smmlv_cero_detiene_la_nomina_witness :
  ∃ doc,
    actualizarConfig 2022 instante1 cambiosSmmlvCero (Some (configDefault 2022))
    = (Return doc, Some doc)
    ∧ Config.smmlv (ConfigDoc.config doc) = Some 0%float
    ∧ ∀ tipoNomina g empleado n,
        ∃ errores,
          calcular tipoNomina g empleado (Some n) (Some (ConfigDoc.config doc))
          = Throw (errorDeValidacion errores)
          ∧ violacionConfig ∈ errores.
Proof.
  apply (smmlv_cero_detiene_la_nomina 2022 instante1 cambiosSmmlvCero
           (Some (configDefault 2022)) 0%float); reflexivity.
Defined.

(** A division by a zero gives [NaN] or an infinity (IEEE 754 and
    ECMAScript's [Number::divide]). *)
Lemma div_por_cero (s d : float) :
  PrimFloat.is_zero d = true →
  (s / d = nan ∨ s / d = infinity ∨ s / d = neg_infinity)%float.
Proof.
  intros Hd. rewrite <- (SF2Prim_Prim2SF (s / d)), div_spec.
  apply is_zero_inv in Hd as [-> | ->];
    destruct (Prim2SF s) as [[|]|[|]| |[|] m e]; cbn; auto.
Qed.

(** X27. [GET /config/formulas] against the engine.  The figures depend on
    [smmlv], [horaDivisor], [saludPct] and [pensionPct] alone: the factors
    of the config are not read, 1.25, 1.75, 1.35, 2 and 2.5 are written in
    the handler.  When [horaDivisor] is a truthy number and the five hourly
    factors of the config are those, every figure is [redondear] of the
    base value the engine computes for a salary of [smmlv].  When
    [horaDivisor] is 0 the handler divides by it, so the hourly figures are
    [NaN] or infinite, while the engine divides by 240. *)
Theorem formulas_y_motor config :
  (∀ config',
     Config.smmlv config' = Config.smmlv config →
     Config.horaDivisor config' = Config.horaDivisor config →
     Config.saludPct config' = Config.saludPct config →
     Config.pensionPct config' = Config.pensionPct config →
     formulas config' = formulas config)
  ∧ (∀ d,
       Config.horaDivisor config = Some d → truthy d = true →
       Factores.horaExtraDiurna (Config.factores config) = 1.25%float →
       Factores.horaExtraNocturna (Config.factores config) = 1.75%float →
       Factores.recargoNocturno (Config.factores config) = 1.35%float →
       Factores.horaExtraDomDiurna (Config.factores config) = 2%float →
       Factores.horaExtraDomNocturna (Config.factores config) = 2.5%float →
       let base := calcularValoresBase (toNumber (Config.smmlv config)) config in
       formulas config
       = {| Formulas.valorDia := redondear (ValoresBase.valorDia base);
            Formulas.horaOrdinaria := redondear (ValoresBase.horaOrdinaria base);
            Formulas.horaExtraDiurna := redondear (ValoresBase.horaExtraDiurna base);
            Formulas.horaExtraNocturna := redondear (ValoresBase.horaExtraNocturna base);
            Formulas.recargoNocturno := redondear (ValoresBase.recargoNocturno base);
            Formulas.horaExtraDomDiurna := redondear (ValoresBase.horaExtraDomDiurna base);
            Formulas.horaExtraDomNocturna :=
              redondear (ValoresBase.horaExtraDomNocturna base);
            Formulas.deduccionSaludDia := redondear (ValoresBase.saludDia base);
            Formulas.deduccionPensionDia := redondear (ValoresBase.pensionDia base) |})
  ∧ (∀ d,
       Config.horaDivisor config = Some d → PrimFloat.is_zero d = true →
       PrimFloat.is_finite (Formulas.horaOrdinaria (formulas config)) = false
       ∧ PrimFloat.is_finite (Formulas.horaExtraDiurna (formulas config)) = false
       ∧ PrimFloat.is_finite (Formulas.horaExtraNocturna (formulas config)) = false
       ∧ PrimFloat.is_finite (Formulas.recargoNocturno (formulas config)) = false
       ∧ PrimFloat.is_finite (Formulas.horaExtraDomDiurna (formulas config)) = false
       ∧ PrimFloat.is_finite (Formulas.horaExtraDomNocturna (formulas config)) = false
       ∧ ValoresBase.horaOrdinaria
           (calcularValoresBase (toNumber (Config.smmlv config)) config)
         = (toNumber (Config.smmlv config) / 240)%float).
Proof.
  split_and!.
  - intros config' H1 H2 H3 H4. unfold formulas. rewrite H1, H2, H3, H4. reflexivity.
  - intros d Hd Ht F1 F2 F3 F4 F5 base. subst base.
    unfold formulas, calcularValoresBase, redondear. cbn.
    rewrite (divisorHora_configurado config d Hd Ht), F1, F2, F3, F4, F5, Hd.
    reflexivity.
  - intros d Hd Hz. unfold formulas. cbn. rewrite Hd. cbn [toNumber].
    split_and!;
      try (destruct (div_por_cero (toNumber (Config.smmlv config)) d Hz)
             as [-> | [-> | ->]]; vm_compute; reflexivity).
    rewrite divisorHora_falsy; [reflexivity|].
    rewrite Hd. cbn. unfold truthy. rewrite Hz. reflexivity.
Qed.

(** The figures for the default config, and for the same config with
    [horaDivisor] 0. *)
Lemma formulas_ejemplos :
  formulas (ConfigDoc.config (configDefault 2022))
  = {| Formulas.valorDia := 33333.33;
       Formulas.horaOrdinaria := 4166.67;
       Formulas.horaExtraDiurna := 5208.33;
       Formulas.horaExtraNocturna := 7291.67;
       Formulas.recargoNocturno := 5625;
       Formulas.horaExtraDomDiurna := 8333.33;
       Formulas.horaExtraDomNocturna := 10416.67;
       Formulas.deduccionSaludDia := 1333.33;
       Formulas.deduccionPensionDia := 1333.33 |}
  ∧ Formulas.horaOrdinaria (formulas configDivisorCero) = infinity
  ∧ ValoresBase.horaOrdinaria (calcularValoresBase 1000000 configDivisorCero)
    = (1000000 / 240)%float.
Proof. split_and!; vm_compute; reflexivity. Qed.

(** ** The roster routes *)

(** The [map] of [POST /actualizar-minimo] with its counter, in closed
    form. *)
Lemma fold_pasoMinimo ahora minimo (empleados : list Ficha.t) n acc :
  fold_left (pasoMinimo ahora minimo) empleados (n, acc)
  = ((n + length (filter (λ e, bajoElMinimo minimo e = true) empleados))%nat,
     (acc ++ ((λ e, if bajoElMinimo minimo e then subirAlMinimo ahora minimo e else e)
                <$> empleados))%list).
Proof.
  revert n acc. induction empleados as [|e l IH]; intros n acc; cbn [fold_left].
  - cbn. rewrite Nat.add_0_r, app_nil_r. reflexivity.
  - unfold pasoMinimo at 2. cbn [fst snd]. rewrite fmap_cons, filter_cons.
    destruct (bajoElMinimo minimo e) eqn:Hb.
    + rewrite IH. rewrite decide_True by reflexivity. cbn [length].
      rewrite <- app_assoc. f_equal. lia.
    + rewrite IH. rewrite decide_False by discriminate.
      rewrite <- app_assoc. reflexivity.
Qed.

(** What a request to [POST /actualizar-minimo] with a positive number
    does. *)
Lemma actualizarMinimo_valido ahora minimo (empleados : list Ficha.t) :
  truthy minimo = true → (minimo <=? 0)%float = false →
  actualizarMinimo ahora (Some minimo) empleados
  = (Return {| ResumenMinimo.empleadosActualizados :=
                 length (filter (λ e, bajoElMinimo minimo e = true) empleados);
               ResumenMinimo.nuevoMinimo := minimo |},
     (λ e, if bajoElMinimo minimo e then subirAlMinimo ahora minimo e else e) <$> empleados).
Proof.
  intros Ht Hp. unfold actualizarMinimo. cbn [toNumber]. rewrite Ht, Hp. cbn [negb orb].
  rewrite fold_pasoMinimo. cbn [Nat.add app].
  f_equal.
  destruct (0 <? length (filter (λ e, bajoElMinimo minimo e = true) empleados))%nat eqn:Hc;
    [reflexivity|].
  apply Nat.ltb_ge in Hc.
  assert (Hnil : filter (λ e, bajoElMinimo minimo e = true) empleados = []).
  { destruct (filter _ empleados); [reflexivity|cbn in Hc; lia]. }
  clear Hc. induction empleados as [|e l IH]; [reflexivity|].
  rewrite filter_cons in Hnil. rewrite fmap_cons.
  destruct (bajoElMinimo minimo e) eqn:Hb.
  - rewrite decide_True in Hnil by reflexivity. discriminate Hnil.
  - rewrite decide_False in Hnil by discriminate. rewrite <- IH by exact Hnil. reflexivity.
Qed.

Lemma actualizarMinimo_cedulas ahora nuevo (empleados : list Ficha.t) :
  Ficha.cedula <$> (actualizarMinimo ahora nuevo empleados).2 = Ficha.cedula <$> empleados.
Proof.
  unfold actualizarMinimo.
  destruct (negb (truthy (toNumber nuevo)) || (toNumber nuevo <=? 0)%float); [reflexivity|].
  rewrite fold_pasoMinimo. cbn [snd app].
  destruct (0 <? _)%nat; [|reflexivity].
  rewrite <- list_fmap_compose. apply list_fmap_ext. intros i e _. cbn.
  destruct (bajoElMinimo _ e); reflexivity.
Qed.

(** Replacing a record by one of the same cedula keeps the cedulas. *)
Lemma insert_cedulas (empleados : list Ficha.t) i e e' :
  empleados !! i = Some e → Ficha.cedula e' = Ficha.cedula e →
  Ficha.cedula <$> <[i := e']> empleados = Ficha.cedula <$> empleados.
Proof.
  intros Hi He. rewrite list_fmap_insert, He. apply list_insert_id.
  rewrite list_lookup_fmap, Hi. reflexivity.
Qed.

Lemma existsb_cedula cedula (empleados : list Ficha.t) :
  existsb (λ e, bool_decide (Ficha.cedula e = cedula)) empleados = false →
  cedula ∉ (Ficha.cedula <$> empleados).
Proof.
  induction empleados as [|e l IH]; cbn.
  - intros _ H. apply elem_of_nil in H. exact H.
  - intros H. apply orb_false_iff in H as [H1 H2].
    apply bool_decide_eq_false in H1. intros [->|Hin]%elem_of_cons; [congruence|].
    exact (IH H2 Hin).
Qed.

Section Roster.

Variable toUpperCase : string → string.
Variable trim : string → string.

(** X28. The routes of empleados.js keep the cedulas of the roster apart:
    if no two records share a cedula, none do after a request to any of
    them.  [POST /] adds one record at the end, under a cedula that was not
    there, active and with a truthy [salarioBase]; [PUT /:cedula] (it drops
    [cedula] and [createdAt] from the body), a soft delete and
    [POST /actualizar-minimo] leave the cedulas and their order as they
    were; a hard delete removes records and adds none. *)
Theorem cedulas_unicas_preservadas ahora (empleados : list Ficha.t) :
  NoDup (Ficha.cedula <$> empleados) →
  (∀ body, NoDup (Ficha.cedula <$> (crearEmpleado toUpperCase trim ahora body empleados).2))
  ∧ (∀ body nuevo empleados',
       crearEmpleado toUpperCase trim ahora body empleados = (Return nuevo, empleados') →
       empleados' = (empleados ++ [nuevo])%list
       ∧ Some (Ficha.cedula nuevo) = CrearBody.cedula body
       ∧ (Ficha.cedula nuevo ∉ Ficha.cedula <$> empleados)
       ∧ Ficha.activo nuevo = true
       ∧ empleadoInvalido (Some (empleadoDe nuevo)) = false)
  ∧ (∀ cedula updates,
       Ficha.cedula <$> (actualizarEmpleado toUpperCase trim ahora cedula updates empleados).2
       = Ficha.cedula <$> empleados)
  ∧ (∀ cedula hardDelete,
       hardDelete ≠ Some "true" →
       Ficha.cedula <$> (eliminarEmpleado ahora cedula hardDelete empleados).2
       = Ficha.cedula <$> empleados)
  ∧ (∀ cedula hardDelete,
       NoDup (Ficha.cedula <$> (eliminarEmpleado ahora cedula hardDelete empleados).2)
       ∧ sublist (eliminarEmpleado ahora cedula (Some "true") empleados).2 empleados)
  ∧ (∀ nuevo,
       Ficha.cedula <$> (actualizarMinimo ahora nuevo empleados).2
       = Ficha.cedula <$> empleados).
Proof.
  intros Hnd.
  assert (Hcrear : ∀ body nuevo empleados',
            crearEmpleado toUpperCase trim ahora body empleados = (Return nuevo, empleados') →
            empleados' = (empleados ++ [nuevo])%list
            ∧ Some (Ficha.cedula nuevo) = CrearBody.cedula body
            ∧ (Ficha.cedula nuevo ∉ Ficha.cedula <$> empleados)
            ∧ Ficha.activo nuevo = true
            ∧ empleadoInvalido (Some (empleadoDe nuevo)) = false).
  { intros body nuevo empleados'. unfold crearEmpleado.
    destruct (CrearBody.cedula body) as [cedula|] eqn:Hc; [|discriminate].
    cbn [cadenaVacia default from_option id].
    destruct (String.eqb cedula "" || cadenaVacia (CrearBody.nombres body));
      [discriminate|].
    destruct (existsb _ empleados) eqn:He; [discriminate|].
    intros [= <- <-]. cbn. split_and!; try reflexivity.
    - apply existsb_cedula, He.
    - apply negb_false_iff. unfold orElse.
      destruct (CrearBody.salarioBase body) as [s|]; [|reflexivity].
      destruct (truthy s) eqn:Hs; [exact Hs|reflexivity]. }
  assert (Hput : ∀ cedula updates,
            Ficha.cedula
              <$> (actualizarEmpleado toUpperCase trim ahora cedula updates empleados).2
            = Ficha.cedula <$> empleados).
  { intros cedula updates. unfold actualizarEmpleado.
    destruct (list_find _ empleados) as [[i e]|] eqn:Hf; [|reflexivity].
    apply list_find_Some in Hf as (Hi & _ & _). cbn [snd].
    apply (insert_cedulas _ _ e); [exact Hi|reflexivity]. }
  assert (Hsoft : ∀ cedula hardDelete,
            hardDelete ≠ Some "true" →
            Ficha.cedula <$> (eliminarEmpleado ahora cedula hardDelete empleados).2
            = Ficha.cedula <$> empleados).
  { intros cedula hardDelete Hh. unfold eliminarEmpleado.
    destruct (list_find _ empleados) as [[i e]|] eqn:Hf; [|reflexivity].
    apply list_find_Some in Hf as (Hi & _ & _).
    rewrite bool_decide_eq_false_2 by exact Hh. cbn [snd].
    apply (insert_cedulas _ _ e); [exact Hi|reflexivity]. }
  assert (Hhard : ∀ cedula,
            sublist (eliminarEmpleado ahora cedula (Some "true") empleados).2 empleados).
  { intros cedula. unfold eliminarEmpleado.
    destruct (list_find _ empleados) as [[i e]|]; [|reflexivity].
    rewrite bool_decide_eq_true_2 by reflexivity. cbn [snd]. apply sublist_delete. }
  split_and!.
  - intros body.
    destruct (crearEmpleado toUpperCase trim ahora body empleados) as [[nuevo|x] empleados']
      eqn:Hr.
    + destruct (Hcrear _ _ _ Hr) as (-> & _ & Hnot & _). cbn [snd].
      rewrite fmap_app. apply NoDup_app. split_and!; [exact Hnd| |apply NoDup_singleton].
      intros c Hin [->|Hn]%elem_of_cons; [exact (Hnot Hin)|].
      apply elem_of_nil in Hn. exact Hn.
    + assert (empleados' = empleados) as ->; [|exact Hnd].
      revert Hr. unfold crearEmpleado.
      destruct (cadenaVacia _ || cadenaVacia _); [intros [= _ <-]; reflexivity|].
      destruct (existsb _ empleados); [intros [= _ <-]; reflexivity|discriminate].
  - exact Hcrear.
  - exact Hput.
  - exact Hsoft.
  - intros cedula hardDelete. split; [|apply Hhard].
    destruct (decide (hardDelete = Some "true")) as [->|Hh].
    + eapply sublist_NoDup; [exact Hnd|]. apply fmap_sublist, Hhard.
    + rewrite Hsoft by exact Hh. exact Hnd.
  - intros nuevo. apply actualizarMinimo_cedulas.
Qed.

End Roster.

Lemma cedulas_unicas_preservadas_witness :
  NoDup (Ficha.cedula <$> nominaDeDos)
  ∧ (crearEmpleado toUpperCaseAscii trimAscii instante2 cuerpoCrear nominaDeDos).1
    = Return {| Ficha.cedula := "71000111";
                Ficha.nombres := "ANA LUCIA";
                Ficha.cuenta := "";
                Ficha.tipoCuenta := "CORRIENTE";
                Ficha.salarioBase := Some 1000000%float;
                Ficha.auxTransporte := Some 117172%float;
                Ficha.esSalarioMinimo := false;
                Ficha.activo := true;
                Ficha.createdAt := Some instante2;
                Ficha.updatedAt := Some instante2 |}
  ∧ NoDup (Ficha.cedula
             <$> (crearEmpleado toUpperCaseAscii trimAscii instante2 cuerpoCrear nominaDeDos).2).
Proof.
  assert (Hnd : NoDup (Ficha.cedula <$> nominaDeDos)).
  { apply (bool_decide_unpack _). vm_compute. exact I. }
  split_and!.
  - exact Hnd.
  - vm_compute. reflexivity.
  - apply (cedulas_unicas_preservadas toUpperCaseAscii trimAscii instante2 nominaDeDos Hnd).
Defined.

(** X29. [POST /actualizar-minimo] with a number that is neither falsy nor
    at most 0.  The answer counts the active records whose [salarioBase] is
    below the new minimum; exactly those get the minimum as [salarioBase]
    and the time of the request as [updatedAt], every other record
    (inactive, at or above the minimum, or without a numeric salary) is
    left as it was, in place.  Afterwards no record is below the minimum in
    the sense of the handler, and the same request again counts 0 and
    changes nothing. *)
Theorem actualizarMinimo_postcondicion ahora despues minimo (empleados : list Ficha.t) :
  truthy minimo = true → (minimo <=? 0)%float = false →
  ∃ empleados',
    actualizarMinimo ahora (Some minimo) empleados
    = (Return {| ResumenMinimo.empleadosActualizados :=
                   length (filter (λ e, bajoElMinimo minimo e = true) empleados);
                 ResumenMinimo.nuevoMinimo := minimo |}, empleados')
    ∧ length empleados' = length empleados
    ∧ (∀ i e, empleados !! i = Some e → bajoElMinimo minimo e = false →
              empleados' !! i = Some e)
    ∧ (∀ i e, empleados !! i = Some e → bajoElMinimo minimo e = true →
              empleados' !! i = Some (subirAlMinimo ahora minimo e))
    ∧ (∀ e', e' ∈ empleados' → bajoElMinimo minimo e' = false)
    ∧ actualizarMinimo despues (Some minimo) empleados'
      = (Return {| ResumenMinimo.empleadosActualizados := 0;
                   ResumenMinimo.nuevoMinimo := minimo |}, empleados').
Proof.
  intros Ht Hp. eexists. split; [apply (actualizarMinimo_valido _ _ _ Ht Hp)|].
  set (f := λ e, if bajoElMinimo minimo e then subirAlMinimo ahora minimo e else e).
  assert (Hpost : ∀ e, bajoElMinimo minimo (f e) = false).
  { intros e. unfold f. destruct (bajoElMinimo minimo e) eqn:Hb; [|exact Hb].
    unfold bajoElMinimo. cbn. rewrite ltb_irrefl. apply andb_false_r. }
  split_and!.
  - apply length_fmap.
  - intros i e Hi Hb. rewrite list_lookup_fmap, Hi. cbn. unfold f. rewrite Hb. reflexivity.
  - intros i e Hi Hb. rewrite list_lookup_fmap, Hi. cbn. unfold f. rewrite Hb. reflexivity.
  - intros e' (e & -> & _)%list_elem_of_fmap. apply Hpost.
  - rewrite (actualizarMinimo_valido _ _ _ Ht Hp).
    assert (Hnil : filter (λ e, bajoElMinimo minimo e = true) (f <$> empleados) = []).
    { induction empleados as [|e l IH]; [reflexivity|].
      rewrite fmap_cons, filter_cons, decide_False; [exact IH|].
      rewrite Hpost. discriminate. }
    rewrite Hnil. cbn [length]. f_equal.
    rewrite <- list_fmap_compose. apply list_fmap_ext. intros i e _. cbn.
    rewrite Hpost. reflexivity.
Qed.

Lemma actualizarMinimo_postcondicion_witness :
  ∃ empleados',
    actualizarMinimo instante2 (Some 1300000%float) nominaDeDos
    = (Return {| ResumenMinimo.empleadosActualizados :=
                   length (filter (λ e, bajoElMinimo 1300000 e = true) nominaDeDos);
                 ResumenMinimo.nuevoMinimo := 1300000 |}, empleados')
    ∧ length empleados' = length nominaDeDos
    ∧ (∀ i e, nominaDeDos !! i = Some e → bajoElMinimo 1300000 e = false →
              empleados' !! i = Some e)
    ∧ (∀ i e, nominaDeDos !! i = Some e → bajoElMinimo 1300000 e = true →
              empleados' !! i = Some (subirAlMinimo instante2 1300000 e))
    ∧ (∀ e', e' ∈ empleados' → bajoElMinimo 1300000 e' = false)
    ∧ actualizarMinimo instante2 (Some 1300000%float) empleados'
      = (Return {| ResumenMinimo.empleadosActualizados := 0;
                   ResumenMinimo.nuevoMinimo := 1300000 |}, empleados').
Proof.
  apply (actualizarMinimo_postcondicion instante2 instante2 1300000%float nominaDeDos);
    reflexivity.
Defined.

(** The engines do not read [activo]. *)
Lemma calcular_ignora_activo tipoNomina g ahora (f : Ficha.t) novedades config :
  calcular tipoNomina g (Some (empleadoDe (desactivar ahora f))) novedades config
  = calcular tipoNomina g (Some (empleadoDe f)) novedades config.
Proof.
  unfold calcular. destruct (String.eqb tipoNomina "MENSUAL"); reflexivity.
Qed.

Lemma list_find_empleadoDe cedula (empleados : list Ficha.t) i e :
  list_find (λ e, Ficha.cedula e = cedula) empleados = Some (i, e) →
  list_find (λ x, Empleado.cedula x = cedula) (empleadoDe <$> empleados)
  = Some (i, empleadoDe e).
Proof.
  intros (Hi & Hc & Hlt)%list_find_Some. apply list_find_Some. split_and!.
  - rewrite list_lookup_fmap, Hi. reflexivity.
  - exact Hc.
  - intros j y Hj Hji. rewrite list_lookup_fmap in Hj.
    destruct (empleados !! j) as [f|] eqn:Hf; [|discriminate].
    injection Hj as <-. exact (Hlt j f Hf Hji).
Qed.

Lemma list_find_desactivar ahora cedula (empleados : list Ficha.t) i e :
  list_find (λ e, Ficha.cedula e = cedula) empleados = Some (i, e) →
  list_find (λ e, Ficha.cedula e = cedula) (<[i := desactivar ahora e]> empleados)
  = Some (i, desactivar ahora e).
Proof.
  intros (Hi & Hc & Hlt)%list_find_Some. apply list_find_Some. split_and!.
  - apply list_lookup_insert_eq. exact (lookup_lt_Some _ _ _ Hi).
  - exact Hc.
  - intros j y Hj Hji. rewrite list_lookup_insert_ne in Hj by lia.
    exact (Hlt j y Hj Hji).
Qed.

(** Deactivating the record at [i] takes its cedula, and no other, out of
    the active employees. *)
Lemma activos_tras_desactivar ahora config nominas (empleados : list Ficha.t) i e :
  NoDup (Ficha.cedula <$> empleados) → empleados !! i = Some e →
  empleadosActivos (storeDe (<[i := desactivar ahora e]> empleados) config nominas)
  = filter (λ x, Empleado.cedula x ≠ Ficha.cedula e)
      (empleadosActivos (storeDe empleados config nominas)).
Proof.
  unfold empleadosActivos, storeDe. cbn [Store.empleados].
  revert i. induction empleados as [|x l IH]; intros i Hnd Hi; [discriminate Hi|].
  rewrite fmap_cons in Hnd. apply NoDup_cons in Hnd as [Hx Hnd].
  destruct i as [|i]; cbn in Hi.
  - injection Hi as ->. cbn [insert list_insert]. rewrite !fmap_cons.
    rewrite filter_cons_False by (cbn; discriminate).
    assert (Hrest : filter (λ y, Empleado.cedula y ≠ Ficha.cedula e)
                      (filter (λ y, Empleado.activo y = true) (empleadoDe <$> l))
                    = filter (λ y, Empleado.activo y = true) (empleadoDe <$> l)).
    { clear IH Hnd. induction l as [|y l IH]; [reflexivity|].
      rewrite fmap_cons in Hx. rewrite fmap_cons.
      assert (Hy : Ficha.cedula y ≠ Ficha.cedula e).
      { intros Heq. apply Hx. rewrite <- Heq. apply list_elem_of_here. }
      assert (Hl : Ficha.cedula e ∉ Ficha.cedula <$> l).
      { intros Hin. apply Hx. apply list_elem_of_further, Hin. }
      destruct (Ficha.activo y) eqn:Hact.
      - rewrite (filter_cons_True (λ y, Empleado.activo y = true)) by exact Hact.
        rewrite filter_cons_True by exact Hy. rewrite (IH Hl). reflexivity.
      - rewrite (filter_cons_False (λ y, Empleado.activo y = true))
          by (cbn; rewrite Hact; discriminate).
        exact (IH Hl). }
    destruct (Ficha.activo e) eqn:Hact.
    + rewrite (filter_cons_True (λ y, Empleado.activo y = true)) by exact Hact.
      rewrite filter_cons_False by (intros H; apply H; reflexivity).
      symmetry. exact Hrest.
    + rewrite (filter_cons_False (λ y, Empleado.activo y = true))
        by (cbn; rewrite Hact; discriminate).
      symmetry. exact Hrest.
  - cbn [insert list_insert]. rewrite !fmap_cons.
    assert (Hxe : Ficha.cedula x ≠ Ficha.cedula e).
    { intros Heq. apply Hx. rewrite Heq.
      apply list_elem_of_fmap. exists e. split; [reflexivity|].
      exact (list_elem_of_lookup_2 _ _ _ Hi). }
    destruct (Ficha.activo x) eqn:Hact.
    + rewrite !(filter_cons_True (λ y, Empleado.activo y = true)) by exact Hact.
      rewrite filter_cons_True by exact Hxe.
      f_equal. exact (IH i Hnd Hi).
    + rewrite !(filter_cons_False (λ y, Empleado.activo y = true))
        by (cbn; rewrite Hact; discriminate).
      exact (IH i Hnd Hi).
Qed.

(** X30. A soft delete and the payroll.  After [DELETE /:cedula] without
    [hardDelete=true] the record is still on the roster, inactive:
    [GET /:cedula] returns it and the [activo=false] listing holds it.  The
    bulk run no longer sees that cedula and sees every other active
    employee as before.  [POST /liquidar] does not look at [activo]: for
    that cedula it answers exactly as it did before the delete. *)
Theorem baja_y_liquidacion g ahora despues cedula hardDelete (empleados : list Ficha.t)
    config nominas i e :
  NoDup (Ficha.cedula <$> empleados) →
  list_find (λ e, Ficha.cedula e = cedula) empleados = Some (i, e) →
  hardDelete ≠ Some "true" →
  let empleados' := (eliminarEmpleado ahora cedula hardDelete empleados).2 in
  let st := storeDe empleados config nominas in
  let st' := storeDe empleados' config nominas in
  (eliminarEmpleado ahora cedula hardDelete empleados).1 = Return (desactivar ahora e)
  ∧ obtenerEmpleado cedula empleados' = Return (desactivar ahora e)
  ∧ desactivar ahora e ∈ listarPorActivo (Some "false") empleados'
  ∧ (∀ x, x ∈ listarPorActivo (Some "true") empleados' → Ficha.cedula x ≠ cedula)
  ∧ empleadosActivos st'
    = filter (λ x, Empleado.cedula x ≠ cedula) (empleadosActivos st)
  ∧ (∀ body, LiquidarBody.cedula body = Some cedula →
       (liquidar g despues body st').1 = (liquidar g despues body st).1).
Proof.
  intros Hnd Hf Hh empleados' st st'.
  assert (He' : empleados' = <[i := desactivar ahora e]> empleados).
  { subst empleados'. unfold eliminarEmpleado. rewrite Hf.
    rewrite bool_decide_eq_false_2 by exact Hh. reflexivity. }
  pose proof Hf as (Hi & Hc & Hlt)%list_find_Some.
  pose proof (list_find_desactivar ahora _ _ _ _ Hf) as Hf'. rewrite <- He' in Hf'.
  assert (Hi' : empleados' !! i = Some (desactivar ahora e)).
  { apply list_find_Some in Hf' as (H & _). exact H. }
  split_and!.
  - unfold eliminarEmpleado. rewrite Hf.
    rewrite bool_decide_eq_false_2 by exact Hh. reflexivity.
  - unfold obtenerEmpleado. rewrite Hf'. reflexivity.
  - unfold listarPorActivo. apply list_elem_of_filter. split; [reflexivity|].
    exact (list_elem_of_lookup_2 _ _ _ Hi').
  - unfold listarPorActivo. intros x [Hact Hin]%list_elem_of_filter Hx.
    apply list_elem_of_lookup_1 in Hin as [j Hj].
    destruct (decide (j = i)) as [->|Hne].
    + rewrite Hi' in Hj. injection Hj as <-. discriminate Hact.
    + rewrite He', list_lookup_insert_ne in Hj by congruence.
      apply Hne. apply (NoDup_lookup (Ficha.cedula <$> empleados) j i cedula Hnd).
      * rewrite list_lookup_fmap, Hj. cbn. rewrite Hx. reflexivity.
      * rewrite list_lookup_fmap, Hi. cbn. rewrite Hc. reflexivity.
  - subst st st'. rewrite He', <- Hc. apply activos_tras_desactivar; assumption.
  - intros body Hb. unfold liquidar. rewrite Hb.
    cbn [cadenaVacia default from_option id].
    destruct (String.eqb cedula ""); [reflexivity|].
    destruct (cadenaVacia (LiquidarBody.periodo body)); [reflexivity|].
    subst st st'. unfold storeDe. cbn [Store.empleados Store.config].
    rewrite (list_find_empleadoDe _ _ _ _ Hf), (list_find_empleadoDe _ _ _ _ Hf').
    rewrite calcular_ignora_activo.
    destruct (calcular _ g (Some (empleadoDe e)) _ (Some config)); reflexivity.
Qed.

Lemma baja_y_liquidacion_witness :
  (eliminarEmpleado instante2 "43677978" None nominaDeDos).1
  = Return (desactivar instante2 fichaReferencia)
  ∧ obtenerEmpleado "43677978" nominaDeDosTrasBaja
    = Return (desactivar instante2 fichaReferencia)
  ∧ desactivar instante2 fichaReferencia ∈ listarPorActivo (Some "false") nominaDeDosTrasBaja
  ∧ (∀ x, x ∈ listarPorActivo (Some "true") nominaDeDosTrasBaja →
          Ficha.cedula x ≠ "43677978")
  ∧ empleadosActivos (storeDe nominaDeDosTrasBaja config2022 ∅)
    = filter (λ x, Empleado.cedula x ≠ "43677978")
        (empleadosActivos (storeDe nominaDeDos config2022 ∅))
  ∧ (∀ body, LiquidarBody.cedula body = Some "43677978" →
       (liquidar (conGlobal 1000000) instante2 body
          (storeDe nominaDeDosTrasBaja config2022 ∅)).1
       = (liquidar (conGlobal 1000000) instante2 body (storeDe nominaDeDos config2022 ∅)).1).
Proof.
  apply (baja_y_liquidacion (conGlobal 1000000) instante2 instante2 "43677978" None
           nominaDeDos config2022 ∅ 0%nat fichaReferencia).
  - apply (bool_decide_unpack _). vm_compute. exact I.
  - reflexivity.
  - discriminate.
Defined.
